(** * Order pricing and stock bookkeeping of the e-commerce dashboard

    A shallow embedding of the dashboard's stock, variant, order and invoice
    logic: the relational schema of [supabase/migrations], the handlers of
    [StockForm.tsx], [Inventory.tsx], [ProductForm.tsx], [ProductDetails.tsx],
    [OrderForm.tsx] and [Orders.tsx], the invoice helpers of
    [OrderDetails.tsx], the pagination of [Table.tsx] and the low-stock and
    order statistics of [store/index.ts].

    Conventions of the embedding.
    - Quantities are the integers [parseInt] produces, as [Z]; the [integer]
      columns of the schema accept the signed 32-bit range only.
    - Money is a JavaScript [number] on the client and a [numeric] in the
      database; both are read as their exact rational value ([Qc]).  The
      rounding of IEEE doubles is outside the model.
    - A row identifier is a [uuid] the database generates on insert, here
      the next number.
    - The backend answers each statement before the next one is sent; the
      statements of a [Promise.all] reach it in list order.
    - A handler runs in the monad [M]: it threads the database and the trace
      of what the operator and the backend observe (alerts, navigation,
      write requests), and may throw.  React view state that only caches what
      the database holds (loading flags, list caches) is left out. *)

From Stdlib Require Import ZArith QArith Qcanon Qround List String Ascii Bool Lia PeanoNat.
Import ListNotations.

Local Open Scope string_scope.
Local Open Scope list_scope.
Local Open Scope Z_scope.

(** ** JavaScript values *)

Module Js.

(** [s || null] for a string [s]: the empty string is falsy. *)
Definition or_null (s : string) : option string :=
  if String.eqb s "" then None else Some s.

(** Truthiness of a [number | null | undefined] (here [None] stands for
    [null] and [undefined]): zero is falsy. *)
Definition truthy_number (n : option Qc) : bool :=
  match n with
  | Some x => negb (Qc_eq_bool x 0%Qc)
  | None => false
  end.

(** [a || b] for integers: [0] (and [NaN], which [parseInt(..) || 0] already
    removed) is falsy. *)
Definition or_int (a b : Z) : Z := if Z.eqb a 0 then b else a.

(** Truthiness of a [string | null]. *)
Definition truthy_string (s : option string) : bool :=
  match s with
  | Some x => negb (String.eqb x "")
  | None => false
  end.

(** Coercion of [number | null] in an arithmetic position: [null] is [0]. *)
Definition to_number (n : option Qc) : Qc :=
  match n with
  | Some x => x
  | None => 0%Qc
  end.

(** [a || b] where [b] is a number and [a] a [number | null | undefined]. *)
Definition or_number (a : option Qc) (b : Qc) : Qc :=
  if truthy_number a then to_number a else b.

(** White space of [String.prototype.trim] among the 7-bit characters. *)
Definition is_white_space (c : ascii) : bool :=
  match nat_of_ascii c with
  | 9%nat | 10%nat | 11%nat | 12%nat | 13%nat | 32%nat => true
  | _ => false
  end.

Fixpoint trim_start (s : string) : string :=
  match s with
  | EmptyString => EmptyString
  | String c s' => if is_white_space c then trim_start s' else s
  end.

Fixpoint trim_end (s : string) : string :=
  match s with
  | EmptyString => EmptyString
  | String c s' =>
      match trim_end s' with
      | EmptyString => if is_white_space c then EmptyString else String c EmptyString
      | t => String c t
      end
  end.

(** [String.prototype.trim]. *)
Definition trim (s : string) : string := trim_end (trim_start s).

(** [arr[i]] in a string concatenation: outside an array of strings the
    element is [undefined], which concatenates as that word. *)
Definition at_index (arr : list string) (i : Z) : string :=
  if i <? 0 then "undefined" else nth (Z.to_nat i) arr "undefined".

(** [Array.prototype.find]. *)
Definition find {A} (f : A -> bool) (l : list A) : option A := List.find f l.

(** [Array.prototype.some]. *)
Definition some {A} (f : A -> bool) (l : list A) : bool := List.existsb f l.

End Js.

(** ** The relational schema *)

Definition uuid := nat.
Bind Scope nat_scope with uuid.

Definition MAX_INT4 : Z := 2147483647.
Definition MIN_INT4 : Z := -2147483648.

(** The range of a PostgreSQL [integer] column. *)
Definition int4 (z : Z) : bool := (MIN_INT4 <=? z) && (z <=? MAX_INT4).

Definition opt_eqb {A} (eqb : A -> A -> bool) (a b : option A) : bool :=
  match a, b with
  | Some x, Some y => eqb x y
  | None, None => true
  | _, _ => false
  end.

Definition opt_default {A} (d : A) (o : option A) : A :=
  match o with
  | Some x => x
  | None => d
  end.

(** [product_variants]: the first migration's table with the columns the
    variants migration adds. *)
Module ProductVariant.

Record row := mkRow {
  id : uuid;
  product_id : option uuid;
  size : option string;
  color : option string;
  quantity : Z;
  minimum_quantity : Z;
  price : option Qc;
  is_default : bool;
  variant_name : option string }.

(** The object an [insert] sends; an absent key takes the column default. *)
Record payload := mkPayload {
  p_product_id : option uuid;
  p_variant_name : option string;
  p_size : option string;
  p_color : option string;
  p_price : option Qc;
  p_quantity : option Z;
  p_minimum_quantity : option Z;
  p_is_default : option bool }.

(** The object an [update] sends; [None] leaves the column as it is. *)
Record patch := mkPatch {
  u_product_id : option (option uuid);
  u_variant_name : option (option string);
  u_size : option (option string);
  u_color : option (option string);
  u_price : option (option Qc);
  u_quantity : option Z;
  u_minimum_quantity : option Z;
  u_is_default : option bool }.

Definition only_quantity (q : Z) : patch :=
  mkPatch None None None None None (Some q) None None.

(** Column defaults: [quantity integer NOT NULL DEFAULT 0],
    [minimum_quantity integer NOT NULL DEFAULT 5],
    [is_default boolean NOT NULL DEFAULT false]; the others are NULL. *)
Definition of_payload (new_id : uuid) (p : payload) : row :=
  mkRow new_id (p_product_id p) (p_size p) (p_color p)
    (opt_default 0 (p_quantity p))
    (opt_default 5 (p_minimum_quantity p))
    (p_price p)
    (opt_default false (p_is_default p))
    (p_variant_name p).

Definition apply_patch (u : patch) (r : row) : row :=
  mkRow (id r)
    (opt_default (product_id r) (u_product_id u))
    (opt_default (size r) (u_size u))
    (opt_default (color r) (u_color u))
    (opt_default (quantity r) (u_quantity u))
    (opt_default (minimum_quantity r) (u_minimum_quantity u))
    (opt_default (price r) (u_price u))
    (opt_default (is_default r) (u_is_default u))
    (opt_default (variant_name r) (u_variant_name u)).

(** Row constraints: the [integer] columns, [minimum_quantity_not_negative]
    and [price_not_negative] (a CHECK passes on NULL). *)
Definition row_ok (r : row) : bool :=
  int4 (quantity r) && int4 (minimum_quantity r)
  && (0 <=? minimum_quantity r)
  && match price r with
     | Some p => Qle_bool 0 p
     | None => true
     end.

(** Whether [r] is the default variant of product [p]. *)
Definition default_of (p : uuid) (r : row) : bool :=
  is_default r && opt_eqb Nat.eqb (product_id r) (Some p).

(** [one_default_variant_per_product]: UNIQUE (product_id, is_default)
    WHERE (is_default = true).  Rows whose [product_id] is NULL never
    collide. *)
Fixpoint one_default (t : list row) : bool :=
  match t with
  | [] => true
  | r :: t' =>
      match is_default r, product_id r with
      | true, Some p => negb (existsb (default_of p) t')
      | _, _ => true
      end && one_default t'
  end.

Definition table_ok (t : list row) : bool :=
  forallb row_ok t && one_default t.

End ProductVariant.

(** [products], with the stock columns of the initial-stock migration. *)
Module Product.

Record row := mkRow {
  id : uuid;
  name : string;
  description : option string;
  sku : string;
  price : Qc;
  category_id : option uuid;
  image_url : option string;
  initial_stock : Z;
  minimum_stock : Z }.

(** [productData] of the product forms.  [p_price] carries the parsed price
    field, [None] standing for the [NaN] a blank field parses to (sent as
    [null]). *)
Record payload := mkPayload {
  p_name : string;
  p_description : string;
  p_sku : string;
  p_price : option Qc;
  p_category_id : option uuid;
  p_image_url : option string;
  p_initial_stock : Z;
  p_minimum_stock : Z }.

(** [price decimal NOT NULL]: a [null] price has no row. *)
Definition of_payload (new_id : uuid) (p : payload) : option row :=
  match p_price p with
  | Some pr =>
      Some (mkRow new_id (p_name p) (Some (p_description p)) (p_sku p) pr
              (p_category_id p) (p_image_url p)
              (p_initial_stock p) (p_minimum_stock p))
  | None => None
  end.

(** [initial_stock_not_negative], [minimum_stock_not_negative] and the
    [integer] columns. *)
Definition row_ok (r : row) : bool :=
  int4 (initial_stock r) && int4 (minimum_stock r)
  && (0 <=? initial_stock r) && (0 <=? minimum_stock r).

(** [sku text UNIQUE NOT NULL]. *)
Fixpoint sku_unique (t : list row) : bool :=
  match t with
  | [] => true
  | r :: t' => negb (existsb (fun r' => String.eqb (sku r') (sku r)) t') && sku_unique t'
  end.

Definition table_ok (t : list row) : bool :=
  forallb row_ok t && sku_unique t.

End Product.

(** [orders], after the delivery-address-and-charges migration. *)
Module Order.

Record row := mkRow {
  id : uuid;
  customer_id : option uuid;
  status : string;
  subtotal_amount : Qc;
  tax_amount : Qc;
  shipping_amount : Qc;
  discount_amount : Qc;
  total_amount : Qc;
  delivery_address_line1 : option string;
  delivery_address_line2 : option string;
  delivery_city : option string;
  delivery_state : option string;
  delivery_postal_code : option string;
  delivery_country : option string }.

Record payload := mkPayload {
  p_customer_id : option uuid;
  p_status : option string;
  p_subtotal_amount : option Qc;
  p_tax_amount : option Qc;
  p_shipping_amount : option Qc;
  p_discount_amount : option Qc;
  p_total_amount : option Qc;
  p_delivery_address_line1 : option string;
  p_delivery_address_line2 : option string;
  p_delivery_city : option string;
  p_delivery_state : option string;
  p_delivery_postal_code : option string;
  p_delivery_country : option string }.

Record patch := mkPatch {
  u_status : option string;
  u_subtotal_amount : option Qc;
  u_tax_amount : option Qc;
  u_shipping_amount : option Qc;
  u_discount_amount : option Qc;
  u_total_amount : option Qc }.

(** [total_amount numeric GENERATED ALWAYS AS (subtotal_amount + tax_amount
    + shipping_amount - discount_amount) STORED]. *)
Definition generated_total (subtotal tax shipping discount : Qc) : Qc :=
  (subtotal + tax + shipping - discount)%Qc.

(** The row an insert stores.  A payload that names the generated column
    is refused, as is one without the NOT NULL [subtotal_amount]; the
    charge columns default to 0 and the status to ['pending']. *)
Definition of_payload (new_id : uuid) (p : payload) : option row :=
  match p_total_amount p, p_subtotal_amount p with
  | None, Some subtotal =>
      let tax := opt_default 0%Qc (p_tax_amount p) in
      let shipping := opt_default 0%Qc (p_shipping_amount p) in
      let discount := opt_default 0%Qc (p_discount_amount p) in
      Some (mkRow new_id (p_customer_id p)
              (opt_default "pending" (p_status p))
              subtotal tax shipping discount
              (generated_total subtotal tax shipping discount)
              (p_delivery_address_line1 p) (p_delivery_address_line2 p)
              (p_delivery_city p) (p_delivery_state p)
              (p_delivery_postal_code p) (p_delivery_country p))
  | _, _ => None
  end.

(** The row an update leaves: the generated column is computed again from
    the new values of the columns it is defined from. *)
Definition apply_patch (u : patch) (r : row) : row :=
  let subtotal := opt_default (subtotal_amount r) (u_subtotal_amount u) in
  let tax := opt_default (tax_amount r) (u_tax_amount u) in
  let shipping := opt_default (shipping_amount r) (u_shipping_amount u) in
  let discount := opt_default (discount_amount r) (u_discount_amount u) in
  mkRow (id r) (customer_id r)
    (opt_default (status r) (u_status u))
    subtotal tax shipping discount
    (generated_total subtotal tax shipping discount)
    (delivery_address_line1 r) (delivery_address_line2 r)
    (delivery_city r) (delivery_state r)
    (delivery_postal_code r) (delivery_country r).

(** [subtotal_amount_not_negative], [tax_amount_not_negative],
    [shipping_amount_not_negative], [discount_amount_not_negative]. *)
Definition row_ok (r : row) : bool :=
  Qle_bool 0 (subtotal_amount r) && Qle_bool 0 (tax_amount r)
  && Qle_bool 0 (shipping_amount r) && Qle_bool 0 (discount_amount r).

End Order.

(** [order_items]. *)
Module OrderItem.

Record row := mkRow {
  id : uuid;
  order_id : option uuid;
  product_id : option uuid;
  variant_id : option uuid;
  quantity : Z;
  price : Qc }.

(** An element of [orderItems]; a [null] price is [None]. *)
Record payload := mkPayload {
  p_order_id : option uuid;
  p_product_id : option uuid;
  p_variant_id : option uuid;
  p_quantity : Z;
  p_price : option Qc }.

(** [price decimal NOT NULL]. *)
Definition of_payload (new_id : uuid) (p : payload) : option row :=
  match p_price p with
  | Some pr =>
      Some (mkRow new_id (p_order_id p) (p_product_id p) (p_variant_id p)
              (p_quantity p) pr)
  | None => None
  end.

(** [quantity integer NOT NULL]. *)
Definition row_ok (r : row) : bool := int4 (quantity r).

(** The rows of a multi-row insert, numbered from [first]; one bad row
    refuses the statement. *)
Fixpoint of_payloads (first : uuid) (ps : list payload) : option (list row) :=
  match ps with
  | [] => Some []
  | p :: ps' =>
      match of_payload first p, of_payloads (S first) ps' with
      | Some r, Some rs => if row_ok r then Some (r :: rs) else None
      | _, _ => None
      end
  end.

End OrderItem.

(** ** The database and the statements the client sends

    Referential constraints are not modelled: every identifier a form
    submits is taken from a list fetched from the same tables. *)

Record database := mkDb {
  products : list Product.row;
  product_variants : list ProductVariant.row;
  orders : list Order.row;
  order_items : list OrderItem.row;
  last_uuid : uuid }.

Definition empty_db : database := mkDb [] [] [] [] O.

(** The write statements of the client ([.insert], [.update(..).eq('id', ..)],
    [.delete().eq('product_id', ..)]). *)
Inductive request :=
| insert_product (p : Product.payload)
| update_product (id : uuid) (p : Product.payload)
| insert_variant (p : ProductVariant.payload)
| update_variant (id : uuid) (u : ProductVariant.patch)
| delete_variants (product_id : uuid)
| insert_order (p : Order.payload)
| update_order (id : uuid) (u : Order.patch)
| insert_order_items (ps : list OrderItem.payload).

(** [UPDATE t SET .. WHERE id = key]. *)
Definition update_where {R} (id_of : R -> uuid) (key : uuid) (f : R -> R) (t : list R) : list R :=
  map (fun r => if Nat.eqb (id_of r) key then f r else r) t.

(** The rows the statement touches pass the row constraints. *)
Definition touched_ok {R} (id_of : R -> uuid) (key : uuid) (ok : R -> bool) (t : list R) : bool :=
  forallb (fun r => negb (Nat.eqb (id_of r) key) || ok r) t.

(** One statement: [Some] database when the backend accepts it, [None]
    when a constraint refuses it (the database is then unchanged). *)
Definition perform (q : request) (d : database) : option database :=
  let new_id := S (last_uuid d) in
  match q with
  | insert_product p =>
      match Product.of_payload new_id p with
      | Some r =>
          let t := products d ++ [r] in
          if Product.row_ok r && Product.sku_unique t
          then Some (mkDb t (product_variants d) (orders d) (order_items d) new_id)
          else None
      | None => None
      end
  | update_product key p =>
      if existsb (fun r => Nat.eqb (Product.id r) key) (products d) then
        match Product.of_payload key p with
        | Some r =>
            let t := update_where Product.id key (fun _ => r) (products d) in
            if Product.row_ok r && Product.sku_unique t
            then Some (mkDb t (product_variants d) (orders d) (order_items d) (last_uuid d))
            else None
        | None => None
        end
      else Some d
  | insert_variant p =>
      let r := ProductVariant.of_payload new_id p in
      let t := product_variants d ++ [r] in
      if ProductVariant.row_ok r && ProductVariant.one_default t
      then Some (mkDb (products d) t (orders d) (order_items d) new_id)
      else None
  | update_variant key u =>
      let t := update_where ProductVariant.id key (ProductVariant.apply_patch u) (product_variants d) in
      if touched_ok ProductVariant.id key ProductVariant.row_ok t && ProductVariant.one_default t
      then Some (mkDb (products d) t (orders d) (order_items d) (last_uuid d))
      else None
  | delete_variants pid =>
      let t := filter (fun r => negb (opt_eqb Nat.eqb (ProductVariant.product_id r) (Some pid)))
                 (product_variants d) in
      Some (mkDb (products d) t (orders d) (order_items d) (last_uuid d))
  | insert_order p =>
      match Order.of_payload new_id p with
      | Some r =>
          if Order.row_ok r
          then Some (mkDb (products d) (product_variants d) (orders d ++ [r]) (order_items d) new_id)
          else None
      | None => None
      end
  | update_order key u =>
      match Order.u_total_amount u with
      | Some _ => None
      | None =>
          let t := update_where Order.id key (Order.apply_patch u) (orders d) in
          if touched_ok Order.id key Order.row_ok t
          then Some (mkDb (products d) (product_variants d) t (order_items d) (last_uuid d))
          else None
      end
  | insert_order_items ps =>
      match OrderItem.of_payloads new_id ps with
      | Some rs =>
          Some (mkDb (products d) (product_variants d) (orders d) (order_items d ++ rs)
                  (last_uuid d + List.length ps)%nat)
      | None => None
      end
  end.

(** The database after a statement, accepted or refused. *)
Definition after (q : request) (d : database) : database :=
  match perform q d with
  | Some d' => d'
  | None => d
  end.

(** The database after a sequence of statements. *)
Definition run (qs : list request) (d : database) : database :=
  fold_left (fun d q => after q d) qs d.

(** The schema's constraints hold of every stored row. *)
Definition valid (d : database) : bool :=
  Product.table_ok (products d)
  && ProductVariant.table_ok (product_variants d)
  && forallb Order.row_ok (orders d)
  && forallb OrderItem.row_ok (order_items d).

(** ** Handlers: database, trace and exceptions *)

(** What a handler does that is seen from outside, in order: [alert],
    [navigate] (to a fixed path or to an order's page),
    [setError]/[setSkuError], the browser's validation bubble on
    a form field, and a write statement with the backend's verdict. *)
Inductive event :=
| alert (message : string)
| navigate (path : string)
| navigate_order (order : uuid)
| set_error (field message : string)
| invalid (field : string)
| sent (q : request) (accepted : bool).

Record world := mkWorld {
  db : database;
  trace : list event }.

(** What a [try] block ends with: a value, or a thrown object; [Some m] is
    an [Error] with message [m], [None] a backend error object. *)
Inductive completion (A : Type) : Type :=
| normal (a : A)
| thrown (message : option string).

Arguments normal {A} a.
Arguments thrown {A} message.

Definition M (A : Type) : Type := world -> completion A * world.

Definition ret {A} (a : A) : M A := fun w => (normal a, w).

Definition bind {A B} (m : M A) (k : A -> M B) : M B :=
  fun w =>
    match m w with
    | (normal a, w') => k a w'
    | (thrown e, w') => (thrown e, w')
    end.

Notation "'let*' x ':=' m 'in' k" := (bind m (fun x => k))
  (at level 10, x name, m at level 100, k at level 200).
Notation "m ';;' k" := (bind m (fun _ => k))
  (at level 100, k at level 200, right associativity).

Definition throw {A} (e : option string) : M A := fun w => (thrown e, w).

(** [try { body } catch (error) { handler(error) }]. *)
Definition try_catch {A} (body : M A) (handler : option string -> M A) : M A :=
  fun w =>
    match body w with
    | (normal a, w') => (normal a, w')
    | (thrown e, w') => handler e w'
    end.

Definition emit (e : event) : M unit :=
  fun w => (normal tt, mkWorld (db w) (trace w ++ [e])).

Definition read {A} (f : database -> A) : M A :=
  fun w => (normal (f (db w)), w).

(** A write statement; the answer is the [error] field of the response
    ([true] when the backend refused). *)
Definition send (q : request) : M bool :=
  fun w =>
    match perform q (db w) with
    | Some d' => (normal false, mkWorld d' (trace w ++ [sent q true]))
    | None => (normal true, mkWorld (db w) (trace w ++ [sent q false]))
    end.

(** [.insert(..).select().single()]: the row's generated id, or [None] on
    an error. *)
Definition send_returning (q : request) : M (option uuid) :=
  fun w =>
    match perform q (db w) with
    | Some d' => (normal (Some (last_uuid d')), mkWorld d' (trace w ++ [sent q true]))
    | None => (normal None, mkWorld (db w) (trace w ++ [sent q false]))
    end.

(** [if (error) throw error]. *)
Definition throw_if (error : bool) : M unit :=
  if error then throw None else ret tt.

(** The write statements among events. *)
Definition writes (es : list event) : list request :=
  flat_map (fun e => match e with sent q _ => [q] | _ => [] end) es.

(** ** The query builder of the backend client *)

Module Supabase.

(** [.eq(column, value)] on a text column.  The client sends
    [column=eq.<value>], a [null] value spelt out as the text [null], and
    the backend compares the column with that text by SQL equality, which
    holds of no NULL column (the client's [.is] is the NULL test). *)
Definition eq_text (value : option string) (column : option string) : bool :=
  match column with
  | Some c => String.eqb c (opt_default "null" value)
  | None => false
  end.

(** [.eq(column, value)] on a uuid column. *)
Definition eq_uuid (value : uuid) (column : option uuid) : bool :=
  opt_eqb Nat.eqb column (Some value).

(** [.single()]: the row when exactly one row matches; otherwise the
    response carries an error and no data. *)
Definition single {A} (rows : list A) : option A :=
  match rows with
  | [r] => Some r
  | _ => None
  end.

(** [.range(from, to)]: the rows at the offsets [from] to [to] of the
    ordered result. *)
Definition range {A} (from to : Z) (rows : list A) : list A :=
  firstn (Z.to_nat (to - from + 1)) (skipn (Z.to_nat from) rows).

End Supabase.

(** ** [Table.tsx]: the paginated table of the list pages *)

Module Table.

Record PaginationState := mkPagination {
  page : Z;
  pageSize : Z;
  total : Z }.

(** [Math.ceil(pagination.total / pagination.pageSize)]. *)
Definition totalPages (pagination : PaginationState) : Z :=
  Qceiling (inject_Z (total pagination) / inject_Z (pageSize pagination)).

Definition startIndex (pagination : PaginationState) : Z :=
  (page pagination - 1) * pageSize pagination.

(** The page buttons: [Array.from({ length: totalPages }, (_, i) => i + 1)]. *)
Definition pages (pagination : PaginationState) : list Z :=
  map (fun i => Z.of_nat i + 1) (seq 0 (Z.to_nat (totalPages pagination))).

(** The two numbers of "Showing a to b of total entries". *)
Definition showing (pagination : PaginationState) (data_length : Z) : Z * Z :=
  (startIndex pagination + 1,
   Z.min (startIndex pagination + data_length) (total pagination)).

End Table.

(** ** [Inventory.tsx]: manual quantity override *)

Module Inventory.

(** PostgreSQL integer limits *)
Definition MAX_INTEGER : Z := 2147483647.
Definition MIN_INTEGER : Z := -2147483648.

Definition handleQuantityChange (id : uuid) (newQuantity : Z) : M unit :=
  try_catch
    (if (newQuantity >? MAX_INTEGER) || (newQuantity <? MIN_INTEGER) then
       emit (alert "Please enter a valid quantity between -2,147,483,648 and 2,147,483,647")
     else if newQuantity <? 0 then
       emit (alert "Quantity cannot be negative")
     else
       let* error := send (update_variant id (ProductVariant.only_quantity newQuantity)) in
       throw_if error)
    (fun _ => emit (alert "Failed to update quantity. Please try again.")).

(** The variants the page lists: those whose product exists (the embedded
    [products!inner]), newest first. *)
Definition listed (d : database) : list ProductVariant.row :=
  rev (filter (fun r => existsb (fun p => Supabase.eq_uuid (Product.id p) (ProductVariant.product_id r))
                          (products d))
         (product_variants d)).

(** [fetchInventory]: the rows of the current page and the count of all
    variants. *)
Definition fetchInventory (pagination : Table.PaginationState) (d : database) :
    list ProductVariant.row * Z :=
  (Supabase.range
     ((Table.page pagination - 1) * Table.pageSize pagination)
     (Table.page pagination * Table.pageSize pagination - 1)
     (listed d),
   Z.of_nat (List.length (product_variants d))).

Record StockStatus := mkStatus {
  label : string;
  className : string }.

Definition getStockStatus (quantity minQuantity : Z) : StockStatus :=
  if quantity =? 0 then mkStatus "Out of Stock" "bg-red-100 text-red-800"
  else if quantity <=? minQuantity then mkStatus "Low Stock" "bg-yellow-100 text-yellow-800"
  else mkStatus "In Stock" "bg-green-100 text-green-800".

Record InventoryStats := mkStats {
  outOfStock : nat;
  lowStock : nat;
  inStock : nat }.

(** The three cards above the table, counted on the rows of the page. *)
Definition getInventoryStats (inventory : list ProductVariant.row) : InventoryStats :=
  mkStats
    (List.length (filter (fun item => ProductVariant.quantity item =? 0) inventory))
    (List.length (filter (fun item => (ProductVariant.quantity item >? 0)
                                      && (ProductVariant.quantity item <=? ProductVariant.minimum_quantity item))
                    inventory))
    (List.length (filter (fun item => ProductVariant.quantity item >? ProductVariant.minimum_quantity item)
                    inventory)).

End Inventory.

(** ** [StockForm.tsx]: stock receipt *)

Module StockForm.

(** [formData]; [product_id] is [None] while no product is chosen (the
    empty string of the source). *)
Record StockFormData := mkForm {
  product_id : option uuid;
  size : string;
  color : string;
  quantity : Z }.

(** The rows the lookup of [handleSubmit] selects. *)
Definition matching (pid : uuid) (formData : StockFormData) (d : database) : list ProductVariant.row :=
  filter (fun r =>
            Supabase.eq_uuid pid (ProductVariant.product_id r)
            && Supabase.eq_text (Js.or_null (size formData)) (ProductVariant.size r)
            && Supabase.eq_text (Js.or_null (color formData)) (ProductVariant.color r))
    (product_variants d).

Definition handleSubmit (formData : StockFormData) : M unit :=
  match product_id formData with
  | None => emit (alert "Please select a product")
  | Some pid =>
      try_catch
        ((* Check if variant exists *)
         let* existingVariant := read (fun d => Supabase.single (matching pid formData d)) in
         match existingVariant with
         | Some v =>
             (* Update existing variant *)
             let* error := send (update_variant (ProductVariant.id v)
                                   (ProductVariant.only_quantity
                                      (ProductVariant.quantity v + quantity formData))) in
             throw_if error
         | None =>
             (* Create new variant *)
             let* error := send (insert_variant
                                   (ProductVariant.mkPayload (Some pid) None
                                      (Js.or_null (size formData)) (Js.or_null (color formData))
                                      None (Some (quantity formData)) None None)) in
             throw_if error
         end;;
         emit (navigate "/inventory"))
        (fun _ => emit (alert "Failed to save stock. Please try again."))
  end.

(** The form's submit event.  The quantity input is [required min="1"]:
    the browser shows its validation bubble and does not call the handler
    while the value is below 1. *)
Definition onSubmit (formData : StockFormData) : M unit :=
  if quantity formData <? 1 then emit (invalid "quantity") else handleSubmit formData.

End StockForm.

(** ** [ProductForm.tsx]: product creation *)

Module ProductForm.

(** A variant of the form.  [price] is what [parseFloat] gave ([None] for
    [NaN]). *)
Record Variant := mkVariant {
  id : option uuid;
  variant_name : string;
  size : string;
  color : string;
  price : option Qc;
  quantity : Z;
  minimum_quantity : Z;
  is_default : bool }.

(** [formData]; [price] carries [parseFloat(formData.price)]. *)
Record ProductFormData := mkForm {
  name : string;
  description : string;
  sku : string;
  price_field : option Qc;
  category_id : option uuid;
  image_url : option string;
  initial_stock : Z;
  minimum_stock : Z;
  variants : list Variant }.

(** The component: the route's [id] (present when editing), the form and
    the [hasVariants] flag.  No image file is pending. *)
Record state := mkState {
  route_id : option uuid;
  formData : ProductFormData;
  hasVariants : bool }.

Definition defaultVariant : Variant :=
  mkVariant None "" "" "" (Some 0%Qc) 0 5 false.

Definition set_variants (vs : list Variant) (f : ProductFormData) : ProductFormData :=
  mkForm (name f) (description f) (sku f) (price_field f) (category_id f)
    (image_url f) (initial_stock f) (minimum_stock f) vs.

Definition addVariant (s : state) : state :=
  let prev := formData s in
  mkState (route_id s)
    (set_variants
       (variants prev ++
          [mkVariant (id defaultVariant) (variant_name defaultVariant)
             (size defaultVariant) (color defaultVariant)
             (Some (Js.or_number (price_field prev) 0%Qc))
             (initial_stock prev) (minimum_stock prev)
             (Nat.eqb (List.length (variants prev)) 0)])
       prev)
    true.

(** [l.filter((_, i) => i !== index)]. *)
Fixpoint remove_at {A} (index : nat) (l : list A) : list A :=
  match l, index with
  | [], _ => []
  | _ :: l', O => l'
  | x :: l', S i => x :: remove_at i l'
  end.

Definition removeVariant (index : nat) (s : state) : state :=
  let newVariants := remove_at index (variants (formData s)) in
  mkState (route_id s) (set_variants newVariants (formData s))
    (if Nat.eqb (List.length newVariants) 0 then false else hasVariants s).

(** [l.map((v, i) => f(v, i))], counting from [from]. *)
Fixpoint mapi {A B} (f : A -> nat -> B) (from : nat) (l : list A) : list B :=
  match l with
  | [] => []
  | x :: l' => f x from :: mapi f (S from) l'
  end.

(** The radio button of variant [index]:
    [variants.map((v, i) => ({ ...v, is_default: i === index }))]. *)
Definition chooseDefault (index : nat) (s : state) : state :=
  mkState (route_id s)
    (set_variants
       (mapi (fun v i =>
                mkVariant (id v) (variant_name v) (size v) (color v) (price v)
                  (quantity v) (minimum_quantity v) (Nat.eqb i index))
          O (variants (formData s)))
       (formData s))
    (hasVariants s).

(** What an input of a variant hands to [handleVariantChange]: the field it
    edits and the new value ([parseFloat] of the price field, [parseInt] of
    the two quantity fields). *)
Inductive change :=
| variant_name_to (value : string)
| size_to (value : string)
| color_to (value : string)
| price_to (value : option Qc)
| quantity_to (value : Z)
| minimum_quantity_to (value : Z).

(** [{ ...variant, [field]: value }]. *)
Definition assign (c : change) (variant : Variant) : Variant :=
  match c with
  | variant_name_to value =>
      mkVariant (id variant) value (size variant) (color variant) (price variant)
        (quantity variant) (minimum_quantity variant) (is_default variant)
  | size_to value =>
      mkVariant (id variant) (variant_name variant) value (color variant) (price variant)
        (quantity variant) (minimum_quantity variant) (is_default variant)
  | color_to value =>
      mkVariant (id variant) (variant_name variant) (size variant) value (price variant)
        (quantity variant) (minimum_quantity variant) (is_default variant)
  | price_to value =>
      mkVariant (id variant) (variant_name variant) (size variant) (color variant) value
        (quantity variant) (minimum_quantity variant) (is_default variant)
  | quantity_to value =>
      mkVariant (id variant) (variant_name variant) (size variant) (color variant) (price variant)
        value (minimum_quantity variant) (is_default variant)
  | minimum_quantity_to value =>
      mkVariant (id variant) (variant_name variant) (size variant) (color variant) (price variant)
        (quantity variant) value (is_default variant)
  end.

Definition handleVariantChange (index : nat) (c : change) (s : state) : state :=
  mkState (route_id s)
    (set_variants
       (mapi (fun variant i => if Nat.eqb i index then assign c variant else variant)
          O (variants (formData s)))
       (formData s))
    (hasVariants s).

(** [checkSkuExists]: the first product with this SKU, unless it is the
    product being edited. *)
Definition checkSkuExists (route : option uuid) (sku : string) : M bool :=
  read (fun d =>
          match filter (fun r => String.eqb (Product.sku r) sku) (products d) with
          | [] => false
          | r :: _ =>
              match route with
              | Some i => negb (Nat.eqb (Product.id r) i)
              | None => true
              end
          end).

Definition productData (f : ProductFormData) : Product.payload :=
  Product.mkPayload (name f) (description f) (sku f) (price_field f)
    (category_id f) (image_url f) (initial_stock f) (minimum_stock f).

(** [a || b] on two parsed numbers. *)
Definition or_parsed (a b : option Qc) : option Qc :=
  if Js.truthy_number a then a else b.

Definition variantData (productId : uuid) (f : ProductFormData) (variant : Variant) : ProductVariant.payload :=
  ProductVariant.mkPayload (Some productId)
    (Some (variant_name variant))
    (Js.or_null (size variant))
    (Js.or_null (color variant))
    (or_parsed (price variant) (price_field f))
    (Some (Js.or_int (quantity variant) (initial_stock f)))
    (Some (Js.or_int (minimum_quantity variant) (minimum_stock f)))
    (Some (is_default variant)).

(** The payload of the product's single bookkeeping variant. *)
Definition default_variant_payload (productId : uuid) (f : ProductFormData) : ProductVariant.payload :=
  ProductVariant.mkPayload (Some productId) None None None None
    (Some (initial_stock f)) (Some (minimum_stock f)) (Some true).

(** [Promise.all(l.map(send))] whose individual answers are not looked at;
    the statements reach the backend in list order. *)
Fixpoint send_all (qs : list request) : M unit :=
  match qs with
  | [] => ret tt
  | q :: qs' => let* _ := send q in send_all qs'
  end.

Definition failure_message (e : option string) : string :=
  opt_default "Failed to save product. Please try again." e.

Definition handleSubmit (s : state) : M unit :=
  let f := formData s in
  try_catch
    (let* skuExists := checkSkuExists (route_id s) (sku f) in
     if skuExists then
       emit (set_error "sku" "This SKU is already in use. Please enter a unique SKU.")
     else
       match route_id s with
       | Some i =>
           let* error := send (update_product i (productData f)) in
           throw_if error
       | None =>
           let* data := send_returning (insert_product (productData f)) in
           match data with
           | None => throw None
           | Some productId =>
               (* Create variant(s) *)
               if hasVariants s && Nat.ltb 0 (List.length (variants f)) then
                 send_all (map (fun v => insert_variant (variantData productId f v)) (variants f))
               else
                 (* Create a default variant with initial stock *)
                 let* variantError := send (insert_variant (default_variant_payload productId f)) in
                 throw_if variantError
           end
       end;;
       emit (navigate "/products"))
    (fun e => emit (set_error "form" (failure_message e))).

End ProductForm.

(** ** [ProductDetails.tsx]: product editing *)

Module ProductDetails.

(** A variant of the page: a fetched row ([id] present, NULL columns as
    [None]) or one added on the page. *)
Record ProductVariant := mkVariant {
  id : option uuid;
  product_id : uuid;
  variant_name : option string;
  size : option string;
  color : option string;
  price : option Qc;
  quantity : Z;
  minimum_quantity : Z;
  is_default : bool }.

(** The page: the product shown, its edited fields, the variants and the
    [hasVariants] flag.  No image file is pending. *)
Record state := mkState {
  product : uuid;
  editedProduct : Product.payload;
  variants : list ProductVariant;
  hasVariants : bool }.

(** What [fetchProduct] puts on the page for a stored row. *)
Definition of_row (product : uuid) (r : ProductVariant.row) : ProductVariant :=
  mkVariant (Some (ProductVariant.id r)) product
    (ProductVariant.variant_name r) (ProductVariant.size r) (ProductVariant.color r)
    (ProductVariant.price r) (ProductVariant.quantity r)
    (ProductVariant.minimum_quantity r) (ProductVariant.is_default r).

(** The variants [fetchProduct] puts on the page, oldest first, and the
    [hasVariants] switch it derives from them. *)
Definition fetched_variants (product : uuid) (d : database) : list ProductVariant :=
  map (of_row product)
    (filter (fun r => Supabase.eq_uuid product (ProductVariant.product_id r))
       (product_variants d)).


Definition addVariant (s : state) : state :=
  mkState (product s) (editedProduct s)
    (variants s ++
       [mkVariant None (product s) (Some "") (Some "") (Some "")
          (Some (Js.or_number (Product.p_price (editedProduct s)) 0%Qc))
          (Js.or_int (Product.p_initial_stock (editedProduct s)) 0)
          (Js.or_int (Product.p_minimum_stock (editedProduct s)) 5)
          (Nat.eqb (List.length (variants s)) 0)])
    true.

Definition removeVariant (index : nat) (s : state) : state :=
  let newVariants := ProductForm.remove_at index (variants s) in
  mkState (product s) (editedProduct s) newVariants
    (if Nat.eqb (List.length newVariants) 0 then false else hasVariants s).

(** The radio button of variant [index] (while editing). *)
Definition chooseDefault (index : nat) (s : state) : state :=
  mkState (product s) (editedProduct s)
    (ProductForm.mapi (fun v i =>
                         mkVariant (id v) (product_id v) (variant_name v) (size v) (color v)
                           (price v) (quantity v) (minimum_quantity v) (Nat.eqb i index))
       O (variants s))
    (hasVariants s).

(** [checkSkuExists]: [.eq('sku', sku).neq('id', id).limit(1)]. *)
Definition checkSkuExists (product : uuid) (sku : string) : M bool :=
  read (fun d =>
          existsb (fun r => String.eqb (Product.sku r) sku && negb (Nat.eqb (Product.id r) product))
            (products d)).

(** [s || null] for a [string | null]. *)
Definition or_null (s : option string) : option string :=
  match s with
  | Some x => Js.or_null x
  | None => None
  end.

(** The statement that saves one variant: an update of the row it was
    fetched from, or an insert. *)
Definition save_variant (product : uuid) (variant : ProductVariant) : request :=
  match id variant with
  | Some i =>
      update_variant i
        (ProductVariant.mkPatch (Some (Some product)) (Some (variant_name variant))
           (Some (or_null (size variant))) (Some (or_null (color variant)))
           (Some (price variant)) (Some (quantity variant))
           (Some (minimum_quantity variant)) (Some (is_default variant)))
  | None =>
      insert_variant
        (ProductVariant.mkPayload (Some product) (variant_name variant)
           (or_null (size variant)) (or_null (color variant))
           (price variant) (Some (quantity variant))
           (Some (minimum_quantity variant)) (Some (is_default variant)))
  end.

Definition failure_message (e : option string) : string :=
  opt_default "Failed to update product. Please try again." e.

Definition handleSave (s : state) : M unit :=
  try_catch
    (if hasVariants s && negb (Js.some is_default (variants s)) then
       throw (Some "One variant must be marked as default")
     else
       let* skuExists := checkSkuExists (product s) (Product.p_sku (editedProduct s)) in
       if skuExists then
         emit (set_error "sku" "This SKU is already in use by another product")
       else
         (* Update product *)
         let* productError := send (update_product (product s) (editedProduct s)) in
         throw_if productError;;
         if hasVariants s then
           (* Update variants *)
           ProductForm.send_all (map (save_variant (product s)) (variants s))
         else
           (* Delete all variants and create a default one *)
           let* _ := send (delete_variants (product s)) in
           let* _ := send (insert_variant
                             (ProductVariant.mkPayload (Some (product s)) None None None None
                                (Some (Product.p_initial_stock (editedProduct s)))
                                (Some (Product.p_minimum_stock (editedProduct s)))
                                (Some true))) in
           ret tt)
    (fun e => emit (set_error "form" (failure_message e))).

End ProductDetails.

(** Short names for the tables, for the pages whose own types are called
    [Product], [ProductVariant], [OrderItem] and [Order]. *)
Module Products := Product.
Module Variants := ProductVariant.
Module OrderItems := OrderItem.
Module Orders := Order.

(** ** [OrderForm.tsx]: order entry *)

Module OrderForm.

Module ProductVariant.
Record t := mk {
  id : uuid;
  variant_name : option string;
  size : option string;
  color : option string;
  price : option Qc;
  quantity : Z }.
End ProductVariant.

Module Product.
Record t := mk {
  id : uuid;
  name : string;
  sku : string;
  price : Qc;
  variants : list ProductVariant.t }.
End Product.

Module OrderItem.
(** [product_id] is [None] for the empty string of an unset line; [price]
    is [None] when a chosen variant's price is [null]. *)
Record t := mk {
  product_id : option uuid;
  variant_id : option uuid;
  quantity : Z;
  price : option Qc;
  product : option Product.t;
  variant : option ProductVariant.t }.
End OrderItem.

Record DeliveryAddress := mkAddress {
  address_line1 : string;
  address_line2 : string;
  city : string;
  state : string;
  postal_code : string;
  country : string }.

Record Charges := mkCharges {
  tax_rate : Qc;
  shipping_amount : Qc;
  discount_amount : Qc }.

(** The columns [fetchProducts] selects of a variant: no [is_default]. *)
Definition variant_view (r : Variants.row) : ProductVariant.t :=
  ProductVariant.mk (Variants.id r) (Variants.variant_name r)
    (Variants.size r) (Variants.color r)
    (Variants.price r) (Variants.quantity r).

(** [fetchProducts]: every product with its variants embedded. *)
Definition fetchProducts (d : database) : list Product.t :=
  map (fun p =>
         Product.mk (Products.id p) (Products.name p) (Products.sku p) (Products.price p)
           (map variant_view
              (filter (fun r => Supabase.eq_uuid (Products.id p) (Variants.product_id r))
                 (product_variants d))))
    (products d).

(** The line a freshly added item starts as. *)
Definition blank_item : OrderItem.t :=
  OrderItem.mk None None 1 (Some 0%Qc) None None.

(** [prev.map((item, i) => i === index ? f(item) : item)]. *)
Definition set_at (index : nat) (f : OrderItem.t -> OrderItem.t) (items : list OrderItem.t) : list OrderItem.t :=
  ProductForm.mapi (fun item i => if Nat.eqb i index then f item else item) O items.

(** The variant [handleProductChange] proposes for a product. *)
Definition suggested_variant (product : Product.t) : option ProductVariant.t :=
  (* Only look for default variant if the product has variants with stock *)
  let hasVariantsInStock :=
    Js.some (fun v => ProductVariant.quantity v >? 0) (Product.variants product) in
  if hasVariantsInStock then
    Js.find (fun v => (ProductVariant.quantity v >? 0)
                      && Js.truthy_string (ProductVariant.variant_name v))
      (Product.variants product)
  else None.

(** [defaultVariant?.price || product.price]. *)
Definition suggested_price (product : Product.t) (defaultVariant : option ProductVariant.t) : Qc :=
  Js.or_number
    (match defaultVariant with
     | Some v => ProductVariant.price v
     | None => None
     end)
    (Product.price product).

Definition handleProductChange (products : list Product.t) (index : nat) (productId : uuid)
    (items : list OrderItem.t) : list OrderItem.t :=
  match Js.find (fun p => Nat.eqb (Product.id p) productId) products with
  | None => items
  | Some product =>
      let defaultVariant := suggested_variant product in
      set_at index
        (fun _ =>
           OrderItem.mk (Some productId)
             (option_map ProductVariant.id defaultVariant)
             1
             (Some (suggested_price product defaultVariant))
             (Some product)
             defaultVariant)
        items
  end.

(** An [index] outside the list makes the handler throw on [item.product];
    the items then stay as they are. *)
Definition handleVariantChange (index : nat) (variantId : uuid)
    (items : list OrderItem.t) : list OrderItem.t :=
  match nth_error items index with
  | None => items
  | Some item =>
      match OrderItem.product item with
      | None => items
      | Some product =>
          match Js.find (fun v => Nat.eqb (ProductVariant.id v) variantId)
                  (Product.variants product) with
          | None => items
          | Some variant =>
              set_at index
                (fun item =>
                   OrderItem.mk (OrderItem.product_id item) (Some variantId)
                     (OrderItem.quantity item) (ProductVariant.price variant)
                     (OrderItem.product item) (Some variant))
                items
          end
      end
  end.

Definition handleQuantityChange (index : nat) (quantity : Z)
    (items : list OrderItem.t) : list OrderItem.t :=
  set_at index
    (fun item =>
       OrderItem.mk (OrderItem.product_id item) (OrderItem.variant_id item) quantity
         (OrderItem.price item) (OrderItem.product item) (OrderItem.variant item))
    items.

Definition addItem (items : list OrderItem.t) : list OrderItem.t :=
  items ++ [blank_item].

(** [removeItem]: the items it leaves and what it shows. *)
Definition removeItem (index : nat) (items : list OrderItem.t) : list OrderItem.t * list event :=
  if Nat.eqb (List.length items) 1 then
    (items, [alert "Order must have at least one item"])
  else
    (ProductForm.remove_at index items, []).

(** The integer [z] as a number. *)
Definition number_of_int (z : Z) : Qc := Q2Qc (inject_Z z).

(** [item.price * item.quantity]. *)
Definition line_amount (price : option Qc) (quantity : Z) : Qc :=
  (Js.to_number price * number_of_int quantity)%Qc.

Definition calculateSubtotal (items : list OrderItem.t) : Qc :=
  fold_left
    (fun total item => (total + line_amount (OrderItem.price item) (OrderItem.quantity item))%Qc)
    items 0%Qc.


(** The component's state. *)
Record page := mkPage {
  selectedCustomer : option uuid;
  items : list OrderItem.t;
  deliveryAddress : DeliveryAddress;
  charges : Charges }.

Definition is_empty (s : string) : bool := String.eqb s "".

Definition order_payload (s : page) : Order.payload :=
  let subtotal := calculateSubtotal (items s) in
  let tax := (subtotal * tax_rate (charges s))%Qc in
  let a := deliveryAddress s in
  Order.mkPayload (selectedCustomer s) (Some "pending")
    (Some subtotal) (Some tax)
    (Some (shipping_amount (charges s))) (Some (discount_amount (charges s)))
    None
    (Some (address_line1 a)) (Js.or_null (address_line2 a))
    (Some (city a)) (Js.or_null (state a))
    (Some (postal_code a)) (Js.or_null (country a)).

Definition orderItems (order : uuid) (items : list OrderItem.t) : list OrderItems.payload :=
  map (fun item =>
         OrderItems.mkPayload (Some order) (OrderItem.product_id item)
           (OrderItem.variant_id item) (OrderItem.quantity item) (OrderItem.price item))
    items.

Definition handleSubmit (s : page) : M unit :=
  match selectedCustomer s with
  | None => emit (alert "Please select a customer")
  | Some _ =>
      if Js.some (fun item => match OrderItem.product_id item with
                              | None => true
                              | Some _ => false
                              end) (items s) then
        emit (alert "Please select products for all items")
      else if is_empty (address_line1 (deliveryAddress s))
              || is_empty (city (deliveryAddress s))
              || is_empty (postal_code (deliveryAddress s)) then
        emit (alert "Please provide a complete delivery address")
      else
        try_catch
          (let* order := send_returning (insert_order (order_payload s)) in
           match order with
           | None => throw None
           | Some order_id =>
               let* itemsError := send (insert_order_items (orderItems order_id (items s))) in
               throw_if itemsError;;
               emit (navigate_order order_id)
           end)
          (fun _ => emit (alert "Failed to create order. Please try again."))
  end.

End OrderForm.

(** ** [OrderDetails.tsx]: the invoice *)

Module OrderDetails.

Module OrderItem.
Record t := mk {
  id : uuid;
  product_id : option uuid;
  variant_id : option uuid;
  quantity : Z;
  price : Qc }.
End OrderItem.

Module Order.
Record t := mk {
  id : uuid;
  status : string;
  total_amount : Qc;
  subtotal_amount : Qc;
  tax_amount : Qc;
  shipping_amount : Qc;
  discount_amount : Qc;
  order_items : list OrderItem.t }.
End Order.

Definition item_view (r : OrderItems.row) : OrderItem.t :=
  OrderItem.mk (OrderItems.id r) (OrderItems.product_id r) (OrderItems.variant_id r)
    (OrderItems.quantity r) (OrderItems.price r).

(** The stored items of order [order]. *)
Definition items_of (order : uuid) (d : database) : list OrderItems.row :=
  filter (fun r => Supabase.eq_uuid order (OrderItems.order_id r)) (order_items d).

(** [fetchOrder]: the order row with its items embedded. *)
Definition fetchOrder (order : uuid) (d : database) : option Order.t :=
  match Supabase.single (filter (fun r => Nat.eqb (Orders.id r) order) (orders d)) with
  | Some r =>
      Some (Order.mk (Orders.id r) (Orders.status r) (Orders.total_amount r)
              (Orders.subtotal_amount r) (Orders.tax_amount r)
              (Orders.shipping_amount r) (Orders.discount_amount r)
              (map item_view (items_of order d)))
  | None => None
  end.

(** [handleStatusChange], the only update of an order the client sends. *)
Definition handleStatusChange (order : option Order.t) (newStatus : string) : M unit :=
  match order with
  | None => ret tt
  | Some o =>
      try_catch
        (let* error := send (update_order (Order.id o)
                               (Orders.mkPatch (Some newStatus) None None None None None)) in
         throw_if error)
        (fun _ => emit (alert "Failed to update order status. Please try again."))
  end.

Definition ones : list string :=
  [""; "One"; "Two"; "Three"; "Four"; "Five"; "Six"; "Seven"; "Eight"; "Nine"].
Definition tens : list string :=
  [""; ""; "Twenty"; "Thirty"; "Forty"; "Fifty"; "Sixty"; "Seventy"; "Eighty"; "Ninety"].
Definition teens : list string :=
  ["Ten"; "Eleven"; "Twelve"; "Thirteen"; "Fourteen"; "Fifteen"; "Sixteen"; "Seventeen";
   "Eighteen"; "Nineteen"].

Definition convertLessThanThousand (n : Z) : string :=
  if n =? 0 then ""
  else
    let result := "" in
    let '(result, n) :=
      if n >=? 100
      then ((result ++ Js.at_index ones (n / 100) ++ " Hundred ")%string, Z.rem n 100)
      else (result, n) in
    if n >=? 20 then
      let result := (result ++ Js.at_index tens (n / 10) ++ " ")%string in
      let n := Z.rem n 10 in
      if n >? 0 then (result ++ Js.at_index ones n ++ " ")%string else result
    else if n >=? 10 then
      (result ++ Js.at_index teens (n - 10) ++ " ")%string
    else if n >? 0 then (result ++ Js.at_index ones n ++ " ")%string
    else result.

(** [Math.floor]. *)
Definition floor (num : Qc) : Z := Qfloor num.

Definition numberToWords (num : Qc) : string :=
  if Qc_eq_bool num 0%Qc then "Zero"
  else
    let result := "" in
    let n := floor num in
    let '(result, n) :=
      if n >=? 1000000
      then ((result ++ convertLessThanThousand (n / 1000000) ++ "Million ")%string,
            Z.rem n 1000000)
      else (result, n) in
    let '(result, n) :=
      if n >=? 1000
      then ((result ++ convertLessThanThousand (n / 1000) ++ "Thousand ")%string,
            Z.rem n 1000)
      else (result, n) in
    let result := (result ++ convertLessThanThousand n)%string in
    (Js.trim result ++ " Only")%string.

(** One row of the invoice's items table: the numbers it shows. *)
Record line := mkLine {
  si_no : nat;
  line_quantity : Z;
  rate : Qc;
  amount : Qc }.

(** What [printInvoice] prints that is computed from the order: the item
    lines, the footer row of the items table, the tax table and the total
    in words.  The amounts are the numbers handed to [formatCurrency]. *)
Record invoice := mkInvoice {
  lines : list line;
  footer_quantity : Z;
  footer_total : Qc;
  taxable_value : Qc;
  central_tax : Qc;
  state_tax : Qc;
  total_tax : Qc;
  amount_in_words : string }.

Definition two : Qc := Q2Qc (inject_Z 2).

Definition printInvoice (order : Order.t) : invoice :=
  mkInvoice
    (ProductForm.mapi
       (fun item index =>
          mkLine (index + 1) (OrderItem.quantity item) (OrderItem.price item)
            (OrderItem.price item * OrderForm.number_of_int (OrderItem.quantity item))%Qc)
       O (Order.order_items order))
    (fold_left (fun sum item => sum + OrderItem.quantity item) (Order.order_items order) 0)
    (Order.subtotal_amount order)
    (Order.subtotal_amount order)
    (Order.tax_amount order / two)%Qc
    (Order.tax_amount order / two)%Qc
    (Order.tax_amount order)
    (numberToWords (Order.total_amount order)).

End OrderDetails.

(** ** [Orders.tsx]: the list of orders *)

Module OrdersList.

(** [handleStatusChange] of the list: the same statement as on the order's
    page; a failure is logged to the console only. *)
Definition handleStatusChange (newStatus : string) (orderId : uuid) : M unit :=
  try_catch
    (let* error := send (update_order orderId
                           (Orders.mkPatch (Some newStatus) None None None None None)) in
     throw_if error)
    (fun _ => ret tt).

End OrdersList.

(** ** [store/index.ts]: the figures of the dashboard *)

Module DashboardStore.

(** The variants of [lowStock], before each is given its product's
    name. *)
Definition lowStock_rows (productVariants : list Variants.row) : list Variants.row :=
  (* Filter low stock products in JavaScript *)
  firstn 6 (filter (fun item => Variants.quantity item <? Variants.minimum_quantity item)
              productVariants).






End DashboardStore.

(** ** Vocabulary of the properties *)

(** The row a manual override or a stock receipt leaves: only the
    quantity changes. *)
Definition set_quantity (n : Z) (r : ProductVariant.row) : ProductVariant.row :=
  ProductVariant.apply_patch (ProductVariant.only_quantity n) r.

(** The world a handler leaves. *)
Definition world_after {A} (m : M A) (w : world) : world := snd (m w).

(** The handler [m] keeps the property [P] of the database. *)
Definition keeps (P : database -> Prop) {A} (m : M A) : Prop :=
  forall w, P (db w) -> P (db (world_after m w)).

(** No stored variant refers to a product id the database has not
    generated yet. *)
Definition references_bounded (d : database) : Prop :=
  forall r p, In r (product_variants d) -> ProductVariant.product_id r = Some p ->
              (p <= last_uuid d)%nat.

(** The variants of product [p]. *)
Definition variants_of (p : uuid) (d : database) : list ProductVariant.row :=
  filter (fun r => Supabase.eq_uuid p (ProductVariant.product_id r)) (product_variants d).

(** The bookkeeping variant of a product created without explicit
    variants: stock and threshold from the product, the default flag set,
    no size, colour, name or price. *)
Definition bookkeeping_variant (id product : uuid) (initial_stock minimum_stock : Z) : ProductVariant.row :=
  ProductVariant.mkRow id (Some product) None None initial_stock minimum_stock None true None.

(** The variants of product [p] flagged [is_default]. *)
Definition defaults_of (p : uuid) (t : list ProductVariant.row) : list ProductVariant.row :=
  filter (ProductVariant.default_of p) t.


(** The charge columns are non-negative and the total is their exact
    combination. *)
Definition total_is_derived (r : Order.row) : Prop :=
  ((0 <= Order.subtotal_amount r)%Qc /\ (0 <= Order.tax_amount r)%Qc
   /\ (0 <= Order.shipping_amount r)%Qc /\ (0 <= Order.discount_amount r)%Qc)
  /\ Order.total_amount r
     = (Order.subtotal_amount r + Order.tax_amount r
        + Order.shipping_amount r - Order.discount_amount r)%Qc.

Definition totals_derived (d : database) : Prop :=
  forall r, In r (orders d) -> total_is_derived r.

(** The sum of the line amounts (price times quantity) of stored order
    items. *)
Definition sum_of_lines (rows : list OrderItem.row) : Qc :=
  fold_right (fun r acc => (OrderItem.price r * OrderForm.number_of_int (OrderItem.quantity r) + acc)%Qc)
    0%Qc rows.

(** A variant the order form can propose: in stock and named. *)
Definition named_in_stock (v : OrderForm.ProductVariant.t) : bool :=
  (OrderForm.ProductVariant.quantity v >? 0)
  && Js.truthy_string (OrderForm.ProductVariant.variant_name v).

(** The initial suggestion as the specification words it, on the stored
    variants of a product: the variant flagged [is_default] if it is in
    stock, else the first named variant in stock, else none. *)
Definition suggestion_by_default_flag (rows : list ProductVariant.row) : option ProductVariant.row :=
  match find (fun r => ProductVariant.is_default r && (ProductVariant.quantity r >? 0)) rows with
  | Some r => Some r
  | None =>
      find (fun r => Js.truthy_string (ProductVariant.variant_name r)
                     && (ProductVariant.quantity r >? 0)) rows
  end.

(** The order form proposes what the specification words, for every
    product it fetched. *)
Definition suggests_by_default_flag : Prop :=
  forall (d : database) (product : OrderForm.Product.t),
    In product (OrderForm.fetchProducts d) ->
    option_map OrderForm.ProductVariant.id (OrderForm.suggested_variant product)
    = option_map ProductVariant.id
        (suggestion_by_default_flag (variants_of (OrderForm.Product.id product) d)).

(** Order ids and the order references of stored items are ids the
    database has generated. *)
Definition order_refs_bounded (d : database) : Prop :=
  (forall r, In r (orders d) -> (Order.id r <= last_uuid d)%nat)
  /\ (forall i o, In i (order_items d) -> OrderItem.order_id i = Some o ->
                  (o <= last_uuid d)%nat).





(** The stored variants that carry the key (product, size, colour), an
    empty size or colour standing for NULL. *)
Definition carrying (pid : uuid) (size color : string) (d : database) : list ProductVariant.row :=
  filter (fun r =>
            Supabase.eq_uuid pid (ProductVariant.product_id r)
            && opt_eqb String.eqb (ProductVariant.size r) (Js.or_null size)
            && opt_eqb String.eqb (ProductVariant.color r) (Js.or_null color))
    (product_variants d).

(** The quantities on hand under a key. *)
Definition on_hand (pid : uuid) (size color : string) (d : database) : list Z :=
  map ProductVariant.quantity (carrying pid size color d).

(** Submitting the stock form for a key with a received quantity. *)
Definition receive (pid : uuid) (size color : string) (q : Z) : M unit :=
  StockForm.onSubmit (StockForm.mkForm (Some pid) size color q).

(** Variant ids are ids the database has generated. *)
Definition variant_ids_bounded (d : database) : Prop :=
  forall r, In r (product_variants d) -> (ProductVariant.id r <= last_uuid d)%nat.

(** C3 as stated: on a database that satisfies its schema, receiving [q1]
    and then [q2] under a key leaves on hand what one receipt of [q1 + q2]
    leaves, and nothing below [max q1 q2]. *)
Definition receipts_accumulate : Prop :=
  forall (w : world) (pid : uuid) (size color : string) (q1 q2 : Z),
    valid (db w) = true -> variant_ids_bounded (db w) -> 0 < q1 -> 0 < q2 ->
    let twice := db (world_after (receive pid size color q2)
                       (world_after (receive pid size color q1) w)) in
    let once := db (world_after (receive pid size color (q1 + q2)) w) in
    on_hand pid size color twice = on_hand pid size color once
    /\ Forall (fun q => Z.max q1 q2 <= q) (on_hand pid size color twice).

(** [sub] occurs in [s]. *)
Definition contains (sub s : string) : Prop :=
  exists before after, s = (before ++ sub ++ after)%string.

(** Sample data: a shirt with 20 pieces in stock and an alert threshold
    of 5, entered without variants; a stocked database. *)
Module Sample.

Definition number (z : Z) : Qc := Q2Qc (inject_Z z).

Definition shirt : ProductForm.state :=
  ProductForm.mkState None
    (ProductForm.mkForm "Shirt" "" "SH-1" (Some (number 10)) None None 20 5 [])
    false.

Definition start : world := mkWorld empty_db [].

(** One product with a variant (M, Red) that holds [quantity] pieces. *)
Definition stocked (quantity : Z) : world :=
  mkWorld
    (mkDb [Product.mkRow 1 "Shirt" (Some "") "SH-1" (number 10) None None 0 5]
       [ProductVariant.mkRow 2 (Some 1%nat) (Some "M") (Some "Red") quantity 5 None false None]
       [] [] 2)
    [].


(** A shirt created without variants (its bookkeeping variant is the
    default one and has no name) to which a named variant was added
    later. *)
Definition named_beside_default : database :=
  mkDb [Product.mkRow 1 "Shirt" (Some "") "SH-1" (number 10) None None 20 5]
    [ProductVariant.mkRow 2 (Some 1%nat) None None 20 5 None true None;
     ProductVariant.mkRow 3 (Some 1%nat) None None 5 5 (Some (number 12)) false (Some "Basic")]
    [] [] 3.

(** A shirt priced 10 whose only variant is a free sample (price 0). *)
Definition free_sample : OrderForm.ProductVariant.t :=
  OrderForm.ProductVariant.mk 2 (Some "Sample") None None (Some (number 0)) 5.

Definition shirt_with_sample : OrderForm.Product.t :=
  OrderForm.Product.mk 1 "Shirt" "SH-1" (number 10) [free_sample].

(** The specification's order scenario: two lines (10.00 x 2, 5.00 x 1),
    tax rate 0.10, shipping 10, no discount. *)
Definition order_page : OrderForm.page :=
  OrderForm.mkPage (Some 7%nat)
    [OrderForm.OrderItem.mk (Some 1%nat) None 2 (Some (number 10)) None None;
     OrderForm.OrderItem.mk (Some 2%nat) None 1 (Some (number 5)) None None]
    (OrderForm.mkAddress "1 Main Street" "" "Springfield" "" "12345" "")
    (OrderForm.mkCharges (Q2Qc (1 # 10)) (number 10) (number 0)).

(** An order of three thousand million shirts at 10. *)
Definition bulk_order : OrderForm.page :=
  OrderForm.mkPage (Some 7%nat)
    [OrderForm.OrderItem.mk (Some 1%nat) None 3000000000 (Some (number 10)) None None]
    (OrderForm.mkAddress "1 Main Street" "" "Springfield" "" "12345" "")
    (OrderForm.mkCharges (Q2Qc (1 # 10)) (number 10) (number 0)).

(** A stock receipt for the (M, Red) variant of product 1. *)
Definition receive_red (quantity : Z) : StockForm.StockFormData :=
  StockForm.mkForm (Some 1%nat) "M" "Red" quantity.

(** An insert and an update that try to set the total themselves. *)
Definition insert_with_total : Order.payload :=
  Order.mkPayload None None (Some (number 25)) None None None (Some (number 99))
    None None None None None None.

Definition update_with_total : Order.patch :=
  Order.mkPatch None None None None None (Some (number 99)).

End Sample.

(** ** Vocabulary of the further properties *)

(** A variant without its quantity: what a stock handler has to leave as
    it is. *)
Definition but_quantity (r : ProductVariant.row) : ProductVariant.row := set_quantity 0 r.

(** What the order form checks before it writes: a customer is chosen,
    every line has a product, and the delivery address has its first line,
    city and postal code. *)
Definition ready (s : OrderForm.page) : bool :=
  match OrderForm.selectedCustomer s with Some _ => true | None => false end
  && forallb (fun item => match OrderForm.OrderItem.product_id item with
                          | Some _ => true
                          | None => false
                          end) (OrderForm.items s)
  && negb (OrderForm.is_empty (OrderForm.address_line1 (OrderForm.deliveryAddress s)))
  && negb (OrderForm.is_empty (OrderForm.city (OrderForm.deliveryAddress s)))
  && negb (OrderForm.is_empty (OrderForm.postal_code (OrderForm.deliveryAddress s))).

(** A line the backend can store: it has a price, and its quantity is a
    32-bit integer. *)
Definition storable (item : OrderForm.OrderItem.t) : bool :=
  match OrderForm.OrderItem.price item with
  | Some _ => int4 (OrderForm.OrderItem.quantity item)
  | None => false
  end.


(** What the operator does to the lines of the order form. *)
Inductive line_edit :=
| choose_product (index : nat) (productId : uuid)
| choose_variant (index : nat) (variantId : uuid)
| type_quantity (index : nat) (quantity : Z)
| add_line
| remove_line (index : nat).

Definition edit_lines (products : list OrderForm.Product.t) (e : line_edit)
    (items : list OrderForm.OrderItem.t) : list OrderForm.OrderItem.t :=
  match e with
  | choose_product index productId => OrderForm.handleProductChange products index productId items
  | choose_variant index variantId => OrderForm.handleVariantChange index variantId items
  | type_quantity index quantity => OrderForm.handleQuantityChange index quantity items
  | add_line => OrderForm.addItem items
  | remove_line index => fst (OrderForm.removeItem index items)
  end.

(** The lines of the form after a sequence of edits; the form opens with
    one blank line. *)
Definition lines_after (products : list OrderForm.Product.t) (es : list line_edit) :
    list OrderForm.OrderItem.t :=
  fold_left (fun items e => edit_lines products e items) es [OrderForm.blank_item].

(** An order row with another status and nothing else changed. *)
Definition with_status (status : string) (r : Order.row) : Order.row :=
  Order.mkRow (Order.id r) (Order.customer_id r) status
    (Order.subtotal_amount r) (Order.tax_amount r)
    (Order.shipping_amount r) (Order.discount_amount r) (Order.total_amount r)
    (Order.delivery_address_line1 r) (Order.delivery_address_line2 r)
    (Order.delivery_city r) (Order.delivery_state r)
    (Order.delivery_postal_code r) (Order.delivery_country r).


(** Capitalised words, each followed by one space: where a reader of such
    a text stands. *)
Inductive position :=
| boundary   (* before a word *)
| capital    (* after the capital letter of a word *)
| inside.    (* after a small letter *)

Definition is_upper (c : ascii) : bool :=
  (65 <=? nat_of_ascii c)%nat && (nat_of_ascii c <=? 90)%nat.

Definition is_lower (c : ascii) : bool :=
  (97 <=? nat_of_ascii c)%nat && (nat_of_ascii c <=? 122)%nat.

Fixpoint scan (p : position) (s : string) : option position :=
  match s with
  | EmptyString => Some p
  | String c s' =>
      match p with
      | boundary => if is_upper c then scan capital s' else None
      | capital => if is_lower c then scan inside s' else None
      | inside =>
          if is_lower c then scan inside s'
          else if Ascii.eqb c " " then scan boundary s'
          else None
      end
  end.

(** [s] is one or more capitalised words (a capital letter, then small
    letters) separated by single spaces, with no space before or after. *)
Definition worded (s : string) : bool :=
  match s, scan boundary (s ++ " ") with
  | String _ _, Some boundary => true
  | _, _ => false
  end.

(** What [convertLessThanThousand] gives below a thousand: no text for 0,
    else words that each end in a space. *)
Definition hundreds_checked (m : nat) : bool :=
  match OrderDetails.convertLessThanThousand (Z.of_nat m) with
  | EmptyString => Nat.eqb m 0
  | String c s => match scan boundary (String c s) with
                  | Some boundary => true
                  | _ => false
                  end
  end.

(** A product other than [self] carries the SKU ([self] is the product
    being edited, if any). *)
Definition sku_taken (self : option uuid) (sku : string) (d : database) : bool :=
  existsb (fun r => String.eqb (Product.sku r) sku
                    && match self with
                       | Some i => negb (Nat.eqb (Product.id r) i)
                       | None => true
                       end)
    (products d).

(** A stock figure the [products] table accepts. *)
Definition stock_figure (z : Z) : bool := (0 <=? z) && (z <=? MAX_INT4).

(** What the operator does to the variants of the product form. *)
Inductive variant_edit :=
| add_variant
| remove_variant (index : nat)
| choose_default (index : nat)
| change_variant (index : nat) (c : ProductForm.change).

Definition edit_variants (e : variant_edit) (s : ProductForm.state) : ProductForm.state :=
  match e with
  | add_variant => ProductForm.addVariant s
  | remove_variant index => ProductForm.removeVariant index s
  | choose_default index => ProductForm.chooseDefault index s
  | change_variant index c => ProductForm.handleVariantChange index c s
  end.

(** The form after a sequence of edits. *)
Definition form_after (es : list variant_edit) (s : ProductForm.state) : ProductForm.state :=
  fold_left (fun s e => edit_variants e s) es s.

(** The variants of the form flagged default. *)
Definition form_defaults (s : ProductForm.state) : list ProductForm.Variant :=
  filter ProductForm.is_default (ProductForm.variants (ProductForm.formData s)).

(** Every event is a statement that went out, accepted or not. *)
Definition all_sent (qs : list request) (es : list event) : Prop :=
  Forall2 (fun q e => exists accepted, e = sent q accepted) qs es.

(** The label of the inventory page for a variant. *)
Definition status_label (item : ProductVariant.row) : string :=
  Inventory.label (Inventory.getStockStatus (ProductVariant.quantity item)
                     (ProductVariant.minimum_quantity item)).

(** The number of rows of the inventory table whose status reads
    [label]. *)
Definition labelled (label : string) (inventory : list ProductVariant.row) : nat :=
  List.length (filter (fun item => String.eqb (status_label item) label) inventory).

(** The number of rows with a negative quantity. *)
Definition overdrawn (inventory : list ProductVariant.row) : nat :=
  List.length (filter (fun item => ProductVariant.quantity item <? 0) inventory).


(** Further sample data. *)
Module Sample2.




(** A shirt with two named variants, the second one the default. *)
Definition two_variants : database :=
  mkDb [Product.mkRow 1 "Shirt" (Some "") "SH-1" (Sample.number 10) None None 0 5]
    [ProductVariant.mkRow 2 (Some 1%nat) (Some "M") None 3 5 (Some (Sample.number 10)) false
       (Some "Medium");
     ProductVariant.mkRow 3 (Some 1%nat) (Some "L") None 4 5 (Some (Sample.number 10)) true
       (Some "Large")]
    [] [] 3.

(** Its product page after a click on the default button of the first
    variant. *)
Definition flag_moved : ProductDetails.state :=
  ProductDetails.chooseDefault 0
    (ProductDetails.mkState 1
       (Product.mkPayload "Shirt" "" "SH-1" (Some (Sample.number 10)) None None 0 5)
       (ProductDetails.fetched_variants 1 two_variants)
       true).

(** A mug with 20 pieces of initial stock, entered with one variant whose
    quantity field was left at 0. *)
Definition mug : ProductForm.state :=
  ProductForm.mkState None
    (ProductForm.mkForm "Mug" "" "MUG-1" (Some (Sample.number 8)) None None 20 5
       [ProductForm.mkVariant None "Plain" "" "" (Some (Sample.number 0)) 0 0 true])
    true.

(** The form of the stored shirt, opened for editing, with a variant added
    in the form and its initial stock changed to 50. *)
Definition shirt_edited : ProductForm.state :=
  ProductForm.addVariant
    (ProductForm.mkState (Some 1%nat)
       (ProductForm.mkForm "Shirt" "" "SH-1" (Some (Sample.number 10)) None None 50 5 [])
       false).

End Sample2.

(** * Properties *)

(** ** Handlers only change the database through statements *)

Section Preservation.

Variable P : database -> Prop.
Hypothesis P_perform : forall q d d', P d -> perform q d = Some d' -> P d'.

Lemma keeps_ret {A} (a : A) : keeps P (ret a).
Proof. intros w H; exact H. Qed.

Lemma keeps_throw {A} (e : option string) : keeps P (@throw A e).
Proof. intros w H; exact H. Qed.

Lemma keeps_emit (e : event) : keeps P (emit e).
Proof. intros w H; exact H. Qed.

Lemma keeps_read {A} (f : database -> A) : keeps P (read f).
Proof. intros w H; exact H. Qed.

Lemma keeps_bind {A B} (m : M A) (k : A -> M B) :
  keeps P m -> (forall a, keeps P (k a)) -> keeps P (bind m k).
Proof.
  unfold keeps, world_after. intros Hm Hk w H. unfold bind.
  specialize (Hm w H). destruct (m w) as [[a|e] w']; cbn in *.
  - apply Hk, Hm.
  - exact Hm.
Qed.

Lemma keeps_try_catch {A} (body : M A) (handler : option string -> M A) :
  keeps P body -> (forall e, keeps P (handler e)) -> keeps P (try_catch body handler).
Proof.
  unfold keeps, world_after. intros Hm Hk w H. unfold try_catch.
  specialize (Hm w H). destruct (body w) as [[a|e] w']; cbn in *.
  - exact Hm.
  - apply Hk, Hm.
Qed.

Lemma keeps_send (q : request) : keeps P (send q).
Proof.
  unfold keeps, world_after. intros w H. unfold send.
  destruct (perform q (db w)) as [d'|] eqn:E; cbn.
  - exact (P_perform _ _ _ H E).
  - exact H.
Qed.

Lemma keeps_send_returning (q : request) : keeps P (send_returning q).
Proof.
  unfold keeps, world_after. intros w H. unfold send_returning.
  destruct (perform q (db w)) as [d'|] eqn:E; cbn.
  - exact (P_perform _ _ _ H E).
  - exact H.
Qed.

Lemma keeps_throw_if (b : bool) : keeps P (throw_if b).
Proof. destruct b; [apply keeps_throw | apply keeps_ret]. Qed.

Lemma keeps_send_all (qs : list request) : keeps P (ProductForm.send_all qs).
Proof.
  induction qs as [|q qs IH]; cbn [ProductForm.send_all].
  - apply keeps_ret.
  - apply keeps_bind; [apply keeps_send | intros _; exact IH].
Qed.

Lemma keeps_after (q : request) (d : database) : P d -> P (after q d).
Proof.
  intros H. unfold after. destruct (perform q d) eqn:E; eauto.
Qed.

Lemma keeps_run (qs : list request) (d : database) : P d -> P (run qs d).
Proof.
  revert d. induction qs as [|q qs IH]; intros d H; cbn.
  - exact H.
  - apply IH, keeps_after, H.
Qed.

End Preservation.

Create HintDb keeps.

#[local] Hint Resolve keeps_ret keeps_throw keeps_emit keeps_read keeps_send
  keeps_send_returning keeps_throw_if keeps_send_all : keeps.

(** Decomposes a handler into its statements. *)
Ltac keeps_handler :=
  repeat first
    [ progress intros
    | apply keeps_try_catch
    | apply keeps_bind
    | solve [eauto with keeps]
    | match goal with
      | |- keeps _ (if ?b then _ else _) => destruct b
      | |- keeps _ (match ?x with _ => _ end) => destruct x
      end ].

Section Handlers.

Variable P : database -> Prop.
Hypothesis P_perform : forall q d d', P d -> perform q d = Some d' -> P d'.


Lemma keeps_StockForm_handleSubmit f : keeps P (StockForm.handleSubmit f).
Proof. unfold StockForm.handleSubmit. keeps_handler. Qed.

Lemma keeps_StockForm_onSubmit f : keeps P (StockForm.onSubmit f).
Proof.
  unfold StockForm.onSubmit. destruct (_ <? _); auto with keeps.
  apply keeps_StockForm_handleSubmit.
Qed.



Lemma keeps_OrderForm_handleSubmit s : keeps P (OrderForm.handleSubmit s).
Proof. unfold OrderForm.handleSubmit. keeps_handler. Qed.

Lemma keeps_OrderDetails_handleStatusChange order newStatus :
  keeps P (OrderDetails.handleStatusChange order newStatus).
Proof. unfold OrderDetails.handleStatusChange. keeps_handler. Qed.

End Handlers.

(** ** The schema's constraints are invariants *)

Lemma existsb_false_filter {A} (f : A -> bool) (l : list A) :
  existsb f l = false -> filter f l = [].
Proof.
  induction l as [|x l IH]; cbn; [reflexivity|].
  destruct (f x); cbn; [discriminate | exact IH].
Qed.

Lemma filter_nil_existsb {A} (f : A -> bool) (l : list A) :
  filter f l = [] -> existsb f l = false.
Proof.
  induction l as [|x l IH]; cbn; [reflexivity|].
  destruct (f x); cbn; [discriminate | exact IH].
Qed.

Lemma opt_eqb_nat_eq (a b : option nat) : opt_eqb Nat.eqb a b = true <-> a = b.
Proof.
  destruct a as [x|], b as [y|]; cbn; split; intros H; try congruence; try discriminate.
  - apply Nat.eqb_eq in H; congruence.
  - inversion H; apply Nat.eqb_refl.
Qed.

Lemma default_of_true (p : uuid) (r : ProductVariant.row) :
  ProductVariant.default_of p r = true <->
  ProductVariant.is_default r = true /\ ProductVariant.product_id r = Some p.
Proof.
  unfold ProductVariant.default_of. rewrite andb_true_iff, opt_eqb_nat_eq. reflexivity.
Qed.

Lemma one_default_sound (t : list ProductVariant.row) :
  ProductVariant.one_default t = true ->
  forall p, (List.length (defaults_of p t) <= 1)%nat.
Proof.
  unfold defaults_of.
  induction t as [|r t IH]; cbn [ProductVariant.one_default filter]; intros H p.
  - cbn; lia.
  - apply andb_true_iff in H as [Hr Ht].
    destruct (ProductVariant.default_of p r) eqn:D.
    + apply default_of_true in D as [D1 D2]. rewrite D1, D2 in Hr.
      apply negb_true_iff, existsb_false_filter in Hr. rewrite Hr. cbn; lia.
    + apply IH, Ht.
Qed.

Lemma one_default_complete (t : list ProductVariant.row) :
  (forall p, (List.length (defaults_of p t) <= 1)%nat) ->
  ProductVariant.one_default t = true.
Proof.
  unfold defaults_of.
  induction t as [|r t IH]; cbn [ProductVariant.one_default]; intros H; [reflexivity|].
  apply andb_true_iff; split.
  - destruct (ProductVariant.is_default r) eqn:D1; [|reflexivity].
    destruct (ProductVariant.product_id r) as [p|] eqn:D2; [|reflexivity].
    specialize (H p). cbn [filter] in H.
    assert (D : ProductVariant.default_of p r = true) by (apply default_of_true; auto).
    rewrite D in H. cbn in H.
    apply negb_true_iff, filter_nil_existsb.
    destruct (filter (ProductVariant.default_of p) t); [reflexivity | cbn in H; lia].
  - apply IH. intros p. specialize (H p). cbn [filter] in H.
    destruct (ProductVariant.default_of p r); cbn in H; lia.
Qed.

Lemma filter_filter_length {A} (f g : A -> bool) (l : list A) :
  (List.length (filter f (filter g l)) <= List.length (filter f l))%nat.
Proof.
  induction l as [|x l IH]; cbn; [lia|].
  destruct (g x); cbn; destruct (f x); cbn; lia.
Qed.


Lemma forallb_app_one {A} (f : A -> bool) (l : list A) (x : A) :
  forallb f (l ++ [x]) = forallb f l && f x.
Proof. rewrite forallb_app; cbn. now rewrite andb_true_r. Qed.

Lemma forallb_update_touched {R} (id_of : R -> uuid) (key : uuid) (f : R -> R)
    (ok : R -> bool) (t : list R) :
  (forall r, id_of r = key -> id_of (f r) = key) ->
  forallb ok t = true ->
  touched_ok id_of key ok (update_where id_of key f t) = true ->
  forallb ok (update_where id_of key f t) = true.
Proof.
  intros Hid. unfold touched_ok, update_where.
  induction t as [|r t IH]; cbn; [reflexivity|]. intros H T.
  apply andb_true_iff in H as [H1 H2]. apply andb_true_iff in T as [T1 T2].
  rewrite (IH H2 T2), andb_true_r.
  destruct (Nat.eqb (id_of r) key) eqn:E; [|exact H1].
  apply Nat.eqb_eq in E. rewrite (Hid r E), Nat.eqb_refl in T1. exact T1.
Qed.

Lemma forallb_update_const {R} (id_of : R -> uuid) (key : uuid) (r' : R)
    (ok : R -> bool) (t : list R) :
  ok r' = true -> forallb ok t = true ->
  forallb ok (update_where id_of key (fun _ => r') t) = true.
Proof.
  intros Hr. unfold update_where.
  induction t as [|r t IH]; cbn; [reflexivity|]. intros H.
  apply andb_true_iff in H as [H1 H2]. rewrite (IH H2), andb_true_r.
  destruct (Nat.eqb (id_of r) key); assumption.
Qed.

Lemma forallb_filter_keeps {A} (f g : A -> bool) (l : list A) :
  forallb f l = true -> forallb f (filter g l) = true.
Proof.
  induction l as [|x l IH]; cbn; [reflexivity|]. intros H.
  apply andb_true_iff in H as [H1 H2].
  destruct (g x); cbn; [rewrite H1|]; auto.
Qed.

Lemma one_default_filter (g : ProductVariant.row -> bool) (t : list ProductVariant.row) :
  ProductVariant.one_default t = true -> ProductVariant.one_default (filter g t) = true.
Proof.
  intros H. apply one_default_complete. intros p. unfold defaults_of.
  etransitivity; [apply filter_filter_length | apply (one_default_sound t H p)].
Qed.

Lemma of_payloads_ok (ps : list OrderItem.payload) :
  forall first rs, OrderItem.of_payloads first ps = Some rs ->
                   forallb OrderItem.row_ok rs = true.
Proof.
  induction ps as [|p ps IH]; cbn; intros first rs E.
  - inversion E; reflexivity.
  - destruct (OrderItem.of_payload first p) as [r|]; [|discriminate].
    destruct (OrderItem.of_payloads (S first) ps) as [rs'|] eqn:E'; [|discriminate].
    destruct (OrderItem.row_ok r) eqn:R; inversion E; subst.
    cbn. rewrite R. exact (IH _ _ E').
Qed.

(** Case analysis on the checks of an accepted statement. *)
Ltac accepted_if E C :=
  match type of E with
  | context [if ?b then _ else _] => destruct b eqn:C; [|discriminate E]
  end.

Ltac accepted_some E C :=
  match type of E with
  | context [match ?x with Some _ => _ | None => _ end] =>
      destruct x eqn:C; [|discriminate E]
  end.

Lemma valid_true (d : database) :
  valid d = true <->
  (forallb Product.row_ok (products d) = true
   /\ Product.sku_unique (products d) = true)
  /\ (forallb ProductVariant.row_ok (product_variants d) = true
      /\ ProductVariant.one_default (product_variants d) = true)
  /\ forallb Order.row_ok (orders d) = true
  /\ forallb OrderItem.row_ok (order_items d) = true.
Proof.
  unfold valid, Product.table_ok, ProductVariant.table_ok.
  rewrite !andb_true_iff. tauto.
Qed.

(** A statement the backend accepts leaves every constraint in force. *)
Lemma perform_valid (q : request) (d d' : database) :
  valid d = true -> perform q d = Some d' -> valid d' = true.
Proof.
  rewrite !valid_true. intros [[Hp Hs] [[Hv Hd] [Ho Hi]]] E.
  destruct q; cbn in E.
  - accepted_some E R. accepted_if E C. inversion E; subst; cbn.
    apply andb_true_iff in C as [C1 C2].
    rewrite forallb_app_one, Hp, C1. auto.
  - destruct (existsb _ _); [|inversion E; subst; auto].
    accepted_some E R. accepted_if E C. inversion E; subst; cbn.
    apply andb_true_iff in C as [C1 C2].
    rewrite (forallb_update_const _ _ _ _ _ C1 Hp). auto.
  - accepted_if E C. inversion E; subst; cbn.
    apply andb_true_iff in C as [C1 C2].
    rewrite forallb_app_one, Hv, C1. auto.
  - accepted_if E C. inversion E; subst; cbn.
    apply andb_true_iff in C as [C1 C2].
    rewrite (forallb_update_touched ProductVariant.id _ (ProductVariant.apply_patch u) _ _
               (fun r e => e)) by assumption.
    auto.
  - inversion E; subst; cbn.
    rewrite forallb_filter_keeps, one_default_filter by assumption. auto.
  - accepted_some E R. accepted_if E C. inversion E; subst; cbn.
    rewrite forallb_app_one, Ho, C. auto.
  - destruct (Order.u_total_amount _); [discriminate|].
    accepted_if E C. inversion E; subst; cbn.
    rewrite (forallb_update_touched Order.id _ (Order.apply_patch u) _ _
               (fun r e => e)) by assumption.
    auto.
  - accepted_some E R. inversion E; subst; cbn.
    rewrite forallb_app, Hi, (of_payloads_ok _ _ _ R). auto.
Qed.


(** ** Steps of a handler *)

Lemma send_accepted (q : request) (d d' : database) (tr : list event) :
  perform q d = Some d' ->
  send q (mkWorld d tr) = (normal false, mkWorld d' (tr ++ [sent q true])).
Proof. intros E. unfold send. cbn. now rewrite E. Qed.

Lemma send_refused (q : request) (d : database) (tr : list event) :
  perform q d = None ->
  send q (mkWorld d tr) = (normal true, mkWorld d (tr ++ [sent q false])).
Proof. intros E. unfold send. cbn. now rewrite E. Qed.

Lemma send_returning_accepted (q : request) (d d' : database) (tr : list event) :
  perform q d = Some d' ->
  send_returning q (mkWorld d tr)
  = (normal (Some (last_uuid d')), mkWorld d' (tr ++ [sent q true])).
Proof. intros E. unfold send_returning. cbn. now rewrite E. Qed.

Lemma send_returning_refused (q : request) (d : database) (tr : list event) :
  perform q d = None ->
  send_returning q (mkWorld d tr) = (normal None, mkWorld d (tr ++ [sent q false])).
Proof. intros E. unfold send_returning. cbn. now rewrite E. Qed.

Lemma perform_insert_variant (p : ProductVariant.payload) (d : database) :
  ProductVariant.row_ok (ProductVariant.of_payload (S (last_uuid d)) p) = true ->
  ProductVariant.one_default
    (product_variants d ++ [ProductVariant.of_payload (S (last_uuid d)) p]) = true ->
  perform (insert_variant p) d
  = Some (mkDb (products d)
            (product_variants d ++ [ProductVariant.of_payload (S (last_uuid d)) p])
            (orders d) (order_items d) (S (last_uuid d))).
Proof. intros H1 H2. unfold perform. cbv zeta. now rewrite H1, H2. Qed.

(** ** Manual override ([Inventory.handleQuantityChange]) *)

Lemma existsb_map_same {A} (f : A -> bool) (g : A -> A) (l : list A) :
  (forall x, f (g x) = f x) -> existsb f (map g l) = existsb f l.
Proof.
  intros H. induction l as [|x l IH]; cbn; [reflexivity|]. now rewrite H, IH.
Qed.

(** Rewriting rows without touching [product_id] and [is_default] leaves
    the unique index as it was. *)
Lemma one_default_map (g : ProductVariant.row -> ProductVariant.row) (t : list ProductVariant.row) :
  (forall r, ProductVariant.is_default (g r) = ProductVariant.is_default r) ->
  (forall r, ProductVariant.product_id (g r) = ProductVariant.product_id r) ->
  ProductVariant.one_default (map g t) = ProductVariant.one_default t.
Proof.
  intros Hd Hp. induction t as [|r t IH]; cbn; [reflexivity|].
  rewrite Hd, Hp, IH. destruct (ProductVariant.is_default r); [|reflexivity].
  destruct (ProductVariant.product_id r) as [p|]; [|reflexivity].
  rewrite existsb_map_same; [reflexivity|].
  intros x. unfold ProductVariant.default_of. now rewrite Hd, Hp.
Qed.

Lemma one_default_set_quantity (key : uuid) (n : Z) (t : list ProductVariant.row) :
  ProductVariant.one_default (update_where ProductVariant.id key (set_quantity n) t)
  = ProductVariant.one_default t.
Proof.
  apply one_default_map; intros r; destruct (Nat.eqb (ProductVariant.id r) key); reflexivity.
Qed.

Lemma row_ok_set_quantity (n : Z) (r : ProductVariant.row) :
  int4 n = true -> ProductVariant.row_ok r = true ->
  ProductVariant.row_ok (set_quantity n r) = true.
Proof.
  unfold ProductVariant.row_ok. cbn. intros Hn H.
  rewrite !andb_true_iff in *. tauto.
Qed.

Lemma touched_ok_set_quantity (key : uuid) (n : Z) (t : list ProductVariant.row) :
  int4 n = true -> forallb ProductVariant.row_ok t = true ->
  touched_ok ProductVariant.id key ProductVariant.row_ok
    (update_where ProductVariant.id key (set_quantity n) t) = true.
Proof.
  intros Hn. unfold touched_ok, update_where.
  induction t as [|r t IH]; cbn; [reflexivity|]. intros H.
  apply andb_true_iff in H as [H1 H2]. rewrite (IH H2), andb_true_r.
  destruct (Nat.eqb (ProductVariant.id r) key) eqn:E.
  - cbn. rewrite E. cbn. apply (row_ok_set_quantity n r Hn H1).
  - rewrite E. reflexivity.
Qed.

(** On a database that satisfies its schema, setting a quantity to a value
    of the [integer] range is accepted. *)
Lemma perform_set_quantity (key : uuid) (n : Z) (d : database) :
  valid d = true -> int4 n = true ->
  perform (update_variant key (ProductVariant.only_quantity n)) d
  = Some (mkDb (products d)
            (update_where ProductVariant.id key (set_quantity n) (product_variants d))
            (orders d) (order_items d) (last_uuid d)).
Proof.
  intros V Hn. apply valid_true in V as [_ [[Hv Hd] _]].
  unfold perform. cbv zeta.
  change (ProductVariant.apply_patch (ProductVariant.only_quantity n)) with (set_quantity n).
  now rewrite touched_ok_set_quantity, one_default_set_quantity, Hd.
Qed.

Lemma in_update_where {R} (id_of : R -> uuid) (key : uuid) (f : R -> R) (t : list R) (r : R) :
  In r (update_where id_of key f t) ->
  exists r0, In r0 t /\ r = (if Nat.eqb (id_of r0) key then f r0 else r0).
Proof.
  unfold update_where. rewrite in_map_iff. intros [r0 [E I]]. eauto.
Qed.

(** C7.  Manual override: on a database that satisfies its schema, a value
    from 0 to 2147483647 is written as it is, by one accepted update that
    sets the quantity of the rows with that id and of no other row; a
    negative value or one above 2147483647 only raises an alert: no
    statement is sent and the database is unchanged. *)
Theorem manual_override_sets_or_rejects (w : world) (id : uuid) (n : Z) :
  valid (db w) = true ->
  let w' := world_after (Inventory.handleQuantityChange id n) w in
  (0 <= n <= MAX_INT4 ->
     product_variants (db w')
     = update_where ProductVariant.id id (set_quantity n) (product_variants (db w))
     /\ (forall v, In v (product_variants (db w')) -> ProductVariant.id v = id ->
                   ProductVariant.quantity v = n)
     /\ trace w' = trace w ++ [sent (update_variant id (ProductVariant.only_quantity n)) true])
  /\ (n < 0 \/ MAX_INT4 < n ->
        db w' = db w
        /\ writes (trace w') = writes (trace w)
        /\ exists message, trace w' = trace w ++ [alert message]).
Proof.
  intros V w'. subst w'. unfold world_after, Inventory.handleQuantityChange, try_catch.
  unfold Inventory.MAX_INTEGER, Inventory.MIN_INTEGER, MAX_INT4.
  split.
  - intros [H0 H1].
    replace ((n >? 2147483647) || (n <? -2147483648)) with false
      by (symmetry; apply orb_false_iff; split; lia).
    replace (n <? 0) with false by lia.
    unfold bind, send.
    rewrite (perform_set_quantity id n (db w) V)
      by (unfold int4, MIN_INT4, MAX_INT4; apply andb_true_iff; split; lia).
    cbn. repeat split.
    intros v Hv Hid. apply in_update_where in Hv as [r0 [_ ->]].
    destruct (Nat.eqb (ProductVariant.id r0) id) eqn:E; [reflexivity|].
    apply Nat.eqb_neq in E. contradiction.
  - intros H.
    destruct ((n >? 2147483647) || (n <? -2147483648)) eqn:R.
    + cbn. unfold writes. rewrite flat_map_app. cbn. rewrite app_nil_r. eauto.
    + apply orb_false_iff in R as [R1 R2].
      replace (n <? 0) with true by lia.
      cbn. unfold writes. rewrite flat_map_app. cbn. rewrite app_nil_r. eauto.
Qed.

Lemma manual_override_witness :
  let w := Sample.stocked 3 in
  valid (db w) = true
  /\ product_variants (db (world_after (Inventory.handleQuantityChange 2 7) w))
     = [ProductVariant.mkRow 2 (Some 1%nat) (Some "M") (Some "Red") 7 5 None false None]
  /\ db (world_after (Inventory.handleQuantityChange 2 (-1)) w) = db w.
Proof.
  intro w. split; [reflexivity|]. split.
  - refine (proj1 (proj1 (manual_override_sets_or_rejects w 2 7 eq_refl) _)).
    unfold MAX_INT4; lia.
  - refine (proj1 (proj2 (manual_override_sets_or_rejects w 2 (-1) eq_refl) _)).
    left; lia.
Defined.

(** ** Product creation ([ProductForm.handleSubmit]) *)

Lemma string_eqb_sym (a b : string) : String.eqb a b = String.eqb b a.
Proof.
  destruct (String.eqb_spec a b) as [->|N].
  - symmetry; apply String.eqb_refl.
  - symmetry. apply String.eqb_neq. congruence.
Qed.

(** A SKU the unique index accepts is not stored yet. *)
Lemma sku_unique_new (t : list Product.row) (r : Product.row) :
  Product.sku_unique (t ++ [r]) = true ->
  filter (fun r' => String.eqb (Product.sku r') (Product.sku r)) t = [].
Proof.
  induction t as [|x t IH]; cbn; [reflexivity|]. intros H.
  apply andb_true_iff in H as [H1 H2].
  apply negb_true_iff in H1. rewrite existsb_app in H1.
  apply orb_false_iff in H1 as [_ H1]. cbn in H1. rewrite orb_false_r in H1.
  rewrite string_eqb_sym, H1. exact (IH H2).
Qed.

Lemma filter_none {A} (f : A -> bool) (l : list A) :
  (forall x, In x l -> f x = false) -> filter f l = [].
Proof.
  induction l as [|x l IH]; cbn; intros H; [reflexivity|].
  rewrite (H x (or_introl eq_refl)). apply IH. intros y I. apply H. now right.
Qed.

(** A freshly generated product id has no variant yet. *)
Lemma references_bounded_fresh (d : database) (p : uuid) :
  references_bounded d -> (last_uuid d < p)%nat ->
  forall r, In r (product_variants d) ->
            opt_eqb Nat.eqb (ProductVariant.product_id r) (Some p) = false.
Proof.
  intros B L r I.
  destruct (opt_eqb Nat.eqb (ProductVariant.product_id r) (Some p)) eqn:E; [|reflexivity].
  apply opt_eqb_nat_eq in E. specialize (B r p I E). lia.
Qed.

(** A default variant of a product that has none yet passes the unique
    index. *)
Lemma one_default_new_product (t : list ProductVariant.row) (r : ProductVariant.row) (p : uuid) :
  ProductVariant.one_default t = true ->
  ProductVariant.product_id r = Some p ->
  filter (ProductVariant.default_of p) t = [] ->
  ProductVariant.one_default (t ++ [r]) = true.
Proof.
  intros H Hp Hn. apply one_default_complete. intros p'. unfold defaults_of.
  rewrite filter_app, length_app. cbn [filter].
  destruct (ProductVariant.default_of p' r) eqn:D.
  - apply default_of_true in D as [_ D]. assert (p' = p) by congruence. subst p'.
    rewrite Hn. cbn; lia.
  - cbn. rewrite Nat.add_0_r. apply (one_default_sound t H p').
Qed.

(** C4.  Creating a product without explicit variants: when the backend
    accepts the product (on a database that satisfies its schema and refers
    to no id ahead of its generator), the handler stores exactly one new
    variant, the only variant of the new product, with quantity
    [initial_stock], minimum quantity [minimum_stock], the default flag set
    and size, colour, variant name (and price) NULL. *)
Theorem default_variant_on_create (w : world) (s : ProductForm.state) (d1 : database) :
  let f := ProductForm.formData s in
  let productId := S (last_uuid (db w)) in
  let created := bookkeeping_variant (S productId) productId
                   (ProductForm.initial_stock f) (ProductForm.minimum_stock f) in
  ProductForm.route_id s = None ->
  ProductForm.hasVariants s && Nat.ltb 0 (List.length (ProductForm.variants f)) = false ->
  valid (db w) = true ->
  references_bounded (db w) ->
  perform (insert_product (ProductForm.productData f)) (db w) = Some d1 ->
  let w' := world_after (ProductForm.handleSubmit s) w in
  product_variants (db w') = product_variants (db w) ++ [created]
  /\ variants_of productId (db w') = [created]
  /\ products (db w') = products d1
  /\ trace w' = trace w ++ [sent (insert_product (ProductForm.productData f)) true;
                            sent (insert_variant (ProductForm.default_variant_payload productId f)) true;
                            navigate "/products"].
Proof.
  intros f productId created Hroute Hexplicit V B E w'.
  subst w'. destruct w as [d tr]. cbn [db trace] in *.
  assert (E' := E). cbn in E'.
  accepted_some E' R. accepted_if E' C. apply andb_true_iff in C as [C1 C2].
  inversion E'; subst d1; clear E'.
  assert (Hsku : Product.sku r = ProductForm.sku f).
  { unfold Product.of_payload in R. cbn in R.
    destruct (ProductForm.price_field f); inversion R; reflexivity. }
  assert (Hstock : Product.initial_stock r = ProductForm.initial_stock f
                   /\ Product.minimum_stock r = ProductForm.minimum_stock f).
  { unfold Product.of_payload in R. cbn in R.
    destruct (ProductForm.price_field f); inversion R; auto. }
  destruct Hstock as [Hi Hm].
  apply valid_true in V as [_ [[Hv Hd] _]].
  assert (Hfresh := references_bounded_fresh d productId B (Nat.lt_succ_diag_r _)).
  assert (Hok : ProductVariant.row_ok created = true).
  { unfold Product.row_ok in C1. rewrite Hi, Hm in C1.
    unfold ProductVariant.row_ok, created, bookkeeping_variant. cbn.
    rewrite !andb_true_iff in *. tauto. }
  assert (Hone : ProductVariant.one_default (product_variants d ++ [created]) = true).
  { apply (one_default_new_product _ created productId Hd); [reflexivity|].
    apply filter_none. intros x I. unfold ProductVariant.default_of.
    now rewrite (Hfresh x I), andb_false_r. }
  unfold world_after, ProductForm.handleSubmit, try_catch, bind.
  fold f. unfold ProductForm.checkSkuExists, read. cbn [db].
  rewrite <- Hsku, (sku_unique_new _ _ C2), Hroute.
  rewrite (send_returning_accepted _ _ _ _ E). cbn [last_uuid]. rewrite Hexplicit.
  match type of E with
  | _ = Some ?d1 =>
      pose proof (perform_insert_variant
                    (ProductForm.default_variant_payload productId f) d1 Hok Hone) as E2
  end.
  rewrite (send_accepted _ _ _ _ E2).
  cbn. rewrite <- !app_assoc. cbn.
  repeat split.
  unfold variants_of. cbn. rewrite filter_app. cbn.
  unfold Supabase.eq_uuid.
  rewrite (filter_none _ _ Hfresh). cbn. now rewrite Nat.eqb_refl.
Qed.

Lemma default_variant_on_create_witness :
  variants_of 1 (db (world_after (ProductForm.handleSubmit Sample.shirt) Sample.start))
  = [bookkeeping_variant 2 1 20 5].
Proof.
  refine (proj1 (proj2 (default_variant_on_create Sample.start Sample.shirt
                          (mkDb [Product.mkRow 1 "Shirt" (Some "") "SH-1" (Sample.number 10)
                                   None None 20 5] [] [] [] 1)
                          eq_refl eq_refl eq_refl _ eq_refl))).
  intros r p [].
Defined.

(** ** One default variant per product *)



(** ** The order total is a generated column *)

Lemma row_ok_nonneg (r : Order.row) :
  Order.row_ok r = true ->
  (0 <= Order.subtotal_amount r)%Qc /\ (0 <= Order.tax_amount r)%Qc
  /\ (0 <= Order.shipping_amount r)%Qc /\ (0 <= Order.discount_amount r)%Qc.
Proof.
  unfold Order.row_ok. rewrite !andb_true_iff, !Qle_bool_iff.
  unfold Qcle. tauto.
Qed.

Lemma of_payload_total (id : uuid) (p : Order.payload) (r : Order.row) :
  Order.of_payload id p = Some r ->
  Order.total_amount r
  = (Order.subtotal_amount r + Order.tax_amount r
     + Order.shipping_amount r - Order.discount_amount r)%Qc.
Proof.
  unfold Order.of_payload.
  destruct (Order.p_total_amount p); [discriminate|].
  destruct (Order.p_subtotal_amount p); [|discriminate].
  intros E; inversion E; reflexivity.
Qed.

Lemma touched_ok_in {R} (id_of : R -> uuid) (key : uuid) (ok : R -> bool) (t : list R) (r : R) :
  touched_ok id_of key ok t = true -> In r t -> id_of r = key -> ok r = true.
Proof.
  unfold touched_ok. rewrite forallb_forall. intros H I E.
  specialize (H r I). rewrite E, Nat.eqb_refl in H. exact H.
Qed.

(** Every statement keeps the totals derived. *)
Lemma perform_totals_derived (q : request) (d d' : database) :
  totals_derived d -> perform q d = Some d' -> totals_derived d'.
Proof.
  intros H E. destruct q; cbn in E.
  - accepted_some E R. accepted_if E C. inversion E; subst; exact H.
  - destruct (existsb _ _); [|inversion E; subst; exact H].
    accepted_some E R. accepted_if E C. inversion E; subst; exact H.
  - accepted_if E C. inversion E; subst; exact H.
  - accepted_if E C. inversion E; subst; exact H.
  - inversion E; subst; exact H.
  - accepted_some E R. accepted_if E C. inversion E; subst.
    intros r' I. cbn in I. apply in_app_or in I as [I|[<-|[]]]; [exact (H _ I)|].
    split; [exact (row_ok_nonneg _ C) | exact (of_payload_total _ _ _ R)].
  - destruct (Order.u_total_amount u); [discriminate|].
    accepted_if E C. inversion E; subst.
    intros r' I. cbn in I. assert (I' := I).
    apply in_update_where in I as [r0 [I0 ->]].
    destruct (Nat.eqb (Order.id r0) id) eqn:K; [|exact (H _ I0)].
    split; [|reflexivity].
    apply row_ok_nonneg.
    apply (touched_ok_in _ _ _ _ _ C I'). cbn. now apply Nat.eqb_eq.
  - accepted_some E R. inversion E; subst; exact H.
Qed.

(** C1.  The stored total of an order is its subtotal plus tax plus
    shipping minus discount, exactly, the four charges being non-negative:
    of every order in every database that statements of the client build
    from the empty one, and of every order after the two handlers that
    write orders (the order form's submit, the status change), run from a
    database where it holds.  The total cannot be set: an insert or an
    update that names [total_amount] is refused. *)
Theorem order_total_is_derived :
  (forall (qs : list request) (r : Order.row),
      In r (orders (run qs empty_db)) -> total_is_derived r)
  /\ (forall w : world,
        totals_derived (db w) ->
        (forall s, totals_derived (db (world_after (OrderForm.handleSubmit s) w)))
        /\ (forall order newStatus,
              totals_derived
                (db (world_after (OrderDetails.handleStatusChange order newStatus) w))))
  /\ (forall (d : database) (p : Order.payload) (x : Qc),
        Order.p_total_amount p = Some x -> perform (insert_order p) d = None)
  /\ (forall (d : database) (id : uuid) (u : Order.patch) (x : Qc),
        Order.u_total_amount u = Some x -> perform (update_order id u) d = None).
Proof.
  split; [|split; [|split]].
  - intros qs r I.
    apply (keeps_run totals_derived perform_totals_derived qs empty_db); [|exact I].
    intros r' [].
  - intros w H. split.
    + intros s. exact (keeps_OrderForm_handleSubmit _ perform_totals_derived s w H).
    + intros order newStatus.
      exact (keeps_OrderDetails_handleStatusChange _ perform_totals_derived order newStatus w H).
  - intros d p x H. cbn. unfold Order.of_payload. now rewrite H.
  - intros d id u x H. cbn. now rewrite H.
Qed.

Lemma order_total_witness :
  let w := world_after (OrderForm.handleSubmit Sample.order_page) Sample.start in
  Forall total_is_derived (orders (db w))
  /\ map (fun r => Qc_eq_bool (Order.total_amount r) (Q2Qc (75 # 2))) (orders (db w)) = [true]
  /\ perform (insert_order Sample.insert_with_total) empty_db = None
  /\ perform (update_order 1 Sample.update_with_total) (db w) = None.
Proof.
  intro w. split; [|split; [|split]].
  - apply Forall_forall. intros r I.
    exact (proj1 (proj1 (proj2 order_total_is_derived) Sample.start
                    (fun r' F => match F with end))
             Sample.order_page r I).
  - vm_compute. reflexivity.
  - exact (proj1 (proj2 (proj2 order_total_is_derived)) empty_db Sample.insert_with_total
             (Sample.number 99) eq_refl).
  - exact (proj2 (proj2 (proj2 order_total_is_derived)) (db w) 1%nat Sample.update_with_total
             (Sample.number 99) eq_refl).
Defined.

(** ** Variant suggestion and line price ([OrderForm]) *)

Lemma find_first {A} (f : A -> bool) (l : list A) :
  match find f l with
  | Some v =>
      exists before after,
        l = before ++ v :: after /\ f v = true /\ forall u, In u before -> f u = false
  | None => forall u, In u l -> f u = false
  end.
Proof.
  induction l as [|x l IH]; cbn.
  - intros u [].
  - destruct (f x) eqn:E.
    + exists [], l. repeat split; [exact E | intros u []].
    + destruct (find f l) as [v|].
      * destruct IH as [before [after [-> [Hv Hb]]]].
        exists (x :: before), after. repeat split; [exact Hv|].
        intros u [<-|I]; [exact E | exact (Hb u I)].
      * intros u [<-|I]; [exact E | exact (IH u I)].
Qed.

(** The guard on [hasVariantsInStock] changes nothing: a named variant in
    stock is a variant in stock. *)
Lemma suggested_variant_find (product : OrderForm.Product.t) :
  OrderForm.suggested_variant product
  = find named_in_stock (OrderForm.Product.variants product).
Proof.
  unfold OrderForm.suggested_variant, Js.some, Js.find.
  destruct (existsb _ _) eqn:E; [reflexivity|].
  generalize (find_first named_in_stock (OrderForm.Product.variants product)).
  destruct (find named_in_stock _) as [v|]; [|reflexivity].
  intros [before [after [Hl [Hv _]]]]. exfalso.
  apply Bool.not_true_iff_false in E. apply E. apply existsb_exists.
  exists v. split; [rewrite Hl; apply in_elt|].
  unfold named_in_stock in Hv. now apply andb_true_iff in Hv as [Hv _].
Qed.

Lemma nth_error_mapi {A B} (f : A -> nat -> B) (l : list A) :
  forall from i,
    nth_error (ProductForm.mapi f from l) i
    = option_map (fun x => f x (from + i)%nat) (nth_error l i).
Proof.
  induction l as [|x l IH]; intros from i; cbn.
  - destruct i; reflexivity.
  - destruct i; cbn.
    + now rewrite Nat.add_0_r.
    + rewrite IH. now rewrite Nat.add_succ_r.
Qed.

Lemma nth_error_set_at (index : nat) (f : OrderForm.OrderItem.t -> OrderForm.OrderItem.t)
    (items : list OrderForm.OrderItem.t) :
  nth_error (OrderForm.set_at index f items) index = option_map f (nth_error items index).
Proof.
  unfold OrderForm.set_at. rewrite nth_error_mapi. cbn.
  rewrite Nat.eqb_refl. reflexivity.
Qed.

(** The line [handleProductChange] writes when the product is found. *)
Lemma handleProductChange_line (products : list OrderForm.Product.t) (index : nat)
    (productId : uuid) (items : list OrderForm.OrderItem.t)
    (product : OrderForm.Product.t) (old : OrderForm.OrderItem.t) :
  Js.find (fun p => Nat.eqb (OrderForm.Product.id p) productId) products = Some product ->
  nth_error items index = Some old ->
  nth_error (OrderForm.handleProductChange products index productId items) index
  = Some (OrderForm.OrderItem.mk (Some productId)
            (option_map OrderForm.ProductVariant.id (OrderForm.suggested_variant product))
            1
            (Some (OrderForm.suggested_price product (OrderForm.suggested_variant product)))
            (Some product)
            (OrderForm.suggested_variant product)).
Proof.
  intros F N. unfold OrderForm.handleProductChange. rewrite F.
  rewrite nth_error_set_at, N. reflexivity.
Qed.

(** C5 as stated fails: a shirt has its bookkeeping variant, flagged
    default and in stock but without a name, and a named variant in stock;
    the form proposes the named one, not the one flagged default. *)
Lemma suggestion_ignores_default_flag : ~ suggests_by_default_flag.
Proof.
  intros H.
  specialize (H Sample.named_beside_default
                (OrderForm.Product.mk 1 "Shirt" "SH-1" (Sample.number 10)
                   (map OrderForm.variant_view (product_variants Sample.named_beside_default)))
                (or_introl eq_refl)).
  vm_compute in H. discriminate H.
Qed.

(** C5, amended.  The variant proposed for a product is the first of its
    fetched variants that has a positive quantity and a non-empty name,
    whatever the default flags say (the form does not fetch them); when no
    variant is both, none is proposed.  Selecting the product for a line
    puts that proposal on the line. *)
Theorem suggestion_is_first_named_in_stock (product : OrderForm.Product.t) :
  match OrderForm.suggested_variant product with
  | Some v =>
      exists before after,
        OrderForm.Product.variants product = before ++ v :: after
        /\ named_in_stock v = true
        /\ forall u, In u before -> named_in_stock u = false
  | None => forall u, In u (OrderForm.Product.variants product) -> named_in_stock u = false
  end
  /\ forall (products : list OrderForm.Product.t) (index : nat)
        (items : list OrderForm.OrderItem.t) (old : OrderForm.OrderItem.t),
      Js.find (fun p => Nat.eqb (OrderForm.Product.id p) (OrderForm.Product.id product)) products
      = Some product ->
      nth_error items index = Some old ->
      option_map OrderForm.OrderItem.variant
        (nth_error (OrderForm.handleProductChange products index (OrderForm.Product.id product)
                      items) index)
      = Some (OrderForm.suggested_variant product).
Proof.
  split.
  - rewrite suggested_variant_find. apply find_first.
  - intros products index items old F N.
    now rewrite (handleProductChange_line _ _ _ _ _ _ F N).
Qed.

Lemma suggestion_witness :
  option_map OrderForm.OrderItem.variant
    (nth_error (OrderForm.handleProductChange [Sample.shirt_with_sample] 0 1
                  [OrderForm.blank_item]) 0)
  = Some (Some Sample.free_sample).
Proof.
  exact (proj2 (suggestion_is_first_named_in_stock Sample.shirt_with_sample)
           [Sample.shirt_with_sample] 0%nat [OrderForm.blank_item] OrderForm.blank_item
           eq_refl eq_refl).
Defined.

(** C10.  Selecting a product whose proposed variant has price 0 prices
    the line at the product's base price; choosing a variant of the line's
    product prices the line at that variant's price, whatever it is (0
    included), and changes nothing else of the line but the variant. *)
Theorem line_price_fallback (products : list OrderForm.Product.t) (index : nat)
    (items : list OrderForm.OrderItem.t) (old : OrderForm.OrderItem.t) :
  nth_error items index = Some old ->
  (forall (productId : uuid) (product : OrderForm.Product.t) (v : OrderForm.ProductVariant.t),
      Js.find (fun p => Nat.eqb (OrderForm.Product.id p) productId) products = Some product ->
      OrderForm.suggested_variant product = Some v ->
      OrderForm.ProductVariant.price v = Some 0%Qc ->
      option_map OrderForm.OrderItem.price
        (nth_error (OrderForm.handleProductChange products index productId items) index)
      = Some (Some (OrderForm.Product.price product)))
  /\ (forall (variantId : uuid) (product : OrderForm.Product.t) (variant : OrderForm.ProductVariant.t),
        OrderForm.OrderItem.product old = Some product ->
        Js.find (fun v => Nat.eqb (OrderForm.ProductVariant.id v) variantId)
          (OrderForm.Product.variants product) = Some variant ->
        nth_error (OrderForm.handleVariantChange index variantId items) index
        = Some (OrderForm.OrderItem.mk (OrderForm.OrderItem.product_id old) (Some variantId)
                  (OrderForm.OrderItem.quantity old) (OrderForm.ProductVariant.price variant)
                  (OrderForm.OrderItem.product old) (Some variant))).
Proof.
  intros N. split.
  - intros productId product v F S P.
    rewrite (handleProductChange_line _ _ _ _ _ _ F N). cbn.
    rewrite S. unfold OrderForm.suggested_price. now rewrite P.
  - intros variantId product variant Hp F.
    unfold OrderForm.handleVariantChange. rewrite N, Hp, F.
    rewrite nth_error_set_at, N. cbn. now rewrite Hp.
Qed.

Lemma line_price_fallback_witness :
  let products := [Sample.shirt_with_sample] in
  let items := OrderForm.handleProductChange products 0 1 [OrderForm.blank_item] in
  option_map OrderForm.OrderItem.price (nth_error items 0) = Some (Some (Sample.number 10))
  /\ option_map OrderForm.OrderItem.price
       (nth_error (OrderForm.handleVariantChange 0 2 items) 0)
     = Some (Some (Sample.number 0)).
Proof.
  intros products items. split.
  - exact (proj1 (line_price_fallback products 0 [OrderForm.blank_item] OrderForm.blank_item
                    eq_refl)
             1%nat Sample.shirt_with_sample Sample.free_sample eq_refl eq_refl eq_refl).
  - rewrite (proj2 (line_price_fallback products 0 items
                      (OrderForm.OrderItem.mk (Some 1%nat) (Some 2%nat) 1
                         (Some (Sample.number 10)) (Some Sample.shirt_with_sample)
                         (Some Sample.free_sample))
                      eq_refl)
               2%nat Sample.shirt_with_sample Sample.free_sample eq_refl eq_refl).
    reflexivity.
Defined.

(** ** Stock receipts ([StockForm]) *)

Lemma filter_map_same {A} (p : A -> bool) (g : A -> A) (l : list A) :
  (forall x, p (g x) = p x) -> filter p (map g l) = map g (filter p l).
Proof.
  intros H. induction l as [|x l IH]; cbn; [reflexivity|].
  rewrite H. destruct (p x); cbn; now rewrite IH.
Qed.

(** With a size and a colour, the handler's lookup selects the variants
    that carry the key. *)
Lemma matching_carrying (pid : uuid) (size color : string) (q : Z) (d : database) :
  size <> "" -> color <> "" ->
  StockForm.matching pid (StockForm.mkForm (Some pid) size color q) d
  = carrying pid size color d.
Proof.
  intros Hs Hc. unfold StockForm.matching, carrying. apply filter_ext. intros r. cbn.
  unfold Js.or_null.
  apply String.eqb_neq in Hs, Hc. rewrite Hs, Hc.
  unfold Supabase.eq_text.
  destruct (ProductVariant.size r), (ProductVariant.color r); reflexivity.
Qed.

(** Setting quantities moves no variant to another key. *)
Lemma carrying_update (pid : uuid) (size color : string) (key : uuid) (n : Z) (d : database)
    (ps : list Product.row) (os : list Order.row) (its : list OrderItem.row) (u : uuid) :
  carrying pid size color
    (mkDb ps (update_where ProductVariant.id key (set_quantity n) (product_variants d)) os its u)
  = update_where ProductVariant.id key (set_quantity n) (carrying pid size color d).
Proof.
  unfold carrying, update_where. cbn [product_variants].
  apply filter_map_same. intros r.
  destruct (Nat.eqb (ProductVariant.id r) key); reflexivity.
Qed.

Lemma update_where_twice (key : uuid) (a b : Z) (t : list ProductVariant.row) :
  update_where ProductVariant.id key (set_quantity b)
    (update_where ProductVariant.id key (set_quantity a) t)
  = update_where ProductVariant.id key (set_quantity b) t.
Proof.
  unfold update_where. rewrite map_map. apply map_ext. intros r.
  destruct (Nat.eqb (ProductVariant.id r) key) eqn:E; cbn; now rewrite E.
Qed.

Lemma update_where_fresh (key : uuid) (f : ProductVariant.row -> ProductVariant.row)
    (t : list ProductVariant.row) :
  (forall r, In r t -> ProductVariant.id r <> key) ->
  update_where ProductVariant.id key f t = t.
Proof.
  intros H. unfold update_where. rewrite <- (map_id t) at 2. apply map_ext_in.
  intros r I. specialize (H r I). apply Nat.eqb_neq in H. now rewrite H.
Qed.

(** A variant that is not flagged default passes the unique index. *)
Lemma one_default_app_plain (t : list ProductVariant.row) (r : ProductVariant.row) :
  ProductVariant.is_default r = false ->
  ProductVariant.one_default (t ++ [r]) = ProductVariant.one_default t.
Proof.
  intros H. induction t as [|x t IH]; cbn.
  - now rewrite H.
  - rewrite IH. destruct (ProductVariant.is_default x); [|reflexivity].
    destruct (ProductVariant.product_id x); [|reflexivity].
    rewrite existsb_app. cbn. unfold ProductVariant.default_of at 2. rewrite H. cbn.
    now rewrite orb_false_r.
Qed.

(** The receipt handler when exactly one variant matches. *)
Lemma receive_existing (pid : uuid) (size color : string) (q : Z) (d : database)
    (tr : list event) (v : ProductVariant.row) :
  valid d = true -> size <> "" -> color <> "" ->
  carrying pid size color d = [v] ->
  0 < q -> int4 (ProductVariant.quantity v + q) = true ->
  db (world_after (receive pid size color q) (mkWorld d tr))
  = mkDb (products d)
      (update_where ProductVariant.id (ProductVariant.id v)
         (set_quantity (ProductVariant.quantity v + q)) (product_variants d))
      (orders d) (order_items d) (last_uuid d).
Proof.
  intros V Hs Hc C Hq R.
  unfold world_after, receive, StockForm.onSubmit. cbn [StockForm.quantity].
  replace (q <? 1) with false by lia.
  unfold StockForm.handleSubmit. cbn [StockForm.product_id].
  unfold try_catch, bind, read. cbn [db].
  rewrite (matching_carrying pid size color q d Hs Hc), C. cbn [Supabase.single StockForm.quantity].
  rewrite (send_accepted _ _ _ _ (perform_set_quantity _ _ d V R)).
  reflexivity.
Qed.

(** The receipt handler when no variant matches. *)
Lemma receive_new (pid : uuid) (size color : string) (q : Z) (d : database) (tr : list event) :
  valid d = true -> size <> "" -> color <> "" ->
  carrying pid size color d = [] ->
  0 < q -> int4 q = true ->
  db (world_after (receive pid size color q) (mkWorld d tr))
  = mkDb (products d)
      (product_variants d
       ++ [ProductVariant.mkRow (S (last_uuid d)) (Some pid) (Some size) (Some color)
             q 5 None false None])
      (orders d) (order_items d) (S (last_uuid d)).
Proof.
  intros V Hs Hc C Hq R.
  unfold world_after, receive, StockForm.onSubmit. cbn [StockForm.quantity].
  replace (q <? 1) with false by lia.
  unfold StockForm.handleSubmit. cbn [StockForm.product_id].
  unfold try_catch, bind, read. cbn [db].
  rewrite (matching_carrying pid size color q d Hs Hc), C.
  cbn [Supabase.single StockForm.quantity StockForm.size StockForm.color].
  apply valid_true in V as [_ [[Hv Hd] _]].
  assert (Es : Js.or_null size = Some size)
    by (unfold Js.or_null; apply String.eqb_neq in Hs; now rewrite Hs).
  assert (Ec : Js.or_null color = Some color)
    by (unfold Js.or_null; apply String.eqb_neq in Hc; now rewrite Hc).
  rewrite Es, Ec.
  erewrite send_accepted.
  2:{ apply perform_insert_variant.
      - unfold ProductVariant.row_ok. cbn. now rewrite R.
      - now rewrite one_default_app_plain. }
  reflexivity.
Qed.

Lemma int4_between (z : Z) : MIN_INT4 <= z <= MAX_INT4 -> int4 z = true.
Proof. unfold int4. intros H. apply andb_true_iff. split; lia. Qed.

Lemma id_set_quantity (n : Z) (r : ProductVariant.row) :
  ProductVariant.id (set_quantity n r) = ProductVariant.id r.
Proof. reflexivity. Qed.

Lemma quantity_set_quantity (n : Z) (r : ProductVariant.row) :
  ProductVariant.quantity (set_quantity n r) = n.
Proof. reflexivity. Qed.

Lemma valid_after_receive (pid : uuid) (size color : string) (q : Z) (w : world) :
  valid (db w) = true -> valid (db (world_after (receive pid size color q) w)) = true.
Proof.
  apply (keeps_StockForm_onSubmit (fun d => valid d = true) perform_valid).
Qed.

(** C3, amended.  Under a key with a size and a colour that at most one
    stored variant carries, holding [stored] pieces (0 when there is none),
    on a database that satisfies its schema: when [stored + q1 + q2] does
    not pass 2147483647, receiving [q1] and then [q2] leaves the database
    that one receipt of [q1 + q2] leaves; the variant then holds
    [stored + q1 + q2], which is at least [max q1 q2]. *)
Theorem receipts_accumulate_within_range (w : world) (pid : uuid) (size color : string)
    (q1 q2 stored : Z) :
  valid (db w) = true -> variant_ids_bounded (db w) ->
  size <> "" -> color <> "" ->
  on_hand pid size color (db w) = [stored]
  \/ (on_hand pid size color (db w) = [] /\ stored = 0) ->
  0 <= stored -> 0 < q1 -> 0 < q2 -> stored + q1 + q2 <= MAX_INT4 ->
  db (world_after (receive pid size color q2) (world_after (receive pid size color q1) w))
  = db (world_after (receive pid size color (q1 + q2)) w)
  /\ on_hand pid size color (db (world_after (receive pid size color (q1 + q2)) w))
     = [stored + q1 + q2]
  /\ Z.max q1 q2 <= stored + q1 + q2.
Proof.
  intros V B Hs Hc Hstored H0 H1 H2 Hmax.
  assert (V1 := valid_after_receive pid size color q1 w V).
  assert (Range : forall z, 0 <= z <= MAX_INT4 -> int4 z = true).
  { intros z Hz. apply int4_between. unfold MIN_INT4. lia. }
  destruct w as [d tr]. cbn [db] in *.
  destruct (world_after (receive pid size color q1) (mkWorld d tr)) as [d1 tr1] eqn:W1.
  cbn [db] in V1.
  destruct Hstored as [On | [On ->]]; unfold on_hand in On.
  - (* one variant carries the key *)
    destruct (carrying pid size color d) as [|v [|]] eqn:C; try discriminate On.
    inversion On as [Q]. clear On.
    assert (R1 : int4 (ProductVariant.quantity v + q1) = true) by (apply Range; lia).
    assert (D1 := receive_existing pid size color q1 d tr v V Hs Hc C H1 R1).
    rewrite W1 in D1. cbn [db] in D1.
    assert (C1 : carrying pid size color d1
                 = [set_quantity (ProductVariant.quantity v + q1) v]).
    { rewrite D1, carrying_update, C. cbn. now rewrite Nat.eqb_refl. }
    rewrite (receive_existing pid size color q2 d1 tr1 _ V1 Hs Hc C1 H2)
      by (cbn; apply Range; lia).
    rewrite (receive_existing pid size color (q1 + q2) d tr v V Hs Hc C)
      by (try apply Range; lia).
    split; [|split; [|lia]].
    + rewrite D1. cbn [products product_variants orders order_items last_uuid].
      rewrite id_set_quantity, quantity_set_quantity, update_where_twice.
      now rewrite Z.add_assoc.
    + unfold on_hand. rewrite carrying_update, C. cbn. rewrite Nat.eqb_refl. cbn.
      now rewrite Z.add_assoc.
  - (* no variant carries the key yet *)
    apply map_eq_nil in On.
    assert (R1 : int4 q1 = true) by (apply Range; lia).
    assert (D1 := receive_new pid size color q1 d tr V Hs Hc On H1 R1).
    rewrite W1 in D1. cbn [db] in D1.
    assert (Es : Js.or_null size = Some size)
      by (unfold Js.or_null; apply String.eqb_neq in Hs; now rewrite Hs).
    assert (Ec : Js.or_null color = Some color)
      by (unfold Js.or_null; apply String.eqb_neq in Hc; now rewrite Hc).
    assert (New : forall q ps os its u,
               carrying pid size color
                 (mkDb ps
                    (product_variants d
                     ++ [ProductVariant.mkRow (S (last_uuid d)) (Some pid) (Some size)
                           (Some color) q 5 None false None]) os its u)
               = [ProductVariant.mkRow (S (last_uuid d)) (Some pid) (Some size)
                    (Some color) q 5 None false None]).
    { intros q ps os its u. unfold carrying in *. cbn [product_variants].
      rewrite filter_app, On. cbn. unfold Supabase.eq_uuid. cbn.
      now rewrite Es, Ec, Nat.eqb_refl, !String.eqb_refl. }
    assert (C1 := New q1 (products d) (orders d) (order_items d) (S (last_uuid d))).
    rewrite <- D1 in C1.
    rewrite (receive_existing pid size color q2 d1 tr1 _ V1 Hs Hc C1 H2)
      by (cbn; apply Range; lia).
    rewrite (receive_new pid size color (q1 + q2) d tr V Hs Hc On)
      by (try apply Range; lia).
    split; [|split; [|lia]].
    + rewrite D1. cbn [products product_variants orders order_items last_uuid
                       ProductVariant.id ProductVariant.quantity].
      unfold update_where. rewrite map_app. cbn [map ProductVariant.id].
      rewrite Nat.eqb_refl.
      fold (update_where ProductVariant.id (S (last_uuid d)) (set_quantity (q1 + q2))
              (product_variants d)).
      rewrite update_where_fresh; [reflexivity|].
      intros r I. specialize (B r I). cbn in B. lia.
    + unfold on_hand. rewrite New. reflexivity.
Qed.

Lemma receipts_accumulate_witness :
  on_hand 1 "M" "Red" (db (world_after (receive 1 "M" "Red" 5) (Sample.stocked 3))) = [8]
  /\ db (world_after (receive 1 "M" "Red" 3) (world_after (receive 1 "M" "Red" 2) (Sample.stocked 3)))
     = db (world_after (receive 1 "M" "Red" 5) (Sample.stocked 3)).
Proof.
  assert (B : variant_ids_bounded (db (Sample.stocked 3))).
  { intros r [<-|[]]. cbn. lia. }
  assert (S : "M" <> "") by discriminate.
  assert (C : "Red" <> "") by discriminate.
  assert (T := receipts_accumulate_within_range (Sample.stocked 3) 1 "M" "Red" 2 3 3
                 eq_refl B S C (or_introl eq_refl)).
  assert (M : 3 + 2 + 3 <= MAX_INT4) by (unfold MAX_INT4; lia).
  specialize (T ltac:(lia) ltac:(lia) ltac:(lia) M).
  split; [exact (proj1 (proj2 T)) | exact (proj1 T)].
Defined.

(** C3 as stated fails: with 5 pieces of (M, Red) stored, receiving
    2147483642 and then 1 leaves 2147483647 (the second update is refused),
    while one receipt of 2147483643 is refused and leaves 5. *)
Lemma receipts_stop_at_integer_range : ~ receipts_accumulate.
Proof.
  intros H.
  assert (B : variant_ids_bounded (db (Sample.stocked 5))).
  { intros r [<-|[]]. cbn. lia. }
  destruct (H (Sample.stocked 5) 1%nat "M" "Red" 2147483642 1 eq_refl B eq_refl eq_refl)
    as [E _].
  vm_compute in E. discriminate E.
Qed.

(** A receipt that names no size finds no stored variant, whatever is
    stored, unless a size is literally the text [null]: the lookup compares
    with SQL equality, which no NULL satisfies. *)
Lemma receipt_without_size_finds_nothing (pid : uuid) (f : StockForm.StockFormData) (d : database) :
  StockForm.size f = "" ->
  (forall r, In r (product_variants d) -> ProductVariant.size r <> Some "null") ->
  StockForm.matching pid f d = [].
Proof.
  intros E H. unfold StockForm.matching. apply filter_none. intros r I.
  rewrite E. cbn. specialize (H r I).
  destruct (ProductVariant.size r) as [s|]; cbn.
  - destruct (String.eqb_spec s "null") as [->|N]; [congruence|].
    now rewrite andb_false_r.
  - now rewrite andb_false_r.
Qed.

(** Without size and colour receipts do not add up.  A product created
    with 20 pieces has its bookkeeping variant (no size, no colour);
    receiving 2 and then 3 for it without size and colour leaves three
    variants holding 20, 2 and 3, and receiving 5 at once leaves two,
    holding 20 and 5. *)
Theorem receipt_without_size_and_color_splits :
  let w := world_after (ProductForm.handleSubmit Sample.shirt) Sample.start in
  map ProductVariant.quantity (variants_of 1 (db w)) = [20]
  /\ map ProductVariant.quantity
       (variants_of 1 (db (world_after (receive 1 "" "" 3) (world_after (receive 1 "" "" 2) w))))
     = [20; 2; 3]
  /\ map ProductVariant.quantity (variants_of 1 (db (world_after (receive 1 "" "" 5) w)))
     = [20; 5].
Proof. vm_compute. repeat split. Qed.

(** C6, at the failing input: with 2147483647 pieces stored, a receipt of
    1 passes the form, the handler sends the update to 2147483648, the
    backend refuses it and only then the operator is told, by the generic
    failure alert; the manual override refuses the same quantity before
    sending anything.  The handler itself has no check on the sign either:
    called with -5 on 3 stored pieces it stores -2. *)
Theorem receipt_out_of_range_is_sent :
  let w := Sample.stocked 2147483647 in
  let w' := world_after (StockForm.onSubmit (Sample.receive_red 1)) w in
  trace w' = [sent (update_variant 2 (ProductVariant.only_quantity 2147483648)) false;
              alert "Failed to save stock. Please try again."]
  /\ db w' = db w
  /\ trace (world_after (Inventory.handleQuantityChange 2 2147483648) w)
     = [alert "Please enter a valid quantity between -2,147,483,648 and 2,147,483,647"]
  /\ map ProductVariant.quantity
       (product_variants
          (db (world_after (StockForm.handleSubmit (Sample.receive_red (-5))) (Sample.stocked 3))))
     = [-2].
Proof. vm_compute. repeat split. Qed.

(** ** Subtotal and lines of a completed order *)







Lemma eq_uuid_true (key : uuid) (column : option uuid) :
  Supabase.eq_uuid key column = true <-> column = Some key.
Proof. unfold Supabase.eq_uuid. apply opt_eqb_nat_eq. Qed.





(** An order line of 3000000000 pieces at 10: the order is stored with
    subtotal 30000000000; the statement that stores its lines is refused
    (the quantity column is an [integer]) and the order stays, with no
    line: the sum of its line amounts is 0, and its invoice prints no line
    above a footer total of 30000000000. *)
Theorem order_kept_without_lines :
  let w' := world_after (OrderForm.handleSubmit Sample.bulk_order) Sample.start in
  map Order.id (orders (db w')) = [1%nat]
  /\ map (fun r => Qc_eq_bool (Order.subtotal_amount r) (Sample.number 30000000000))
       (orders (db w')) = [true]
  /\ OrderDetails.items_of 1 (db w') = []
  /\ Qc_eq_bool (sum_of_lines (OrderDetails.items_of 1 (db w'))) 0%Qc = true
  /\ map (fun e => match e with
                   | sent (insert_order _) ok => Some ok
                   | sent (insert_order_items _) ok => Some ok
                   | _ => None
                   end) (trace w') = [Some true; Some false; None]
  /\ option_map (fun o => OrderDetails.lines (OrderDetails.printInvoice o))
       (OrderDetails.fetchOrder 1 (db w')) = Some []
  /\ option_map (fun o => Qc_eq_bool (OrderDetails.footer_total (OrderDetails.printInvoice o))
                            (Sample.number 30000000000))
       (OrderDetails.fetchOrder 1 (db w')) = Some true.
Proof. vm_compute. repeat split. Qed.

(** ** Amount in words ([numberToWords]) *)

Lemma floor_number_of_int (n : Z) : OrderDetails.floor (OrderForm.number_of_int n) = n.
Proof.
  unfold OrderDetails.floor, OrderForm.number_of_int. cbn [this Q2Qc].
  rewrite (Qfloor_comp _ _ (Qred_correct (inject_Z n))). apply Qfloor_Z.
Qed.

Lemma Qc_eq_bool_false (x y : Qc) : x <> y -> Qc_eq_bool x y = false.
Proof.
  intros N. destruct (Qc_eq_bool x y) eqn:E; [|reflexivity].
  apply Qc_eq_bool_correct in E. contradiction.
Qed.

Lemma floor_at_least_one (x : Qc) : (1 <= x)%Qc -> 1 <= OrderDetails.floor x.
Proof.
  intros H. unfold OrderDetails.floor.
  change 1 with (Qfloor (inject_Z 1)). apply Qfloor_resp_le. exact H.
Qed.

Lemma floor_below_one (x : Qc) : (x < 1)%Qc -> OrderDetails.floor x <= 0.
Proof.
  intros H. unfold OrderDetails.floor.
  assert (L : (inject_Z (Qfloor x) < inject_Z 1)%Q).
  { eapply Qle_lt_trans; [apply Qfloor_le | exact H]. }
  rewrite <- Zlt_Qlt in L. lia.
Qed.

(** Above 1 the fraction is dropped: the words are those of the integer
    part. *)
Lemma words_drop_fraction (x : Qc) :
  (1 <= x)%Qc ->
  OrderDetails.numberToWords x
  = OrderDetails.numberToWords (OrderForm.number_of_int (OrderDetails.floor x)).
Proof.
  intros H. assert (F := floor_at_least_one x H).
  unfold OrderDetails.numberToWords. rewrite floor_number_of_int.
  rewrite !Qc_eq_bool_false; [reflexivity | |].
  - intros E. apply (f_equal OrderDetails.floor) in E.
    rewrite floor_number_of_int in E. rewrite E in F. vm_compute in F. now apply F.
  - intros E. subst x. vm_compute in H. now apply H.
Qed.

(** Below 1, zero apart, there is no word: the result is [" Only"]. *)
Lemma words_below_one (x : Qc) :
  x <> 0%Qc -> (x < 1)%Qc -> OrderDetails.numberToWords x = " Only".
Proof.
  intros N H. assert (F := floor_below_one x H).
  unfold OrderDetails.numberToWords. rewrite (Qc_eq_bool_false _ _ N).
  replace (OrderDetails.floor x >=? 1000000) with false by lia.
  replace (OrderDetails.floor x >=? 1000) with false by lia.
  unfold OrderDetails.convertLessThanThousand.
  destruct (OrderDetails.floor x =? 0) eqn:Z; [reflexivity|].
  replace (OrderDetails.floor x >=? 100) with false by lia.
  replace (OrderDetails.floor x >=? 20) with false by lia.
  replace (OrderDetails.floor x >=? 10) with false by lia.
  replace (OrderDetails.floor x >? 0) with false by lia.
  reflexivity.
Qed.

(** The specification's examples. *)
Lemma words_examples :
  OrderDetails.numberToWords (OrderForm.number_of_int 0) = "Zero"
  /\ OrderDetails.numberToWords (OrderForm.number_of_int 100) = "One Hundred Only"
  /\ contains "Thousand" (OrderDetails.numberToWords (OrderForm.number_of_int 1234))
  /\ OrderDetails.numberToWords (OrderForm.number_of_int 999999999)
     = "Nine Hundred Ninety Nine Million Nine Hundred Ninety Nine Thousand Nine Hundred Ninety Nine Only".
Proof.
  repeat split; try (vm_compute; reflexivity).
  exists "One ", " Two Hundred Thirty Four Only". vm_compute. reflexivity.
Qed.

Lemma words_drop_fraction_witness :
  OrderDetails.numberToWords (Q2Qc (2469 # 2)) = "One Thousand Two Hundred Thirty Four Only".
Proof.
  rewrite (words_drop_fraction (Q2Qc (2469 # 2))).
  - reflexivity.
  - unfold Qcle, Qle. cbn. lia.
Defined.

Lemma words_below_one_witness :
  OrderDetails.numberToWords (Q2Qc (99 # 100)) = " Only".
Proof.
  apply words_below_one.
  - intros E. discriminate E.
  - unfold Qclt, Qlt. cbn. lia.
Defined.

(** C8, at the failing input: the integer part of one half is 0 and 0 is
    worded "Zero", yet one half is worded with no word at all. *)
Theorem half_has_no_words :
  OrderDetails.floor (Q2Qc (1 # 2)) = 0
  /\ OrderDetails.numberToWords (Sample.number 0) = "Zero"
  /\ OrderDetails.numberToWords (Q2Qc (1 # 2)) = " Only".
Proof. vm_compute. repeat split. Qed.

(** ** Further properties of the forms *)



Lemma mapi_one_default (index : nat) (l : list ProductForm.Variant) :
  forall from,
    (List.length
       (filter ProductForm.is_default
          (ProductForm.mapi
             (fun v i =>
                ProductForm.mkVariant (ProductForm.id v) (ProductForm.variant_name v)
                  (ProductForm.size v) (ProductForm.color v) (ProductForm.price v)
                  (ProductForm.quantity v) (ProductForm.minimum_quantity v)
                  (Nat.eqb i index))
             from l))
     <= (if Nat.leb from index then 1 else 0))%nat.
Proof.
  induction l as [|v l IH]; intros from; cbn.
  - destruct (Nat.leb from index); lia.
  - specialize (IH (S from)).
    destruct (Nat.eqb from index) eqn:E; cbn.
    + apply Nat.eqb_eq in E. subst from.
      rewrite Nat.leb_refl.
      replace (Nat.leb (S index) index) with false in IH
        by (symmetry; apply Nat.leb_gt; lia).
      lia.
    + apply Nat.eqb_neq in E.
      destruct (Nat.leb from index) eqn:L.
      * destruct (Nat.leb (S from) index); lia.
      * apply Nat.leb_gt in L.
        replace (Nat.leb (S from) index) with false in IH
          by (symmetry; apply Nat.leb_gt; lia).
        lia.
Qed.

(** The radio buttons of the product form leave at most one variant of
    the form flagged default. *)
Lemma chooseDefault_one_default (index : nat) (s : ProductForm.state) :
  (List.length
     (filter ProductForm.is_default
        (ProductForm.variants (ProductForm.formData (ProductForm.chooseDefault index s))))
   <= 1)%nat.
Proof.
  unfold ProductForm.chooseDefault. cbn.
  etransitivity; [apply mapi_one_default|]. destruct (Nat.leb 0 index); lia.
Qed.

(** ** Stock handlers: what they leave alone *)

Lemma matching_blank (pid : uuid) (f : StockForm.StockFormData) (d : database) :
  StockForm.size f = "" \/ StockForm.color f = "" ->
  (forall r, In r (product_variants d) ->
             ProductVariant.size r <> Some "null" /\ ProductVariant.color r <> Some "null") ->
  StockForm.matching pid f d = [].
Proof.
  intros B H. unfold StockForm.matching. apply filter_none. intros r I.
  destruct (H r I) as [Hs Hc].
  destruct B as [E|E]; rewrite E; cbn.
  - destruct (ProductVariant.size r) as [x|]; cbn.
    + destruct (String.eqb x "null") eqn:Q.
      * apply String.eqb_eq in Q. subst x. now contradiction Hs.
      * now rewrite andb_false_r.
    + now rewrite andb_false_r.
  - destruct (ProductVariant.color r) as [x|]; cbn.
    + destruct (String.eqb x "null") eqn:Q.
      * apply String.eqb_eq in Q. subst x. now contradiction Hc.
      * now rewrite andb_false_r.
    + now rewrite andb_false_r.
Qed.

(** A receipt that leaves the size or the colour blank never adds to a
    stored variant: whatever the product holds, the receipt is stored as a
    new variant row of its own.  (No stored size or colour is the word
    [null].) *)
Theorem blank_receipt_always_inserts (w : world) (pid : uuid) (size color : string) (q : Z) :
  valid (db w) = true ->
  size = "" \/ color = "" ->
  (forall r, In r (product_variants (db w)) ->
             ProductVariant.size r <> Some "null" /\ ProductVariant.color r <> Some "null") ->
  1 <= q <= MAX_INT4 ->
  let w' := world_after (receive pid size color q) w in
  let new := ProductVariant.mkPayload (Some pid) None (Js.or_null size) (Js.or_null color)
               None (Some q) None None in
  product_variants (db w')
  = product_variants (db w)
    ++ [ProductVariant.mkRow (S (last_uuid (db w))) (Some pid) (Js.or_null size) (Js.or_null color)
          q 5 None false None]
  /\ trace w' = trace w ++ [sent (insert_variant new) true; navigate "/inventory"].
Proof.
  intros V B N Q w' new. destruct w as [d tr]. cbn [db trace] in *.
  assert (I4 : int4 q = true).
  { apply int4_between. unfold MIN_INT4. lia. }
  apply valid_true in V. destruct V as [_ [[_ V1] _]].
  assert (P : perform (insert_variant new) d
              = Some (mkDb (products d)
                        (product_variants d ++ [ProductVariant.of_payload (S (last_uuid d)) new])
                        (orders d) (order_items d) (S (last_uuid d)))).
  { apply perform_insert_variant.
    - unfold ProductVariant.row_ok, new. cbn. rewrite I4. reflexivity.
    - rewrite one_default_app_plain; [exact V1 | reflexivity]. }
  subst w'. unfold world_after, receive, StockForm.onSubmit. cbn [StockForm.quantity].
  replace (q <? 1) with false by lia.
  unfold StockForm.handleSubmit. cbn [StockForm.product_id StockForm.size StockForm.color StockForm.quantity].
  unfold try_catch, bind, read. cbn [db].
  rewrite (matching_blank pid (StockForm.mkForm (Some pid) size color q) d B N).
  cbn [Supabase.single].
  fold new. rewrite (send_accepted _ _ _ _ P). cbn. rewrite <- app_assoc. split; reflexivity.
Qed.

Lemma blank_receipt_witness :
  map ProductVariant.quantity
    (product_variants (db (world_after (receive 1 "" "" 5)
                             (world_after (ProductForm.handleSubmit Sample.shirt) Sample.start))))
  = [20; 5].
Proof.
  rewrite (proj1 (blank_receipt_always_inserts
                    (world_after (ProductForm.handleSubmit Sample.shirt) Sample.start)
                    1 "" "" 5 eq_refl (or_introl eq_refl)
                    ltac:(vm_compute; intros r [<-|[]]; split; discriminate)
                    ltac:(unfold MAX_INT4; lia))).
  reflexivity.
Defined.

Lemma but_quantity_set_quantity (n : Z) (r : ProductVariant.row) :
  but_quantity (set_quantity n r) = but_quantity r.
Proof. reflexivity. Qed.

Lemma but_quantity_update (key : uuid) (n : Z) (t : list ProductVariant.row) :
  map but_quantity
    (update_where ProductVariant.id key (ProductVariant.apply_patch (ProductVariant.only_quantity n)) t)
  = map but_quantity t.
Proof.
  unfold update_where. rewrite map_map. apply map_ext. intros r.
  destruct (Nat.eqb _ _); reflexivity.
Qed.

(** The database after a statement that sets one quantity, whatever the
    backend answers. *)
Lemma after_only_quantity (key : uuid) (n : Z) (d : database) :
  let d' := after (update_variant key (ProductVariant.only_quantity n)) d in
  map but_quantity (product_variants d') = map but_quantity (product_variants d)
  /\ products d' = products d /\ orders d' = orders d /\ order_items d' = order_items d.
Proof.
  unfold after, perform. cbv beta iota zeta.
  destruct (_ && _); cbn [product_variants products orders order_items];
    [rewrite but_quantity_update|]; repeat split.
Qed.

Lemma after_insert_variant (p : ProductVariant.payload) (d : database) :
  let d' := after (insert_variant p) d in
  (exists added, product_variants d' = product_variants d ++ added /\ (List.length added <= 1)%nat)
  /\ products d' = products d /\ orders d' = orders d /\ order_items d' = order_items d.
Proof.
  unfold after, perform. cbv beta iota zeta.
  destruct (_ && _); cbn [product_variants products orders order_items]; repeat split.
  - eexists. split; [reflexivity | cbn; lia].
  - exists []. split; [now rewrite app_nil_r | cbn; lia].
Qed.

Lemma db_send (q : request) (w : world) : db (snd (send q w)) = after q (db w).
Proof. unfold send, after. destruct (perform q (db w)); reflexivity. Qed.

(** The two stock handlers write quantities and nothing else.  A manual
    override leaves every variant's other columns, and the products, orders
    and order lines, as they were; a stock receipt does the same and adds at
    most one variant row.  Neither ever removes a variant. *)
Theorem stock_handlers_only_write_quantities (w : world) :
  (forall (id : uuid) (n : Z),
      let d' := db (world_after (Inventory.handleQuantityChange id n) w) in
      map but_quantity (product_variants d') = map but_quantity (product_variants (db w))
      /\ products d' = products (db w) /\ orders d' = orders (db w)
      /\ order_items d' = order_items (db w))
  /\ (forall f : StockForm.StockFormData,
        let d' := db (world_after (StockForm.onSubmit f) w) in
        (exists added,
            map but_quantity (product_variants d')
            = map but_quantity (product_variants (db w)) ++ added
            /\ (List.length added <= 1)%nat)
        /\ products d' = products (db w) /\ orders d' = orders (db w)
        /\ order_items d' = order_items (db w)).
Proof.
  assert (Same : forall d : database,
             (exists added,
                 map but_quantity (product_variants d) = map but_quantity (product_variants d) ++ added
                 /\ (List.length added <= 1)%nat)
             /\ products d = products d /\ orders d = orders d /\ order_items d = order_items d).
  { intros d. repeat split. exists []. split; [now rewrite app_nil_r | cbn; lia]. }
  split.
  - intros id n. unfold world_after, Inventory.handleQuantityChange, try_catch, bind.
    destruct (_ || _); [cbn; repeat split|].
    destruct (n <? 0); [cbn; repeat split|].
    pose proof (after_only_quantity id n (db w)) as A. rewrite <- db_send in A.
    destruct (send _ w) as [[error|e] w1] eqn:S.
    + cbn [snd] in A. destruct error; cbn; exact A.
    + unfold send in S. destruct (perform _ _); discriminate S.
  - intros f. unfold world_after, StockForm.onSubmit.
    destruct (_ <? 1); [cbn; apply Same|].
    unfold StockForm.handleSubmit.
    destruct (StockForm.product_id f) as [pid|]; [|cbn; apply Same].
    unfold try_catch, bind, read.
    destruct (Supabase.single _) as [v|].
    + pose proof (after_only_quantity (ProductVariant.id v)
                    (ProductVariant.quantity v + StockForm.quantity f) (db w)) as A.
      rewrite <- db_send in A.
      destruct (send _ w) as [[error|e] w1] eqn:S.
      * cbn [snd] in A. destruct A as [A1 A2].
        destruct error; cbn; (split; [|exact A2]); exists []; rewrite app_nil_r;
          (split; [exact A1 | cbn; lia]).
      * unfold send in S. destruct (perform _ _); discriminate S.
    + match goal with
      | |- context [send (insert_variant ?p) w] =>
          pose proof (after_insert_variant p (db w)) as A; rewrite <- db_send in A;
          destruct (send (insert_variant p) w) as [[error|e] w1] eqn:S
      end.
      * cbn [snd] in A. destruct A as [[added [A1 A3]] A2].
        destruct error; cbn; (split; [|exact A2]); exists (map but_quantity added);
          rewrite A1, map_app, length_map; (split; [reflexivity | exact A3]).
      * unfold send in S. destruct (perform _ _); discriminate S.
Qed.

(** ** Orders: validation, stock and refused lines *)

(** The order statements leave products and variants as they are. *)
Lemma after_order_statement (q : request) (d : database) :
  match q with
  | insert_order _ | update_order _ _ | insert_order_items _ => True
  | _ => False
  end ->
  products (after q d) = products d /\ product_variants (after q d) = product_variants d.
Proof.
  unfold after, perform. cbv beta iota zeta.
  destruct q; try contradiction; intros _.
  - destruct (Order.of_payload _ _); [|split; reflexivity].
    destruct (Order.row_ok _); split; reflexivity.
  - destruct (Order.u_total_amount _); [split; reflexivity|].
    destruct (touched_ok _ _ _ _); split; reflexivity.
  - destruct (OrderItem.of_payloads _ _); split; reflexivity.
Qed.

Lemma db_send_returning (q : request) (w : world) :
  db (snd (send_returning q w)) = after q (db w).
Proof. unfold send_returning, after. destruct (perform q (db w)); reflexivity. Qed.

(** Placing an order, or changing an order's status (on its page or in
    the list of orders), never changes a product or a variant: no stock
    quantity moves when an order is taken, shipped, delivered or
    cancelled. *)
Theorem orders_never_move_stock (w : world) :
  (forall s : OrderForm.page,
      let d' := db (world_after (OrderForm.handleSubmit s) w) in
      product_variants d' = product_variants (db w) /\ products d' = products (db w))
  /\ (forall (order : option OrderDetails.Order.t) (newStatus : string),
        let d' := db (world_after (OrderDetails.handleStatusChange order newStatus) w) in
        product_variants d' = product_variants (db w) /\ products d' = products (db w))
  /\ (forall (newStatus : string) (orderId : uuid),
        let d' := db (world_after (OrdersList.handleStatusChange newStatus orderId) w) in
        product_variants d' = product_variants (db w) /\ products d' = products (db w)).
Proof.
  split; [|split].
  - intros s. unfold world_after, OrderForm.handleSubmit.
    destruct (OrderForm.selectedCustomer s); [|cbn; split; reflexivity].
    destruct (Js.some _ _); [cbn; split; reflexivity|].
    destruct (_ || _); [cbn; split; reflexivity|].
    unfold try_catch, bind.
    destruct (after_order_statement (insert_order (OrderForm.order_payload s)) (db w) I) as [P1 V1].
    rewrite <- db_send_returning in P1, V1.
    destruct (send_returning _ w) as [[[o|]|e] w1] eqn:S1; cbn [snd] in P1, V1.
    + destruct (after_order_statement
                  (insert_order_items (OrderForm.orderItems o (OrderForm.items s))) (db w1) I)
        as [P2 V2].
      rewrite <- db_send in P2, V2.
      destruct (send _ w1) as [[error|e] w2] eqn:S2; cbn [snd] in P2, V2.
      * destruct error; cbn; rewrite P2, V2, P1, V1; split; reflexivity.
      * unfold send in S2. destruct (perform _ _); discriminate S2.
    + cbn. rewrite P1, V1. split; reflexivity.
    + unfold send_returning in S1. destruct (perform _ _); discriminate S1.
  - intros [o|] newStatus; [|cbn; split; reflexivity].
    unfold world_after, OrderDetails.handleStatusChange, try_catch, bind.
    match goal with
    | |- context [send ?q w] =>
        destruct (after_order_statement q (db w) I) as [P1 V1];
        rewrite <- db_send in P1, V1;
        destruct (send q w) as [[error|e] w1] eqn:S1; cbn [snd] in P1, V1
    end.
    + destruct error; cbn; rewrite P1, V1; split; reflexivity.
    + unfold send in S1. destruct (perform _ _); discriminate S1.
  - intros newStatus orderId.
    unfold world_after, OrdersList.handleStatusChange, try_catch, bind.
    match goal with
    | |- context [send ?q w] =>
        destruct (after_order_statement q (db w) I) as [P1 V1];
        rewrite <- db_send in P1, V1;
        destruct (send q w) as [[error|e] w1] eqn:S1; cbn [snd] in P1, V1
    end.
    + destruct error; cbn; rewrite P1, V1; split; reflexivity.
    + unfold send in S1. destruct (perform _ _); discriminate S1.
Qed.

Lemma some_unset_line (items : list OrderForm.OrderItem.t) :
  Js.some (fun item => match OrderForm.OrderItem.product_id item with
                       | None => true
                       | Some _ => false
                       end) items
  = negb (forallb (fun item => match OrderForm.OrderItem.product_id item with
                               | Some _ => true
                               | None => false
                               end) items).
Proof.
  unfold Js.some. induction items as [|item items IH]; cbn; [reflexivity|].
  rewrite IH. now destruct (OrderForm.OrderItem.product_id item).
Qed.

(** The order form writes nothing before its checks pass: without a
    customer, with a line that has no product, or with an incomplete
    address, it shows one alert and sends no statement; otherwise the
    first thing it does is to send the order. *)
Theorem order_form_checks_before_writing (w : world) (s : OrderForm.page) :
  let w' := world_after (OrderForm.handleSubmit s) w in
  (ready s = false ->
     db w' = db w /\ exists message, trace w' = trace w ++ [alert message])
  /\ (ready s = true ->
        exists accepted rest,
          trace w' = trace w ++ sent (insert_order (OrderForm.order_payload s)) accepted :: rest).
Proof.
  unfold ready, world_after, OrderForm.handleSubmit.
  rewrite some_unset_line.
  destruct (OrderForm.selectedCustomer s) as [c|]; cbn [andb].
  2:{ split; [intros _; cbn; eauto | discriminate]. }
  destruct (forallb _ _); cbn [andb negb].
  2:{ split; [intros _; cbn; eauto | discriminate]. }
  destruct (OrderForm.is_empty (OrderForm.address_line1 _)); cbn [andb negb orb].
  1:{ split; [intros _; cbn; eauto | discriminate]. }
  destruct (OrderForm.is_empty (OrderForm.city _)); cbn [andb negb orb].
  1:{ split; [intros _; cbn; eauto | discriminate]. }
  destruct (OrderForm.is_empty (OrderForm.postal_code _)); cbn [andb negb orb].
  1:{ split; [intros _; cbn; eauto | discriminate]. }
  split; [discriminate|]. intros _.
  destruct w as [d tr]. unfold try_catch, bind.
  destruct (perform (insert_order (OrderForm.order_payload s)) d) as [d1|] eqn:E1.
  - rewrite (send_returning_accepted _ _ _ _ E1).
    destruct (perform (insert_order_items (OrderForm.orderItems (last_uuid d1) (OrderForm.items s))) d1)
      as [d2|] eqn:E2.
    + rewrite (send_accepted _ _ _ _ E2). cbn. rewrite <- !app_assoc. cbn. eauto.
    + rewrite (send_refused _ _ _ E2). cbn. rewrite <- !app_assoc. cbn. eauto.
  - rewrite (send_returning_refused _ _ _ E1). cbn. rewrite <- !app_assoc. cbn. eauto.
Qed.

Lemma order_form_checks_witness :
  db (world_after (OrderForm.handleSubmit
                     (OrderForm.mkPage None (OrderForm.items Sample.order_page)
                        (OrderForm.deliveryAddress Sample.order_page)
                        (OrderForm.charges Sample.order_page))) Sample.start)
  = db Sample.start
  /\ exists accepted rest,
       trace (world_after (OrderForm.handleSubmit Sample.order_page) Sample.start)
       = trace Sample.start
         ++ sent (insert_order (OrderForm.order_payload Sample.order_page)) accepted :: rest.
Proof.
  split.
  - apply (proj1 (order_form_checks_before_writing Sample.start _)). reflexivity.
  - apply (proj2 (order_form_checks_before_writing Sample.start Sample.order_page)). reflexivity.
Defined.

Lemma of_payloads_refused (o : uuid) (items : list OrderForm.OrderItem.t) :
  forallb storable items = false ->
  forall first, OrderItem.of_payloads first (OrderForm.orderItems o items) = None.
Proof.
  induction items as [|item items IH]; cbn; [discriminate|].
  intros F first. unfold OrderItem.of_payload. cbn.
  fold (OrderForm.orderItems o items).
  unfold storable in F at 1.
  destruct (OrderForm.OrderItem.price item) as [p|]; [|reflexivity].
  unfold OrderItem.row_ok. cbn [OrderItem.quantity].
  destruct (int4 (OrderForm.OrderItem.quantity item)); cbn in F.
  - rewrite (IH F). reflexivity.
  - destruct (OrderItem.of_payloads _ _); reflexivity.
Qed.

(** An order with a line the backend cannot store (a null price, or a
    quantity outside the 32-bit integers) is stored all the same: the order
    row goes in first, with the subtotal the form computed; its lines are
    then refused as a whole; the operator sees the failure alert, and the
    order stays behind with no line. *)
Theorem refused_lines_leave_the_order (w : world) (s : OrderForm.page) (d1 : database) :
  ready s = true ->
  forallb storable (OrderForm.items s) = false ->
  order_refs_bounded (db w) ->
  perform (insert_order (OrderForm.order_payload s)) (db w) = Some d1 ->
  let o := S (last_uuid (db w)) in
  let w' := world_after (OrderForm.handleSubmit s) w in
  db w' = d1
  /\ (exists r, orders (db w') = orders (db w) ++ [r]
                /\ Order.id r = o
                /\ Order.subtotal_amount r = OrderForm.calculateSubtotal (OrderForm.items s))
  /\ OrderDetails.items_of o (db w') = []
  /\ trace w' = trace w ++ [sent (insert_order (OrderForm.order_payload s)) true;
                            sent (insert_order_items (OrderForm.orderItems o (OrderForm.items s))) false;
                            alert "Failed to create order. Please try again."].
Proof.
  intros R F [_ Bi] E1 o w'. subst w'. destruct w as [d tr]. cbn [db trace] in *.
  unfold world_after, OrderForm.handleSubmit.
  unfold ready in R. rewrite <- (negb_involutive (forallb _ _)), <- some_unset_line in R.
  destruct (OrderForm.selectedCustomer s); [|discriminate R].
  destruct (Js.some _ _); [discriminate R|].
  destruct (OrderForm.is_empty (OrderForm.address_line1 _)); [discriminate R|].
  destruct (OrderForm.is_empty (OrderForm.city _)); [discriminate R|].
  destruct (OrderForm.is_empty (OrderForm.postal_code _)); [discriminate R|].
  cbn [orb]. unfold try_catch, bind.
  rewrite (send_returning_accepted _ _ _ _ E1).
  assert (L : last_uuid d1 = o /\ order_items d1 = order_items d
              /\ exists r, orders d1 = orders d ++ [r] /\ Order.id r = o
                           /\ Order.subtotal_amount r
                              = OrderForm.calculateSubtotal (OrderForm.items s)).
  { unfold perform in E1. cbv beta iota zeta in E1.
    accepted_some E1 Rr. accepted_if E1 C. inversion E1; subst d1; clear E1.
    cbn. repeat split. exists r. split; [reflexivity|].
    unfold Order.of_payload, OrderForm.order_payload in Rr. cbn in Rr.
    inversion Rr. split; reflexivity. }
  destruct L as [L1 [L2 L3]]. rewrite L1.
  assert (E2 : perform (insert_order_items (OrderForm.orderItems o (OrderForm.items s))) d1 = None).
  { unfold perform. cbv beta iota zeta. now rewrite (of_payloads_refused _ _ F). }
  rewrite (send_refused _ _ _ E2). cbn. rewrite <- !app_assoc. cbn.
  repeat split; try exact L3.
  unfold OrderDetails.items_of. rewrite L2. apply filter_none.
  intros i Ii. destruct (Supabase.eq_uuid _ _) eqn:Q; [|reflexivity].
  apply eq_uuid_true in Q. specialize (Bi i _ Ii Q). subst o. lia.
Qed.

Lemma refused_lines_witness :
  OrderDetails.items_of 1 (db (world_after (OrderForm.handleSubmit Sample.bulk_order) Sample.start))
  = [].
Proof.
  refine (proj1 (proj2 (proj2 (refused_lines_leave_the_order Sample.start Sample.bulk_order
                                 (after (insert_order (OrderForm.order_payload Sample.bulk_order)) empty_db)
                                 eq_refl eq_refl _ eq_refl)))).
  split; [intros r [] | intros i o []].
Defined.




(** ** Editing the lines of an order *)

Lemma length_mapi {A B} (f : A -> nat -> B) (l : list A) :
  forall from, List.length (ProductForm.mapi f from l) = List.length l.
Proof. induction l as [|x l IH]; intros from; cbn; [reflexivity | now rewrite IH]. Qed.

Lemma length_remove_at {A} (l : list A) :
  forall index, (List.length l <= S (List.length (ProductForm.remove_at index l)))%nat.
Proof.
  induction l as [|x l IH]; intros index; cbn; [lia|].
  destruct index as [|i]; cbn; [lia|]. specialize (IH i). lia.
Qed.

Lemma edit_lines_length (products : list OrderForm.Product.t) (e : line_edit)
    (items : list OrderForm.OrderItem.t) :
  (1 <= List.length items)%nat -> (1 <= List.length (edit_lines products e items))%nat.
Proof.
  intros L. destruct e as [index p|index v|index q| |index]; cbn.
  - unfold OrderForm.handleProductChange. destruct (Js.find _ _); [|exact L].
    unfold OrderForm.set_at. now rewrite length_mapi.
  - unfold OrderForm.handleVariantChange.
    destruct (nth_error _ _) as [item|]; [|exact L].
    destruct (OrderForm.OrderItem.product item) as [product|]; [|exact L].
    destruct (Js.find _ _); [|exact L].
    unfold OrderForm.set_at. now rewrite length_mapi.
  - unfold OrderForm.handleQuantityChange, OrderForm.set_at. now rewrite length_mapi.
  - unfold OrderForm.addItem. rewrite length_app. cbn. lia.
  - unfold OrderForm.removeItem. destruct (Nat.eqb _ 1) eqn:E; cbn; [exact L|].
    apply Nat.eqb_neq in E. pose proof (length_remove_at items index). lia.
Qed.

(** Whatever the operator does to the lines of the order form (choosing
    products and variants, typing quantities, adding and removing lines),
    the form never runs out of lines: an order is never submitted with an
    empty list of items. *)
Theorem order_form_keeps_a_line (products : list OrderForm.Product.t) (es : list line_edit) :
  (1 <= List.length (lines_after products es))%nat.
Proof.
  unfold lines_after.
  assert (G : forall items, (1 <= List.length items)%nat ->
                            (1 <= List.length (fold_left (fun items e => edit_lines products e items)
                                                 es items))%nat).
  { induction es as [|e es IH]; intros items L; cbn; [exact L|].
    apply IH. now apply edit_lines_length. }
  apply G. cbn. lia.
Qed.

(** ** The invoice and the status of a stored order *)






Lemma apply_status_patch (status : string) (r : Order.row) :
  total_is_derived r ->
  Order.apply_patch (Order.mkPatch (Some status) None None None None None) r
  = with_status status r.
Proof.
  intros [_ T]. unfold Order.apply_patch, with_status, Order.generated_total. cbn.
  now rewrite <- T.
Qed.

Lemma update_where_ext {R} (id_of : R -> uuid) (key : uuid) (f g : R -> R) (t : list R) :
  (forall r, In r t -> f r = g r) -> update_where id_of key f t = update_where id_of key g t.
Proof.
  intros H. unfold update_where. apply map_ext_in. intros r I.
  destruct (Nat.eqb _ _); [now apply H | reflexivity].
Qed.

Lemma touched_ok_update {R} (id_of : R -> uuid) (key : uuid) (f : R -> R) (ok : R -> bool)
    (t : list R) :
  (forall r, In r t -> ok (f r) = true) ->
  forallb ok t = true ->
  touched_ok id_of key ok (update_where id_of key f t) = true.
Proof.
  intros H F. unfold touched_ok, update_where. rewrite forallb_forall in *.
  intros r I. apply in_map_iff in I as [r0 [E I]]. subst r.
  destruct (Nat.eqb (id_of r0) key) eqn:K.
  - rewrite (H r0 I). apply orb_true_r.
  - rewrite (F r0 I). apply orb_true_r.
Qed.

(** A change of status is always accepted, whatever the old and the new
    status, and changes nothing but the status of that order: amounts,
    total, address, the other orders and the order lines stay as they
    were.  The selector in the list of orders leaves the same database as
    the one on the order's page. *)
Theorem status_change_changes_only_the_status (w : world) (order : OrderDetails.Order.t)
    (newStatus : string) :
  valid (db w) = true ->
  totals_derived (db w) ->
  let w' := world_after (OrderDetails.handleStatusChange (Some order) newStatus) w in
  orders (db w')
  = update_where Order.id (OrderDetails.Order.id order) (with_status newStatus) (orders (db w))
  /\ order_items (db w') = order_items (db w)
  /\ trace w'
     = trace w ++ [sent (update_order (OrderDetails.Order.id order)
                           (Order.mkPatch (Some newStatus) None None None None None)) true]
  /\ db (world_after (OrdersList.handleStatusChange newStatus (OrderDetails.Order.id order)) w)
     = db w'.
Proof.
  intros V T w'. subst w'. destruct w as [d tr]. cbn [db trace] in *.
  apply valid_true in V. destruct V as [_ [_ [Vo _]]].
  set (u := Order.mkPatch (Some newStatus) None None None None None).
  set (key := OrderDetails.Order.id order).
  assert (P : perform (update_order key u) d
              = Some (mkDb (products d) (product_variants d)
                        (update_where Order.id key (with_status newStatus) (orders d))
                        (order_items d) (last_uuid d))).
  { unfold perform. cbv beta iota zeta. cbn [Order.u_total_amount u].
    rewrite touched_ok_update.
    - f_equal. f_equal. apply update_where_ext. intros r I. apply apply_status_patch, T, I.
    - intros r I. rewrite forallb_forall in Vo. specialize (Vo r I).
      unfold Order.row_ok in *. exact Vo.
    - exact Vo. }
  unfold world_after, OrderDetails.handleStatusChange, OrdersList.handleStatusChange,
    try_catch, bind.
  fold key. fold u. rewrite (send_accepted _ _ _ _ P). cbn. repeat split.
Qed.

Lemma status_change_witness :
  let w := world_after (OrderForm.handleSubmit Sample.order_page) Sample.start in
  map Order.status
    (orders (db (world_after
                   (OrderDetails.handleStatusChange
                      (OrderDetails.fetchOrder 1 (db w)) "shipped") w)))
  = ["shipped"].
Proof.
  intros w.
  destruct (OrderDetails.fetchOrder 1 (db w)) as [order|] eqn:F; [|discriminate F].
  rewrite (proj1 (status_change_changes_only_the_status w order "shipped" eq_refl
                    (keeps_OrderForm_handleSubmit totals_derived perform_totals_derived
                       Sample.order_page Sample.start (fun r F => match F with end)))).
  inversion F. reflexivity.
Defined.

(** ** The wording of amounts *)

Lemma scan_app (a b : string) :
  forall p, scan p (a ++ b) = match scan p a with
                              | Some q => scan q b
                              | None => None
                              end.
Proof.
  induction a as [|c a IH]; intros p; cbn [scan String.append]; [reflexivity|].
  destruct p.
  - destruct (is_upper c); [apply IH | reflexivity].
  - destruct (is_lower c); [apply IH | reflexivity].
  - destruct (is_lower c); [apply IH|].
    destruct (Ascii.eqb c " "); [apply IH | reflexivity].
Qed.

Lemma lower_not_white (c : ascii) : is_lower c = true -> Js.is_white_space c = false.
Proof.
  unfold is_lower, Js.is_white_space. intros H.
  apply andb_prop in H as [H1 H2].
  apply Nat.leb_le in H1.
  destruct (nat_of_ascii c) as [|[|[|[|[|[|[|[|[|[|[|[|[|[|[|[|[|[|[|[|[|[|[|[|[|[|[|[|[|[|[|[|[|n]]]]]]]]]]]]]]]]]]]]]]]]]]]]]]]]];
    try reflexivity; exfalso; lia.
Qed.

Lemma upper_not_white (c : ascii) : is_upper c = true -> Js.is_white_space c = false.
Proof.
  unfold is_upper, Js.is_white_space. intros H.
  apply andb_prop in H as [H1 H2].
  apply Nat.leb_le in H1.
  destruct (nat_of_ascii c) as [|[|[|[|[|[|[|[|[|[|[|[|[|[|[|[|[|[|[|[|[|[|[|[|[|[|[|[|[|[|[|[|[|n]]]]]]]]]]]]]]]]]]]]]]]]]]]]]]]]];
    try reflexivity; exfalso; lia.
Qed.

Lemma scan_one (p : position) (c : ascii) :
  scan p (String c "") = Some boundary -> p = inside /\ c = " "%char.
Proof.
  cbn. destruct p.
  - destruct (is_upper c); discriminate.
  - destruct (is_lower c); discriminate.
  - destruct (is_lower c); [discriminate|].
    destruct (Ascii.eqb c " ") eqn:E; [|discriminate].
    apply Ascii.eqb_eq in E. intros _. split; [reflexivity | exact E].
Qed.

(** A text of words that each end in a space loses exactly its last
    space to [trim_end]. *)
Lemma trim_end_scan (s : string) :
  forall p, scan p s = Some boundary -> s <> "" ->
            exists t, s = (t ++ " ")%string /\ Js.trim_end s = t.
Proof.
  induction s as [|c s IH]; intros p S N; [contradiction|].
  destruct s as [|c' s'].
  - exists "". apply scan_one in S as [_ ->]. split; reflexivity.
  - assert (Q : exists q, scan q (String c' s') = Some boundary
                          /\ (q = inside -> Js.is_white_space c = false)).
    { cbn [scan] in S. destruct p.
      - destruct (is_upper c); [|discriminate S]. exists capital. split; [exact S | discriminate].
      - destruct (is_lower c) eqn:L; [|discriminate S]. exists inside.
        split; [exact S | intros _; now apply lower_not_white].
      - destruct (is_lower c) eqn:L.
        + exists inside. split; [exact S | intros _; now apply lower_not_white].
        + destruct (Ascii.eqb c " "); [|discriminate S].
          exists boundary. split; [exact S | discriminate]. }
    destruct Q as [q [Sq W]].
    destruct (IH q Sq ltac:(discriminate)) as [t [E T]].
    exists (String c t). split; [cbn [String.append]; now rewrite <- E|].
    change (Js.trim_end (String c (String c' s')))
      with (match Js.trim_end (String c' s') with
            | EmptyString => if Js.is_white_space c then EmptyString else String c EmptyString
            | String a b => String c (String a b)
            end).
    rewrite T. destruct t as [|ct t']; [|reflexivity].
    cbn [String.append] in E. inversion E; subst c' s'.
    apply scan_one in Sq as [Hq _]. now rewrite (W Hq).
Qed.

Lemma hundreds_all_checked : forallb hundreds_checked (seq 0 1000) = true.
Proof. vm_compute. reflexivity. Qed.

Lemma convertLessThanThousand_words (m : Z) :
  0 <= m < 1000 ->
  scan boundary (OrderDetails.convertLessThanThousand m) = Some boundary
  /\ (0 < m -> OrderDetails.convertLessThanThousand m <> "").
Proof.
  intros B. pose proof hundreds_all_checked as H. rewrite forallb_forall in H.
  specialize (H (Z.to_nat m)). rewrite in_seq in H.
  assert (R : (0 <= Z.to_nat m < 0 + 1000)%nat) by lia.
  specialize (H R).
  unfold hundreds_checked in H. rewrite Z2Nat.id in H by lia.
  destruct (OrderDetails.convertLessThanThousand m) as [|c s].
  - split; [reflexivity|]. apply Nat.eqb_eq in H. lia.
  - split; [|discriminate].
    destruct (scan boundary (String c s)) as [[| |]|]; try discriminate H. reflexivity.
Qed.

Lemma floor_below (x : Qc) (k : Z) : (x < OrderForm.number_of_int k)%Qc -> OrderDetails.floor x < k.
Proof.
  intros H. unfold OrderDetails.floor.
  assert (L : (inject_Z (Qfloor x) < inject_Z k)%Q).
  { eapply Qle_lt_trans; [apply Qfloor_le|].
    unfold Qclt, OrderForm.number_of_int in H. cbn [this Q2Qc] in H.
    now rewrite Qred_correct in H. }
  now rewrite <- Zlt_Qlt in L.
Qed.

Lemma floor_at_least (x : Qc) (k : Z) : (OrderForm.number_of_int k <= x)%Qc -> k <= OrderDetails.floor x.
Proof.
  intros H. unfold OrderDetails.floor.
  rewrite <- (Qfloor_Z k). apply Qfloor_resp_le.
  unfold Qcle, OrderForm.number_of_int in H. cbn [this Q2Qc] in H.
  now rewrite Qred_correct in H.
Qed.

Lemma append_assoc (a b c : string) : ((a ++ b) ++ c)%string = (a ++ (b ++ c))%string.
Proof. induction a as [|x a IH]; cbn; [reflexivity | now rewrite IH]. Qed.

(** Trimming words that each end in a space and adding [" Only"] gives
    well-formed words. *)
Lemma trimmed_words (r : string) :
  scan boundary r = Some boundary -> r <> "" ->
  worded (Js.trim r ++ " Only") = true.
Proof.
  intros S N. destruct r as [|c s]; [contradiction|].
  assert (U : is_upper c = true).
  { cbn in S. destruct (is_upper c); [reflexivity | discriminate S]. }
  unfold Js.trim. cbn [Js.trim_start]. rewrite (upper_not_white c U).
  destruct (trim_end_scan _ _ S N) as [t [E T]]. rewrite T.
  assert (X : scan boundary ((t ++ " Only") ++ " ") = Some boundary).
  { rewrite append_assoc. change (" Only" ++ " ")%string with (" " ++ "Only ")%string.
    rewrite <- append_assoc, <- E, scan_app, S. reflexivity. }
  unfold worded. remember (t ++ " Only")%string as u eqn:TO.
  destruct u as [|a u]; [destruct t; discriminate TO | now rewrite X].
Qed.

(** Every amount from 1 up to (not including) 1,000,000,000 is worded in
    well-formed words: capitalised words separated by single spaces, with
    no space before or after, ending in [Only]. *)
Theorem words_are_well_formed (x : Qc) :
  (OrderForm.number_of_int 1 <= x)%Qc ->
  (x < OrderForm.number_of_int 1000000000)%Qc ->
  worded (OrderDetails.numberToWords x) = true.
Proof.
  intros L U. apply floor_at_least in L. pose proof (floor_below _ _ U) as B.
  unfold OrderDetails.numberToWords.
  rewrite Qc_eq_bool_false.
  2:{ intros E. subst x. vm_compute in L. now apply L. }
  set (n := OrderDetails.floor x) in *.
  assert (C := convertLessThanThousand_words).
  assert (Step : forall (r : string) (m : Z) (unit : string),
             scan boundary r = Some boundary -> 0 < m < 1000 ->
             scan boundary unit = Some boundary ->
             scan boundary (r ++ OrderDetails.convertLessThanThousand m ++ unit) = Some boundary
             /\ (r ++ OrderDetails.convertLessThanThousand m ++ unit)%string <> "").
  { intros r m unit Sr Bm Su. destruct (C m ltac:(lia)) as [Sm Nm]. split.
    - now rewrite scan_app, Sr, scan_app, Sm.
    - destruct r; [|discriminate]. cbn [String.append].
      destruct (OrderDetails.convertLessThanThousand m);
        [exfalso; apply Nm; [lia | reflexivity] | discriminate]. }
  assert (Last : forall (r : string) (m : Z),
             scan boundary r = Some boundary -> 0 <= m < 1000 -> r <> "" \/ 0 < m ->
             scan boundary (r ++ OrderDetails.convertLessThanThousand m) = Some boundary
             /\ (r ++ OrderDetails.convertLessThanThousand m)%string <> "").
  { intros r m Sr Bm Ne. destruct (C m Bm) as [Sm Nm]. split.
    - now rewrite scan_app, Sr.
    - destruct r; [|discriminate]. cbn [String.append].
      destruct Ne as [Ne|Ne]; [contradiction | now apply Nm]. }
  assert (Rem : forall a b, 0 <= a -> 0 < b -> 0 <= Z.rem a b < b /\ Z.rem a b <= a).
  { intros a b Ha Hb. rewrite Z.rem_mod_nonneg by lia.
    split; [apply Z.mod_pos_bound; lia | apply Z.mod_le; lia]. }
  assert (Div : forall a b, 0 < b -> b <= a -> a < b * 1000 -> 0 < a / b < 1000).
  { intros a b Hb Ha Hu. split; [apply Z.div_str_pos; lia | apply Z.div_lt_upper_bound; lia]. }
  destruct (n >=? 1000000) eqn:M; cbv beta iota zeta.
  - destruct (Step "" (n / 1000000) "Million " eq_refl (Div n 1000000 ltac:(lia) ltac:(lia) ltac:(lia))
                eq_refl) as [S1 N1].
    destruct (Rem n 1000000 ltac:(lia) ltac:(lia)) as [R1 R1'].
    destruct (Z.rem n 1000000 >=? 1000) eqn:K; cbv beta iota zeta.
    + destruct (Step _ (Z.rem n 1000000 / 1000) "Thousand " S1
                  (Div (Z.rem n 1000000) 1000 ltac:(lia) ltac:(lia) ltac:(lia)) eq_refl) as [S2 N2].
      destruct (Rem (Z.rem n 1000000) 1000 ltac:(lia) ltac:(lia)) as [R2 _].
      destruct (Last _ (Z.rem (Z.rem n 1000000) 1000) S2 R2 (or_introl N2)) as [S3 N3].
      apply trimmed_words; assumption.
    + assert (Bn : 0 <= Z.rem n 1000000 < 1000) by lia.
      destruct (Last _ (Z.rem n 1000000) S1 Bn (or_introl N1)) as [S3 N3].
      apply trimmed_words; assumption.
  - destruct (n >=? 1000) eqn:K; cbv beta iota zeta.
    + destruct (Step "" (n / 1000) "Thousand " eq_refl
                  (Div n 1000 ltac:(lia) ltac:(lia) ltac:(lia)) eq_refl) as [S2 N2].
      destruct (Rem n 1000 ltac:(lia) ltac:(lia)) as [R2 _].
      destruct (Last _ (Z.rem n 1000) S2 R2 (or_introl N2)) as [S3 N3].
      apply trimmed_words; assumption.
    + assert (Bn : 0 <= n < 1000) by lia. assert (Pn : 0 < n) by lia.
      destruct (Last "" n eq_refl Bn (or_intror Pn)) as [S3 N3].
      apply trimmed_words; assumption.
Qed.

Lemma words_are_well_formed_witness :
  worded (OrderDetails.numberToWords (Q2Qc (2469 # 2))) = true.
Proof.
  apply words_are_well_formed.
  - unfold Qcle, Qle. cbn. lia.
  - unfold Qclt, Qlt. cbn. lia.
Defined.

Lemma prefix_append (a b : string) : String.prefix a (a ++ b) = true.
Proof.
  induction a as [|c a IH]; cbn; [now destruct b|].
  destruct (ascii_dec c c) as [_|N]; [exact IH | now contradiction N].
Qed.

Lemma trim_end_append (a b : string) :
  Js.trim_end b <> "" -> Js.trim_end (a ++ b) = (a ++ Js.trim_end b)%string.
Proof.
  intros N. induction a as [|c a IH]; [reflexivity|].
  cbn [String.append Js.trim_end]. rewrite IH.
  destruct (a ++ Js.trim_end b)%string eqn:E; [|reflexivity].
  destruct a; [cbn in E; contradiction | discriminate E].
Qed.

Lemma trim_end_letter (c : ascii) (s : string) :
  Js.is_white_space c = false -> Js.trim_end (String c s) <> "".
Proof.
  intros W. cbn [Js.trim_end]. rewrite W. destruct (Js.trim_end s); discriminate.
Qed.

(** From a thousand on, [convertLessThanThousand] reads beyond its table
    of units. *)
Lemma convertLessThanThousand_beyond (m : Z) :
  1000 <= m ->
  exists tail, OrderDetails.convertLessThanThousand m = ("undefined Hundred " ++ tail)%string.
Proof.
  intros B. unfold OrderDetails.convertLessThanThousand.
  replace (m =? 0) with false by lia. replace (m >=? 100) with true by lia.
  assert (I : Js.at_index OrderDetails.ones (m / 100) = "undefined").
  { unfold Js.at_index.
    assert (10 <= m / 100) by (apply Z.div_le_lower_bound; lia).
    replace (m / 100 <? 0) with false by lia.
    apply nth_overflow. cbn. lia. }
  rewrite I. cbv beta iota zeta.
  destruct (Z.rem m 100 >=? 20).
  - destruct (Z.rem (Z.rem m 100) 10 >? 0); rewrite !append_assoc; eexists; reflexivity.
  - destruct (Z.rem m 100 >=? 10); [rewrite !append_assoc; eexists; reflexivity|].
    destruct (Z.rem m 100 >? 0); [rewrite !append_assoc|]; eexists; reflexivity.
Qed.

(** From 1,000,000,000 on the amount in words is no amount: it starts
    with [undefined Hundred]. *)
Theorem words_undefined_from_a_billion (x : Qc) :
  (OrderForm.number_of_int 1000000000 <= x)%Qc ->
  String.prefix "undefined Hundred " (OrderDetails.numberToWords x) = true.
Proof.
  intros L. apply floor_at_least in L.
  unfold OrderDetails.numberToWords.
  rewrite Qc_eq_bool_false.
  2:{ intros E. subst x. vm_compute in L. now apply L. }
  set (n := OrderDetails.floor x) in *.
  replace (n >=? 1000000) with true by lia. cbv beta iota zeta.
  assert (M : 1000 <= n / 1000000) by (apply Z.div_le_lower_bound; lia).
  destruct (convertLessThanThousand_beyond _ M) as [tail E]. rewrite E.
  assert (G : forall rest : string,
             String.prefix "undefined Hundred "
               (Js.trim (((("" ++ ("undefined Hundred " ++ tail) ++ "Million ") ++ rest))%string)
                ++ " Only") = true).
  { intros rest. rewrite !append_assoc.
    change ("" ++ "undefined Hundred " ++ tail ++ "Million " ++ rest)%string
      with (String "u" ("ndefined Hundred " ++ tail ++ "Million " ++ rest)).
    unfold Js.trim. cbn [Js.trim_start].
    replace (Js.is_white_space "u") with false by reflexivity.
    change (String "u" ("ndefined Hundred " ++ tail ++ "Million " ++ rest))
      with ("undefined Hundred " ++ (tail ++ "Million " ++ rest))%string.
    assert (NM : Js.trim_end ("Million " ++ rest) <> "").
    { change ("Million " ++ rest)%string with (String "M" ("illion " ++ rest)).
      now apply trim_end_letter. }
    rewrite trim_end_append.
    - rewrite append_assoc. apply prefix_append.
    - rewrite (trim_end_append _ _ NM).
      destruct tail; [exact NM | discriminate]. }
  destruct (Z.rem n 1000000 >=? 1000); cbv beta iota zeta.
  - rewrite (append_assoc _ _ (OrderDetails.convertLessThanThousand _)). apply G.
  - apply G.
Qed.

Lemma words_undefined_witness :
  String.prefix "undefined Hundred "
    (OrderDetails.numberToWords (OrderForm.number_of_int 1000000000)) = true.
Proof.
  apply words_undefined_from_a_billion. unfold Qcle, Qle. cbn. lia.
Defined.

(** ** Product forms: SKU, price and stock checks *)

Lemma sku_unique_filter (sku : string) (t : list Product.row) :
  Product.sku_unique t = true ->
  (List.length (filter (fun r => String.eqb (Product.sku r) sku) t) <= 1)%nat.
Proof.
  induction t as [|r t IH]; cbn; [lia|].
  intros U. apply andb_prop in U as [U1 U2]. specialize (IH U2).
  destruct (String.eqb (Product.sku r) sku) eqn:E; [|exact IH].
  apply String.eqb_eq in E. subst sku. apply negb_true_iff in U1.
  rewrite (existsb_false_filter _ _ U1). cbn. lia.
Qed.

(** On a table with unique SKUs the check of the product form finds what
    [sku_taken] says. *)
Lemma checkSkuExists_taken (route : option uuid) (sku : string) (w : world) :
  Product.sku_unique (products (db w)) = true ->
  ProductForm.checkSkuExists route sku w = (normal (sku_taken route sku (db w)), w).
Proof.
  intros U. unfold ProductForm.checkSkuExists, read, sku_taken. f_equal. f_equal.
  pose proof (sku_unique_filter sku _ U) as L.
  induction (products (db w)) as [|r t IH]; cbn in *; [reflexivity|].
  apply andb_prop in U as [U1 U2].
  destruct (String.eqb (Product.sku r) sku) eqn:E; cbn.
  - assert (N : filter (fun r0 => String.eqb (Product.sku r0) sku) t = []).
    { destruct (filter _ t); [reflexivity | cbn in L; lia]. }
    rewrite N in IH. specialize (IH U2 ltac:(cbn; lia)).
    rewrite <- IH. destruct route; [now rewrite orb_false_r | reflexivity].
  - now apply IH.
Qed.

Lemma checkSkuExists_details (product : uuid) (sku : string) (w : world) :
  ProductDetails.checkSkuExists product sku w = (normal (sku_taken (Some product) sku (db w)), w).
Proof. reflexivity. Qed.

Lemma stock_figure_ok (initial minimum : Z) (r : Product.row) :
  Product.initial_stock r = initial -> Product.minimum_stock r = minimum ->
  Product.row_ok r = stock_figure initial && stock_figure minimum.
Proof.
  intros <- <-. unfold Product.row_ok, stock_figure, int4, MIN_INT4, MAX_INT4.
  destruct (0 <=? Product.initial_stock r) eqn:A; destruct (0 <=? Product.minimum_stock r) eqn:B;
    destruct (Product.initial_stock r <=? 2147483647) eqn:C;
    destruct (Product.minimum_stock r <=? 2147483647) eqn:D;
    cbn; rewrite ?andb_true_r, ?andb_false_r; try reflexivity;
    try (replace (-2147483648 <=? Product.initial_stock r) with true by lia);
    try (replace (-2147483648 <=? Product.minimum_stock r) with true by lia);
    reflexivity.
Qed.

Lemma sku_unique_app (t : list Product.row) (r : Product.row) :
  Product.sku_unique t = true ->
  existsb (fun r' => String.eqb (Product.sku r') (Product.sku r)) t = false ->
  Product.sku_unique (t ++ [r]) = true.
Proof.
  induction t as [|x t IH]; cbn; [reflexivity|].
  intros U E. apply andb_prop in U as [U1 U2]. apply orb_false_iff in E as [E1 E2].
  rewrite (IH U2 E2), andb_true_r.
  rewrite existsb_app. cbn. apply negb_true_iff in U1. rewrite U1. cbn.
  rewrite orb_false_r. now rewrite string_eqb_sym, E1.
Qed.

Lemma send_never_throws (q : request) (w : world) (e : option string) (w' : world) :
  send q w <> (thrown e, w').
Proof. unfold send. destruct (perform q (db w)); discriminate. Qed.

(** Variant inserts never touch the products, and [send_all] never
    throws. *)
Lemma send_all_inserts (ps : list ProductVariant.payload) :
  forall w,
    fst (ProductForm.send_all (map insert_variant ps) w) = normal tt
    /\ products (db (snd (ProductForm.send_all (map insert_variant ps) w))) = products (db w)
    /\ orders (db (snd (ProductForm.send_all (map insert_variant ps) w))) = orders (db w)
    /\ order_items (db (snd (ProductForm.send_all (map insert_variant ps) w))) = order_items (db w).
Proof.
  induction ps as [|p ps IH]; intros w; cbn [map ProductForm.send_all]; [repeat split|].
  unfold bind.
  destruct (after_insert_variant p (db w)) as [_ [A1 [A2 A3]]]. rewrite <- db_send in A1, A2, A3.
  destruct (send (insert_variant p) w) as [[error|e] w1] eqn:S.
  - cbn [snd] in A1, A2, A3. destruct (IH w1) as [I0 [I1 [I2 I3]]].
    rewrite I0, I1, I2, I3, A1, A2, A3. repeat split.
  - unfold send in S. destruct (perform _ _); discriminate S.
Qed.

(** What becomes of a new product.  If another product carries the SKU,
    the form says so and writes nothing.  Otherwise the product statement
    goes out: with a blank price, or an initial or minimum stock that is
    negative or beyond the 32-bit integers, the backend refuses it and the
    form reports a failure, nothing stored; else the product is stored as
    entered. *)
Theorem product_creation_outcome (w : world) (s : ProductForm.state) :
  valid (db w) = true ->
  ProductForm.route_id s = None ->
  let f := ProductForm.formData s in
  let w' := world_after (ProductForm.handleSubmit s) w in
  if sku_taken None (ProductForm.sku f) (db w) then
    db w' = db w
    /\ trace w' = trace w ++ [set_error "sku" "This SKU is already in use. Please enter a unique SKU."]
  else
    match ProductForm.price_field f with
    | Some price =>
        if stock_figure (ProductForm.initial_stock f) && stock_figure (ProductForm.minimum_stock f)
        then
          products (db w')
          = products (db w)
            ++ [Product.mkRow (S (last_uuid (db w))) (ProductForm.name f)
                  (Some (ProductForm.description f)) (ProductForm.sku f) price
                  (ProductForm.category_id f) (ProductForm.image_url f)
                  (ProductForm.initial_stock f) (ProductForm.minimum_stock f)]
        else
          db w' = db w
          /\ trace w' = trace w ++ [sent (insert_product (ProductForm.productData f)) false;
                                    set_error "form" "Failed to save product. Please try again."]
    | None =>
        db w' = db w
        /\ trace w' = trace w ++ [sent (insert_product (ProductForm.productData f)) false;
                                  set_error "form" "Failed to save product. Please try again."]
    end.
Proof.
  intros V R f w'. subst w'. destruct w as [d tr]. cbn [db trace] in *.
  pose proof V as V0. apply valid_true in V0. destruct V0 as [[_ U] _].
  unfold world_after, ProductForm.handleSubmit, try_catch, bind. fold f.
  rewrite (checkSkuExists_taken _ _ (mkWorld d tr) U), R. cbn [db].
  destruct (sku_taken None (ProductForm.sku f) d) eqn:T; [cbn; split; reflexivity|].
  unfold sku_taken in T.
  assert (T' : existsb (fun r' => String.eqb (Product.sku r') (ProductForm.sku f)) (products d) = false).
  { rewrite <- T. clear. induction (products d) as [|r t IH]; cbn; [reflexivity|].
    now rewrite IH, andb_true_r. }
  destruct (ProductForm.price_field f) as [price|] eqn:P.
  - set (r := Product.mkRow (S (last_uuid d)) (ProductForm.name f)
                (Some (ProductForm.description f)) (ProductForm.sku f) price
                (ProductForm.category_id f) (ProductForm.image_url f)
                (ProductForm.initial_stock f) (ProductForm.minimum_stock f)).
    assert (O : Product.of_payload (S (last_uuid d)) (ProductForm.productData f) = Some r).
    { unfold Product.of_payload, ProductForm.productData. cbn. now rewrite P. }
    pose proof (stock_figure_ok (ProductForm.initial_stock f) (ProductForm.minimum_stock f) r
                  eq_refl eq_refl) as K.
    destruct (stock_figure (ProductForm.initial_stock f) && stock_figure (ProductForm.minimum_stock f)).
    + assert (E : perform (insert_product (ProductForm.productData f)) d
                  = Some (mkDb (products d ++ [r]) (product_variants d) (orders d)
                            (order_items d) (S (last_uuid d)))).
      { unfold perform. cbv beta iota zeta. rewrite O, K.
        now rewrite (sku_unique_app _ r U T'). }
      rewrite (send_returning_accepted _ _ _ _ E). cbn [last_uuid].
      destruct (ProductForm.hasVariants s && Nat.ltb 0 (List.length (ProductForm.variants f))).
      * rewrite <- (map_map (ProductForm.variantData (S (last_uuid d)) f) insert_variant).
        match goal with
        | |- context [ProductForm.send_all (map insert_variant ?ps) ?w1] =>
            destruct (send_all_inserts ps w1) as [I0 [I1 _]];
            destruct (ProductForm.send_all (map insert_variant ps) w1) as [c w2]
        end.
        cbn [fst snd] in I0, I1. subst c. cbn. exact I1.
      * match goal with
        | |- context [send (insert_variant ?p) ?w1] =>
            destruct (after_insert_variant p (db w1)) as [_ [A1 _]];
            rewrite <- db_send in A1;
            destruct (send (insert_variant p) w1) as [[error|e] w2] eqn:S
        end.
        -- cbn [snd] in A1. destruct error; cbn; exact A1.
        -- exfalso. exact (send_never_throws _ _ _ _ S).
    + assert (E : perform (insert_product (ProductForm.productData f)) d = None).
      { unfold perform. cbv beta iota zeta. now rewrite O, K. }
      rewrite (send_returning_refused _ _ _ E). cbn. rewrite <- app_assoc.
      split; reflexivity.
  - assert (E : perform (insert_product (ProductForm.productData f)) d = None).
    { unfold perform, Product.of_payload, ProductForm.productData. cbn. now rewrite P. }
    rewrite (send_returning_refused _ _ _ E). cbn. rewrite <- app_assoc.
    split; reflexivity.
Qed.

Lemma product_creation_witness :
  products (db (world_after (ProductForm.handleSubmit Sample.shirt) Sample.start))
  = products (db Sample.start)
    ++ [Product.mkRow 1 "Shirt" (Some "") "SH-1" (Sample.number 10) None None 20 5].
Proof. exact (product_creation_outcome Sample.start Sample.shirt eq_refl eq_refl). Defined.

(** ** The variants of the product form *)

Lemma filter_remove_at {A} (f : A -> bool) (l : list A) :
  forall index,
    (List.length (filter f (ProductForm.remove_at index l)) <= List.length (filter f l))%nat.
Proof.
  induction l as [|x l IH]; intros index; [destruct index; cbn; lia|].
  destruct index as [|i]; cbn.
  - destruct (f x); cbn; lia.
  - specialize (IH i). destruct (f x); cbn; lia.
Qed.

Lemma filter_mapi_same {A} (f : A -> bool) (g : A -> nat -> A) (l : list A) :
  (forall x i, f (g x i) = f x) ->
  forall from, List.length (filter f (ProductForm.mapi g from l)) = List.length (filter f l).
Proof.
  intros H. induction l as [|x l IH]; intros from; cbn; [reflexivity|].
  rewrite H. destruct (f x); cbn; now rewrite IH.
Qed.

Lemma filter_length_zero {A} (f : A -> bool) (l : list A) :
  List.length l = O -> filter f l = [].
Proof. destruct l; [reflexivity | discriminate]. Qed.

Lemma edit_variants_one_default (e : variant_edit) (s : ProductForm.state) :
  (List.length (form_defaults s) <= 1)%nat ->
  (List.length (form_defaults (edit_variants e s)) <= 1)%nat.
Proof.
  unfold form_defaults. intros H. destruct e as [|index|index|index c]; cbn.
  - rewrite filter_app, length_app. cbn.
    destruct (Nat.eqb (List.length (ProductForm.variants (ProductForm.formData s))) 0) eqn:E; cbn.
    + apply Nat.eqb_eq in E. rewrite (filter_length_zero _ _ E). cbn. lia.
    + lia.
  - etransitivity; [apply filter_remove_at | exact H].
  - etransitivity; [apply mapi_one_default|]. destruct (Nat.leb 0 index); lia.
  - rewrite filter_mapi_same; [exact H|].
    intros v i. destruct (Nat.eqb i index); [|reflexivity]. now destruct c.
Qed.

(** Whatever the operator does to the variants of the product form
    (adding, removing, editing a field, clicking a default button), at
    most one variant of the form is flagged default, provided that was so
    when the form opened; a form that opens without variants flags the
    first variant added. *)
Theorem variant_edits_keep_one_default (s : ProductForm.state) (es : list variant_edit) :
  (List.length (form_defaults s) <= 1)%nat ->
  (List.length (form_defaults (form_after es s)) <= 1)%nat
  /\ (ProductForm.variants (ProductForm.formData s) = [] ->
      map ProductForm.is_default
        (ProductForm.variants (ProductForm.formData (form_after [add_variant; add_variant] s)))
      = [true; false]).
Proof.
  intros H. split.
  - unfold form_after. revert s H.
    induction es as [|e es IH]; intros s H; cbn; [exact H|].
    apply IH. now apply edit_variants_one_default.
  - intros E. cbn. rewrite E. reflexivity.
Qed.

Lemma variant_edits_witness :
  (List.length
     (form_defaults
        (form_after [add_variant; add_variant; choose_default 1; remove_variant 0; add_variant]
           Sample.shirt)) <= 1)%nat.
Proof. apply variant_edits_keep_one_default. cbn. lia. Defined.

(** What [send_all] leaves on the trace: one event for each statement, in
    order, and never an exception. *)
Lemma send_all_trace (qs : list request) :
  forall w, exists es,
    ProductForm.send_all qs w
    = (normal tt, mkWorld (db (snd (ProductForm.send_all qs w))) (trace w ++ es))
    /\ all_sent qs es.
Proof.
  induction qs as [|q qs IH]; intros w; cbn [ProductForm.send_all].
  - exists []. rewrite app_nil_r. destruct w. split; [reflexivity | constructor].
  - unfold bind, send.
    destruct (perform q (db w)) as [d'|].
    + destruct (IH (mkWorld d' (trace w ++ [sent q true]))) as [es [E A]].
      exists (sent q true :: es). split.
      * rewrite E at 1. cbn [trace]. now rewrite <- app_assoc.
      * constructor; [now exists true | exact A].
    + destruct (IH (mkWorld (db w) (trace w ++ [sent q false]))) as [es [E A]].
      exists (sent q false :: es). split.
      * rewrite E at 1. cbn [trace]. now rewrite <- app_assoc.
      * constructor; [now exists false | exact A].
Qed.



(** ** The product form in edit mode, and the fields of a new variant *)

Lemma after_update_product (key : uuid) (p : Product.payload) (d : database) :
  product_variants (after (update_product key p) d) = product_variants d
  /\ orders (after (update_product key p) d) = orders d
  /\ order_items (after (update_product key p) d) = order_items d.
Proof.
  unfold after, perform. cbv beta iota zeta.
  destruct (existsb _ _); [|repeat split].
  destruct (Product.of_payload key p); [|repeat split].
  destruct (_ && _); repeat split.
Qed.

(** Opened for an existing product, the product form writes the product
    and nothing else: whatever was done to the variants in the form, and
    whatever initial stock was entered, no variant is added, removed or
    changed, and no stock quantity moves. *)
Theorem product_form_edit_never_writes_variants (w : world) (s : ProductForm.state) (i : uuid) :
  ProductForm.route_id s = Some i ->
  let d' := db (world_after (ProductForm.handleSubmit s) w) in
  product_variants d' = product_variants (db w)
  /\ orders d' = orders (db w) /\ order_items d' = order_items (db w).
Proof.
  intros R. unfold world_after, ProductForm.handleSubmit, try_catch, bind.
  unfold ProductForm.checkSkuExists, read. cbv beta iota. rewrite R.
  match goal with
  | |- context [if ?b then emit _ else _] => destruct b
  end; [cbn; repeat split|].
  match goal with
  | |- context [send ?q w] =>
      pose proof (after_update_product i (ProductForm.productData (ProductForm.formData s)) (db w))
        as A;
      rewrite <- (db_send q w) in A;
      destruct (send q w) as [[error|e] w1] eqn:S
  end.
  - cbn [snd] in A. destruct error; cbn; exact A.
  - exfalso. exact (send_never_throws _ _ _ _ S).
Qed.

Lemma product_form_edit_witness :
  let w := world_after (ProductForm.handleSubmit Sample.shirt) Sample.start in
  map ProductVariant.quantity
    (product_variants (db (world_after (ProductForm.handleSubmit Sample2.shirt_edited) w)))
  = [20]
  /\ map Product.initial_stock
       (products (db (world_after (ProductForm.handleSubmit Sample2.shirt_edited) w)))
     = [50].
Proof.
  intros w. split; [|reflexivity].
  rewrite (proj1 (product_form_edit_never_writes_variants w Sample2.shirt_edited 1 eq_refl)).
  reflexivity.
Defined.

(** A new product's only variant is stored with the product's initial
    stock, minimum stock and price wherever its own field is 0 (or its
    price is blank): a variant cannot be entered out of stock unless the
    product's initial stock is 0. *)
Theorem sole_variant_falls_back_on_the_product (w : world) (s : ProductForm.state)
    (d1 : database) (v : ProductForm.Variant) :
  let f := ProductForm.formData s in
  let productId := S (last_uuid (db w)) in
  let stored := ProductVariant.of_payload (S productId) (ProductForm.variantData productId f v) in
  ProductForm.route_id s = None ->
  ProductForm.hasVariants s = true ->
  ProductForm.variants f = [v] ->
  valid (db w) = true ->
  references_bounded (db w) ->
  perform (insert_product (ProductForm.productData f)) (db w) = Some d1 ->
  ProductVariant.row_ok stored = true ->
  let w' := world_after (ProductForm.handleSubmit s) w in
  variants_of productId (db w') = [stored]
  /\ ProductVariant.quantity stored
     = (if ProductForm.quantity v =? 0 then ProductForm.initial_stock f else ProductForm.quantity v)
  /\ ProductVariant.minimum_quantity stored
     = (if ProductForm.minimum_quantity v =? 0 then ProductForm.minimum_stock f
        else ProductForm.minimum_quantity v)
  /\ ProductVariant.price stored
     = (if Js.truthy_number (ProductForm.price v) then ProductForm.price v
        else ProductForm.price_field f).
Proof.
  intros f productId stored Hroute Hhas Hvs V B E Hok w'.
  split; [|repeat split].
  subst w'. destruct w as [d tr]. cbn [db trace] in *.
  assert (E' := E). cbn in E'.
  accepted_some E' R. accepted_if E' C. apply andb_true_iff in C as [C1 C2].
  inversion E'; subst d1; clear E'.
  assert (Hsku : Product.sku r = ProductForm.sku f).
  { unfold Product.of_payload in R. cbn in R.
    destruct (ProductForm.price_field f); inversion R; reflexivity. }
  apply valid_true in V as [_ [[Hv Hd] _]].
  assert (Hfresh := references_bounded_fresh d productId B (Nat.lt_succ_diag_r _)).
  assert (Hone : ProductVariant.one_default (product_variants d ++ [stored]) = true).
  { apply (one_default_new_product _ stored productId Hd); [reflexivity|].
    apply filter_none. intros x I. unfold ProductVariant.default_of.
    now rewrite (Hfresh x I), andb_false_r. }
  unfold world_after, ProductForm.handleSubmit, try_catch, bind.
  fold f. unfold ProductForm.checkSkuExists, read. cbn [db].
  rewrite <- Hsku, (sku_unique_new _ _ C2), Hroute.
  rewrite (send_returning_accepted _ _ _ _ E). cbn [last_uuid]. rewrite Hhas, Hvs.
  cbn [List.length Nat.ltb Nat.leb andb map ProductForm.send_all].
  match type of E with
  | _ = Some ?d1 =>
      pose proof (perform_insert_variant (ProductForm.variantData productId f v) d1 Hok Hone) as E2
  end.
  unfold bind. fold productId. rewrite (send_accepted _ _ _ _ E2).
  cbn. unfold variants_of. cbn. rewrite filter_app. cbn.
  unfold Supabase.eq_uuid.
  rewrite (filter_none _ _ Hfresh). cbn. now rewrite Nat.eqb_refl.
Qed.

Lemma sole_variant_witness :
  map ProductVariant.quantity
    (variants_of 1 (db (world_after (ProductForm.handleSubmit Sample2.mug) Sample.start)))
  = [20].
Proof.
  exact (f_equal (map ProductVariant.quantity)
           (proj1 (sole_variant_falls_back_on_the_product Sample.start Sample2.mug
                     (after (insert_product (ProductForm.productData (ProductForm.formData Sample2.mug)))
                        empty_db)
                     (ProductForm.mkVariant None "Plain" "" "" (Some (Sample.number 0)) 0 0 true)
                     eq_refl eq_refl eq_refl eq_refl
                     (fun r p F => match F with end)
                     eq_refl eq_refl))).
Defined.

(** ** Saving an existing product *)

Lemma update_where_absent {R} (id_of : R -> uuid) (key : uuid) (f : R -> R) (t : list R) :
  existsb (fun r => Nat.eqb (id_of r) key) t = false -> update_where id_of key f t = t.
Proof.
  unfold update_where. induction t as [|x t IH]; cbn; [reflexivity|].
  intros E. apply orb_false_iff in E as [E1 E2]. now rewrite E1, (IH E2).
Qed.

Lemma sku_unique_update (key : uuid) (r : Product.row) (t : list Product.row) :
  Product.sku_unique t = true ->
  NoDup (map Product.id t) ->
  existsb (fun x => String.eqb (Product.sku x) (Product.sku r) && negb (Nat.eqb (Product.id x) key)) t
  = false ->
  Product.sku_unique (update_where Product.id key (fun _ => r) t) = true.
Proof.
  induction t as [|x t IH]; cbn; [reflexivity|].
  intros U N F. apply andb_prop in U as [U1 U2]. apply negb_true_iff in U1.
  inversion N as [|i l Hn Hl]; subst. apply orb_false_iff in F as [F1 F2].
  fold (update_where Product.id key (fun _ => r) t).
  destruct (Nat.eqb (Product.id x) key) eqn:K.
  - apply Nat.eqb_eq in K. subst key.
    assert (A : existsb (fun y => Nat.eqb (Product.id y) (Product.id x)) t = false).
    { rewrite <- not_true_iff_false. intros E. apply existsb_exists in E as [y [Iy Ey]].
      apply Nat.eqb_eq in Ey. apply Hn. rewrite <- Ey. now apply in_map. }
    rewrite (update_where_absent _ _ _ _ A), U2, andb_true_r.
    apply negb_true_iff. rewrite <- not_true_iff_false. intros E.
    apply existsb_exists in E as [y [Iy Ey]].
    rewrite <- not_true_iff_false in F2. apply F2. apply existsb_exists. exists y.
    split; [exact Iy|]. rewrite Ey. cbn. apply negb_true_iff. apply Nat.eqb_neq.
    intros Q. apply Hn. rewrite <- Q. now apply in_map.
  - rewrite (IH U2 Hl F2), andb_true_r. cbn in F1. rewrite andb_true_r in F1.
    apply negb_true_iff. rewrite <- not_true_iff_false. intros E.
    apply existsb_exists in E as [y [Iy Ey]].
    apply in_update_where in Iy as [y0 [Iy0 ->]].
    destruct (Nat.eqb (Product.id y0) key).
    + rewrite string_eqb_sym, F1 in Ey. discriminate Ey.
    + rewrite <- not_true_iff_false in U1. apply U1. apply existsb_exists. now exists y0.
Qed.

(** What becomes of an edited product, in the product form.  If another
    product carries the SKU, the form says so and writes nothing; the
    product may keep its own SKU.  Otherwise the update goes out: if the
    product is no longer stored, nothing changes and the form goes back to
    the list as after a success; with a blank price or a stock figure that
    is negative or beyond the 32-bit integers the backend refuses and the
    form reports a failure; else the product's row is replaced by what was
    entered. *)
Theorem product_update_outcome (w : world) (s : ProductForm.state) (i : uuid) :
  valid (db w) = true ->
  NoDup (map Product.id (products (db w))) ->
  ProductForm.route_id s = Some i ->
  let f := ProductForm.formData s in
  let w' := world_after (ProductForm.handleSubmit s) w in
  let update := update_product i (ProductForm.productData f) in
  if sku_taken (Some i) (ProductForm.sku f) (db w) then
    db w' = db w
    /\ trace w' = trace w ++ [set_error "sku" "This SKU is already in use. Please enter a unique SKU."]
  else if negb (existsb (fun r => Nat.eqb (Product.id r) i) (products (db w))) then
    db w' = db w /\ trace w' = trace w ++ [sent update true; navigate "/products"]
  else
    match ProductForm.price_field f with
    | Some price =>
        if stock_figure (ProductForm.initial_stock f) && stock_figure (ProductForm.minimum_stock f)
        then
          products (db w')
          = update_where Product.id i
              (fun _ => Product.mkRow i (ProductForm.name f) (Some (ProductForm.description f))
                          (ProductForm.sku f) price (ProductForm.category_id f)
                          (ProductForm.image_url f) (ProductForm.initial_stock f)
                          (ProductForm.minimum_stock f))
              (products (db w))
          /\ trace w' = trace w ++ [sent update true; navigate "/products"]
        else
          db w' = db w
          /\ trace w' = trace w ++ [sent update false;
                                    set_error "form" "Failed to save product. Please try again."]
    | None =>
        db w' = db w
        /\ trace w' = trace w ++ [sent update false;
                                  set_error "form" "Failed to save product. Please try again."]
    end.
Proof.
  intros V Ids R f w' update. subst w' update. destruct w as [d tr]. cbn [db trace] in *.
  pose proof V as V0. apply valid_true in V0. destruct V0 as [[_ U] _].
  unfold world_after, ProductForm.handleSubmit, try_catch, bind. fold f.
  rewrite (checkSkuExists_taken _ _ (mkWorld d tr) U), R. cbn [db].
  destruct (sku_taken (Some i) (ProductForm.sku f) d) eqn:T; [cbn; split; reflexivity|].
  destruct (existsb (fun r => Nat.eqb (Product.id r) i) (products d)) eqn:X; cbn [negb].
  2:{ assert (E : perform (update_product i (ProductForm.productData f)) d = Some d).
      { unfold perform. cbv beta iota zeta. now rewrite X. }
      rewrite (send_accepted _ _ _ _ E). cbn. rewrite <- app_assoc. split; reflexivity. }
  destruct (ProductForm.price_field f) as [price|] eqn:P.
  - set (r := Product.mkRow i (ProductForm.name f) (Some (ProductForm.description f))
                (ProductForm.sku f) price (ProductForm.category_id f) (ProductForm.image_url f)
                (ProductForm.initial_stock f) (ProductForm.minimum_stock f)).
    assert (O : Product.of_payload i (ProductForm.productData f) = Some r).
    { unfold Product.of_payload, ProductForm.productData. cbn. now rewrite P. }
    pose proof (stock_figure_ok (ProductForm.initial_stock f) (ProductForm.minimum_stock f) r
                  eq_refl eq_refl) as K.
    destruct (stock_figure (ProductForm.initial_stock f) && stock_figure (ProductForm.minimum_stock f)).
    + assert (E : perform (update_product i (ProductForm.productData f)) d
                  = Some (mkDb (update_where Product.id i (fun _ => r) (products d))
                            (product_variants d) (orders d) (order_items d) (last_uuid d))).
      { unfold perform. cbv beta iota zeta. rewrite X, O, K.
        now rewrite (sku_unique_update i r _ U Ids T). }
      rewrite (send_accepted _ _ _ _ E). cbn. rewrite <- app_assoc. split; reflexivity.
    + assert (E : perform (update_product i (ProductForm.productData f)) d = None).
      { unfold perform. cbv beta iota zeta. now rewrite X, O, K. }
      rewrite (send_refused _ _ _ E). cbn. rewrite <- app_assoc. split; reflexivity.
  - assert (E : perform (update_product i (ProductForm.productData f)) d = None).
    { unfold perform, Product.of_payload, ProductForm.productData. cbn. now rewrite X, P. }
    rewrite (send_refused _ _ _ E). cbn. rewrite <- app_assoc. split; reflexivity.
Qed.

Lemma product_update_witness :
  let w := world_after (ProductForm.handleSubmit Sample.shirt) Sample.start in
  map Product.initial_stock
    (products (db (world_after (ProductForm.handleSubmit Sample2.shirt_edited) w)))
  = [50].
Proof.
  intros w.
  assert (N : NoDup (map Product.id (products (db w)))).
  { cbn. apply NoDup_cons; [intros []|]. apply NoDup_nil. }
  exact (f_equal (map Product.initial_stock)
           (proj1 (product_update_outcome w Sample2.shirt_edited 1 eq_refl N eq_refl))).
Defined.

(** The two checks of the product page come before any write.  With the
    "has variants" switch on and no variant flagged default, saving writes
    nothing and shows "One variant must be marked as default"; with the SKU
    of another product it writes nothing and shows the SKU error; otherwise
    the first statement sent is the update of the product. *)
Theorem product_page_checks_before_writing (w : world) (s : ProductDetails.state) :
  let w' := world_after (ProductDetails.handleSave s) w in
  let p := ProductDetails.product s in
  let e := ProductDetails.editedProduct s in
  if ProductDetails.hasVariants s
     && negb (Js.some ProductDetails.is_default (ProductDetails.variants s))
  then db w' = db w
       /\ trace w' = trace w ++ [set_error "form" "One variant must be marked as default"]
  else if sku_taken (Some p) (Product.p_sku e) (db w)
  then db w' = db w
       /\ trace w' = trace w ++ [set_error "sku" "This SKU is already in use by another product"]
  else exists accepted rest, trace w' = trace w ++ sent (update_product p e) accepted :: rest.
Proof.
  cbv zeta. destruct w as [d tr]. cbn [db trace].
  unfold world_after, ProductDetails.handleSave, try_catch, bind.
  destruct (ProductDetails.hasVariants s && negb (Js.some ProductDetails.is_default _)) eqn:C.
  - cbn. split; reflexivity.
  - rewrite checkSkuExists_details. cbn [db].
    destruct (sku_taken _ _ d) eqn:T; [cbn; split; reflexivity|].
    destruct (perform (update_product (ProductDetails.product s) (ProductDetails.editedProduct s)) d)
      as [d1|] eqn:E.
    + rewrite (send_accepted _ _ _ _ E). cbn [throw_if ret].
      destruct (ProductDetails.hasVariants s).
      * match goal with
        | |- context [ProductForm.send_all ?qs ?w1] =>
            destruct (send_all_trace qs w1) as [es [S _]]; rewrite S
        end.
        cbn. rewrite <- app_assoc. cbn. eauto.
      * unfold ret.
        destruct (send (delete_variants _) _) as [[x|x] w2] eqn:S2;
          [|exfalso; exact (send_never_throws _ _ _ _ S2)].
        pose proof (f_equal (fun r => trace (snd r)) S2) as T2. cbn in T2.
        destruct (send (insert_variant _) w2) as [[y|y] w3] eqn:S3;
          [|exfalso; exact (send_never_throws _ _ _ _ S3)].
        pose proof (f_equal (fun r => trace (snd r)) S3) as T3. cbn in T3.
        cbn. rewrite <- T3. unfold send. destruct (perform _ (db w2)); cbn [snd trace];
          rewrite <- T2; unfold send; destruct (perform _ _); cbn [snd trace db];
          rewrite <- !app_assoc; cbn; eauto.
    + rewrite (send_refused _ _ _ E). cbn. rewrite <- app_assoc. cbn. eauto.
Qed.

(** ** Saving the product page *)







(** ** Moving the default flag on the product page *)

















Example moving_the_default_trace_check :
  let w := mkWorld Sample2.two_variants [] in
  map (fun e => match e with
                | sent (update_product _ _) ok => (1%nat, ok)
                | sent (update_variant id _) ok => (id, ok)
                | _ => (0%nat, false)
                end)
    (trace (world_after (ProductDetails.handleSave Sample2.flag_moved) w))
  = [(1%nat, true); (2%nat, false); (3%nat, true)].
Proof. vm_compute. reflexivity. Qed.

(** ** The inventory page: status cards and pages *)

(** The three cards above the inventory table count the rows by the
    status the table shows for them, with one exception: a row with a
    negative quantity reads "Low Stock" and is counted on no card. *)
Theorem stock_cards_count_by_label (inventory : list ProductVariant.row) :
  forallb ProductVariant.row_ok inventory = true ->
  let stats := Inventory.getInventoryStats inventory in
  Inventory.outOfStock stats = labelled "Out of Stock" inventory
  /\ Inventory.inStock stats = labelled "In Stock" inventory
  /\ (Inventory.lowStock stats + overdrawn inventory)%nat = labelled "Low Stock" inventory
  /\ (Inventory.outOfStock stats + Inventory.lowStock stats + Inventory.inStock stats
      + overdrawn inventory)%nat = List.length inventory.
Proof.
  unfold Inventory.getInventoryStats, labelled, overdrawn, status_label.
  cbn [Inventory.outOfStock Inventory.lowStock Inventory.inStock].
  induction inventory as [|item inventory IH]; intros V; [repeat split|].
  cbn [forallb] in V. apply andb_prop in V as [V1 V2].
  destruct (IH V2) as [I1 [I2 [I3 I4]]]. clear IH.
  assert (M : 0 <= ProductVariant.minimum_quantity item).
  { unfold ProductVariant.row_ok in V1.
    apply andb_prop in V1 as [V1 _]. apply andb_prop in V1 as [_ V1]. lia. }
  cbn [filter].
  assert (Lb : Inventory.label
                 (Inventory.getStockStatus (ProductVariant.quantity item)
                    (ProductVariant.minimum_quantity item))
               = if ProductVariant.quantity item =? 0 then "Out of Stock"
                 else if ProductVariant.quantity item <=? ProductVariant.minimum_quantity item
                      then "Low Stock" else "In Stock").
  { unfold Inventory.getStockStatus.
    destruct (ProductVariant.quantity item =? 0); [reflexivity|].
    destruct (ProductVariant.quantity item <=? ProductVariant.minimum_quantity item); reflexivity. }
  rewrite Lb. clear Lb.
  destruct (ProductVariant.quantity item =? 0) eqn:Q0.
  - replace (ProductVariant.quantity item >? 0) with false by lia.
    replace (ProductVariant.quantity item >? ProductVariant.minimum_quantity item) with false by lia.
    replace (ProductVariant.quantity item <? 0) with false by lia.
    cbn [String.eqb Ascii.eqb Bool.eqb andb List.length]. repeat split; lia.
  - destruct (ProductVariant.quantity item <=? ProductVariant.minimum_quantity item) eqn:Q1.
    + replace (ProductVariant.quantity item >? ProductVariant.minimum_quantity item) with false by lia.
      destruct (ProductVariant.quantity item <? 0) eqn:Q2.
      * replace (ProductVariant.quantity item >? 0) with false by lia.
        cbn [String.eqb Ascii.eqb Bool.eqb andb List.length]. repeat split; lia.
      * replace (ProductVariant.quantity item >? 0) with true by lia.
        cbn [String.eqb Ascii.eqb Bool.eqb andb List.length]. repeat split; lia.
    + replace (ProductVariant.quantity item >? ProductVariant.minimum_quantity item) with true by lia.
      replace (ProductVariant.quantity item >? 0) with true by lia.
      replace (ProductVariant.quantity item <? 0) with false by lia.
      cbn [String.eqb Ascii.eqb Bool.eqb andb List.length]. repeat split; lia.
Qed.

Lemma stock_cards_witness :
  let inventory := [ProductVariant.mkRow 1 (Some 1%nat) None None 0 5 None true None;
                    ProductVariant.mkRow 2 (Some 1%nat) (Some "M") None 5 5 None false None;
                    ProductVariant.mkRow 3 (Some 1%nat) (Some "L") None 9 5 None false None;
                    ProductVariant.mkRow 4 (Some 1%nat) (Some "S") None (-2) 5 None false None] in
  Inventory.getInventoryStats inventory = Inventory.mkStats 1 1 1
  /\ labelled "Low Stock" inventory = 2%nat.
Proof.
  intros inventory. split; [reflexivity|].
  rewrite <- (proj1 (proj2 (proj2 (stock_cards_count_by_label inventory eq_refl)))).
  reflexivity.
Defined.

Lemma ceiling_of_quotient (t ps : Z) :
  0 < ps -> Qceiling (inject_Z t / inject_Z ps) = - ((- t) / ps).
Proof.
  intros P. unfold Qceiling. f_equal.
  destruct ps as [|p|p]; try lia.
  rewrite (Qfloor_comp _ ((- t) # p)); [reflexivity|].
  unfold Qeq, Qdiv, Qmult, Qinv, Qopp, inject_Z. cbn. lia.
Qed.

Lemma ceiling_bounds (t ps : Z) :
  0 < ps -> (- ((- t) / ps) - 1) * ps < t <= - ((- t) / ps) * ps.
Proof.
  intros P. pose proof (Z.div_mod (- t) ps ltac:(lia)) as D.
  pose proof (Z.mod_pos_bound (- t) ps P) as B. nia.
Qed.

Lemma firstn_add {A} (a b : nat) (l : list A) :
  firstn (a + b) l = firstn a l ++ firstn b (skipn a l).
Proof.
  revert l. induction a as [|a IH]; intros l; [reflexivity|].
  destruct l as [|x l]; cbn; [now rewrite firstn_nil | now rewrite IH].
Qed.

Lemma firstn_chunks {A} (n : nat) (rows : list A) (k : nat) :
  List.concat (map (fun i => firstn n (skipn (i * n) rows)) (seq 0 k)) = firstn (k * n) rows.
Proof.
  induction k as [|k IH]; [reflexivity|].
  rewrite seq_S, map_app, concat_app, IH. cbn [map List.concat plus]. rewrite app_nil_r.
  replace (S k * n)%nat with (k * n + n)%nat by lia. now rewrite firstn_add.
Qed.

Lemma page_rows (d : database) (pageSize total : Z) (i : nat) :
  0 < pageSize ->
  fst (Inventory.fetchInventory (Table.mkPagination (Z.of_nat i + 1) pageSize total) d)
  = firstn (Z.to_nat pageSize) (skipn (i * Z.to_nat pageSize) (Inventory.listed d)).
Proof.
  intros P. unfold Inventory.fetchInventory, Supabase.range. cbn [fst Table.page Table.pageSize].
  f_equal; [f_equal; lia | f_equal; nia].
Qed.

(** The pages of the inventory list, taken in the order of the page
    buttons, show every listed variant once and in order, no page is empty
    and none is longer than the page size, and the "Showing a to b" line of
    a page gives the positions of its first and last row.  (Every stored
    variant belongs to a stored product, so that the count of variants is
    the number of listed rows.) *)
Theorem inventory_pages_cover_the_list (d : database) (pageSize : Z) :
  0 < pageSize ->
  List.length (Inventory.listed d) = List.length (product_variants d) ->
  let pagination := fun page =>
                      Table.mkPagination page pageSize
                        (snd (Inventory.fetchInventory (Table.mkPagination 1 pageSize 0) d)) in
  let rows := fun page => fst (Inventory.fetchInventory (pagination page) d) in
  List.concat (map rows (Table.pages (pagination 1))) = Inventory.listed d
  /\ Forall (fun page => rows page <> []
                         /\ (List.length (rows page) <= Z.to_nat pageSize)%nat
                         /\ Table.showing (pagination page) (Z.of_nat (List.length (rows page)))
                            = ((page - 1) * pageSize + 1,
                               (page - 1) * pageSize + Z.of_nat (List.length (rows page))))
       (Table.pages (pagination 1)).
Proof.
  intros P L pagination rows. subst rows pagination.
  cbn [snd Inventory.fetchInventory].
  unfold Table.pages, Table.totalPages. cbn [Table.total Table.pageSize].
  rewrite (ceiling_of_quotient _ _ P), <- L.
  set (t := Z.of_nat (List.length (Inventory.listed d))).
  pose proof (ceiling_bounds t pageSize P) as B.
  set (k := - (- t / pageSize)) in *.
  assert (T : 0 <= t) by (subst t; lia).
  assert (K : 0 <= k) by nia.
  rewrite map_map. split.
  - rewrite (map_ext _ (fun i => firstn (Z.to_nat pageSize)
                                   (skipn (i * Z.to_nat pageSize) (Inventory.listed d)))).
    2:{ intros i. now apply page_rows. }
    rewrite firstn_chunks. apply firstn_all2. subst t. nia.
  - apply Forall_forall. intros page I. apply in_map_iff in I as [i [<- I]].
    apply in_seq in I. rewrite page_rows by exact P.
    assert (Len : List.length (firstn (Z.to_nat pageSize)
                                 (skipn (i * Z.to_nat pageSize) (Inventory.listed d)))
                  = Nat.min (Z.to_nat pageSize)
                      (List.length (Inventory.listed d) - i * Z.to_nat pageSize)).
    { now rewrite length_firstn, length_skipn. }
    split; [|split].
    + intros E. rewrite E in Len. cbn in Len. subst t. nia.
    + rewrite Len. lia.
    + unfold Table.showing, Table.startIndex. cbn [Table.page Table.pageSize Table.total].
      f_equal. rewrite Len. subst t. nia.
Qed.

Lemma inventory_pages_witness :
  let d := mkDb [Product.mkRow 1 "Shirt" (Some "") "SH-1" (Sample.number 10) None None 0 5]
             [ProductVariant.mkRow 2 (Some 1%nat) (Some "S") None 1 5 None false None;
              ProductVariant.mkRow 3 (Some 1%nat) (Some "M") None 2 5 None false None;
              ProductVariant.mkRow 4 (Some 1%nat) (Some "L") None 3 5 None false None]
             [] [] 4 in
  map (fun page => map ProductVariant.id
                     (fst (Inventory.fetchInventory (Table.mkPagination page 2 3) d)))
    (Table.pages (Table.mkPagination 1 2 3))
  = [[4%nat; 3%nat]; [2%nat]]
  /\ List.concat (map (fun page => fst (Inventory.fetchInventory (Table.mkPagination page 2 3) d))
               (Table.pages (Table.mkPagination 1 2 3)))
     = Inventory.listed d.
Proof.
  intros d. split; [reflexivity|].
  exact (proj1 (inventory_pages_cover_the_list d 2 eq_refl eq_refl)).
Defined.

(** ** The dashboard: low stock and order statistics *)

Lemma status_label_cases (item : ProductVariant.row) :
  status_label item
  = if ProductVariant.quantity item =? 0 then "Out of Stock"
    else if ProductVariant.quantity item <=? ProductVariant.minimum_quantity item
         then "Low Stock" else "In Stock".
Proof.
  unfold status_label, Inventory.getStockStatus.
  destruct (ProductVariant.quantity item =? 0); [reflexivity|].
  destruct (ProductVariant.quantity item <=? ProductVariant.minimum_quantity item); reflexivity.
Qed.

Lemma in_firstn {A} (n : nat) (l : list A) (x : A) : In x (firstn n l) -> In x l.
Proof.
  revert l. induction n as [|n IH]; intros l I; [contradiction|].
  destruct l as [|y l]; [contradiction|]. destruct I as [I|I]; [now left | right; now apply IH].
Qed.

(** The dashboard's low-stock list and the inventory page's status differ
    exactly at the minimum.  The dashboard lists at most six variants, each
    below its minimum, and the inventory page never shows any of them as
    "In Stock"; a variant at its minimum, also one at 0 of 0, is "Low
    Stock" or "Out of Stock" on the inventory page and is not on the
    dashboard's list, and these are the only ones. *)
Theorem low_stock_lists_differ_at_the_minimum (productVariants : list ProductVariant.row) :
  forallb ProductVariant.row_ok productVariants = true ->
  (List.length (DashboardStore.lowStock_rows productVariants) <= 6)%nat
  /\ (forall item, In item (DashboardStore.lowStock_rows productVariants) ->
                   In item productVariants
                   /\ ProductVariant.quantity item < ProductVariant.minimum_quantity item
                   /\ status_label item <> "In Stock")
  /\ (forall item, In item productVariants ->
                   (status_label item <> "In Stock"
                    /\ ~ ProductVariant.quantity item < ProductVariant.minimum_quantity item)
                   <-> ProductVariant.quantity item = ProductVariant.minimum_quantity item).
Proof.
  intros V. unfold DashboardStore.lowStock_rows. split; [apply firstn_le_length|]. split.
  - intros item I. apply in_firstn in I. apply filter_In in I as [I Q].
    split; [exact I|]. split; [lia|].
    rewrite status_label_cases.
    destruct (ProductVariant.quantity item =? 0); [discriminate|].
    replace (ProductVariant.quantity item <=? ProductVariant.minimum_quantity item) with true by lia.
    discriminate.
  - intros item I. split.
    + intros [L N]. rewrite status_label_cases in L.
      destruct (ProductVariant.quantity item =? 0) eqn:Q0.
      * rewrite forallb_forall in V. specialize (V item I).
        unfold ProductVariant.row_ok in V.
        apply andb_prop in V as [V _]. apply andb_prop in V as [_ V]. lia.
      * destruct (ProductVariant.quantity item <=? ProductVariant.minimum_quantity item) eqn:Q1;
          [lia | now contradiction L].
    + intros E. split; [|lia]. rewrite status_label_cases, E, Z.leb_refl.
      destruct (ProductVariant.minimum_quantity item =? 0); discriminate.
Qed.

Lemma low_stock_witness :
  let rows := [ProductVariant.mkRow 1 (Some 1%nat) None None 5 5 None true None;
               ProductVariant.mkRow 2 (Some 1%nat) (Some "M") None 4 5 None false None] in
  map status_label rows = ["Low Stock"; "Low Stock"]
  /\ map ProductVariant.id (DashboardStore.lowStock_rows rows) = [2%nat]
  /\ forall item, In item (DashboardStore.lowStock_rows rows) -> status_label item <> "In Stock".
Proof.
  intros rows. split; [reflexivity|]. split; [reflexivity|].
  intros item I.
  apply (proj1 (proj2 (low_stock_lists_differ_at_the_minimum rows eq_refl)) item I).
Defined.











